(** * Book scraper: collector ([parser.py]) and reporter ([analyze.py])

  A shallow embedding of the two command-line tools and the properties
  their specification states about them.  Python values are modelled as
  the interpreter has them: a [str] is a sequence of Unicode code points,
  a [float] is an IEEE 754 binary64 number (the kernel's primitive
  floats), an [int] is an unbounded integer.  Console output, sleeping
  and HTTP requests are recorded as events. *)

From Stdlib Require Import String Ascii.
From Stdlib Require Import List ZArith NArith Bool Lia.
From Stdlib Require Import Floats Permutation.
Import ListNotations.

Set Warnings "-inexact-float".

(** ** Python strings *)

Module Str.

Local Open Scope N_scope.

(** A Python [str]: its code points, in order. *)
Definition str := list N.

(** An ASCII literal of the source as a [str]. *)
Definition lit (s : string) : str :=
  map N_of_ascii (list_ascii_of_string s).

(** [a == b] *)
Definition str_eqb (a b : str) : bool :=
  if list_eq_dec N.eq_dec a b then true else false.

(** [s.startswith(p)] *)
Fixpoint startswith (p s : str) : bool :=
  match p, s with
  | [], _ => true
  | _ :: _, [] => false
  | a :: p', b :: s' => N.eqb a b && startswith p' s'
  end.

(** [p in s] for two strings: [p] occurs in [s] as a substring. *)
Fixpoint contains (p s : str) : bool :=
  startswith p s ||
  match s with
  | [] => false
  | _ :: s' => contains p s'
  end.

(** [bool(s)]: a string is truthy when it is not empty. *)
Definition truthy (s : str) : bool :=
  match s with [] => false | _ :: _ => true end.

(** [old + new] is written [old ++ new]; [len(s)] is [length s]. *)

(** [s.replace(old, new)]: every occurrence of [old], found from the left
    and not overlapping the one before, becomes [new].  [skip] counts the
    characters of an occurrence still to be passed over. *)
Fixpoint replace_from (old new : str) (skip : nat) (s : str) : str :=
  match s with
  | [] => []
  | c :: rest =>
      match skip with
      | S k => replace_from old new k rest
      | O =>
          if startswith old s
          then new ++ replace_from old new (length old - 1) rest
          else c :: replace_from old new 0 rest
      end
  end.

(** With an empty [old], [new] goes before every character and at the
    end. *)
Definition replace (old new s : str) : str :=
  match old with
  | [] => new ++ flat_map (fun c => c :: new) s
  | _ :: _ => replace_from old new 0 s
  end.

(** [c.isspace()]: the code points Python takes for whitespace. *)
Definition isspace (c : N) : bool :=
  ((9 <=? c) && (c <=? 13)) || ((28 <=? c) && (c <=? 32))
  || (c =? 133) || (c =? 160) || (c =? 5760)
  || ((8192 <=? c) && (c <=? 8202))
  || (c =? 8232) || (c =? 8233) || (c =? 8239) || (c =? 8287)
  || (c =? 12288).

Fixpoint lstrip (s : str) : str :=
  match s with
  | c :: rest => if isspace c then lstrip rest else s
  | [] => []
  end.

Definition rstrip (s : str) : str := rev (lstrip (rev s)).

(** [s.strip()] *)
Definition strip (s : str) : str := rstrip (lstrip s).

(** [str(n)] for an integer: its decimal digits. *)
Fixpoint decimal_digits (fuel : nat) (n : N) (acc : str) : str :=
  match fuel with
  | O => acc
  | S fuel' =>
      let acc := (48 + n mod 10) :: acc in
      if n / 10 =? 0 then acc else decimal_digits fuel' (n / 10) acc
  end.

Definition str_of_N (n : N) : str :=
  decimal_digits (S (N.to_nat (N.log2 n))) n [].

Definition str_of_Z (z : Z) : str :=
  if (z <? 0)%Z then 45 :: str_of_N (Z.to_N (- z)) else str_of_N (Z.to_N z).

End Str.

Import Str.

Notation "'py' s" := (lit s%string) (at level 9, s at level 0, only parsing).

(** ** Python floats *)

Module PyFloat.

(** [bool(x)] for a float: [x != 0.0], so both zeros are falsy and NaN
    is truthy. *)
Definition truthy (x : float) : bool := negb (PrimFloat.eqb x 0%float).

(** *** [float(s)] *)

Local Open Scope N_scope.

Definition is_digit (c : N) : bool := (48 <=? c) && (c <=? 57).

(** The number a string of ASCII digits writes. *)
Definition digits_value (ds : str) : Z :=
  fold_left (fun acc c => (10 * acc + Z.of_N (c - 48))%Z) ds 0%Z.

(** The digits a string starts with, and the rest of it. *)
Fixpoint span_digits (s : str) : str * str :=
  match s with
  | c :: rest =>
      if is_digit c
      then let (ds, rest') := span_digits rest in (c :: ds, rest')
      else ([], s)
  | [] => ([], [])
  end.

(** An optional sign: whether it is a minus, and the rest. *)
Definition split_sign (s : str) : bool * str :=
  match s with
  | 45 :: rest => (true, rest)
  | 43 :: rest => (false, rest)
  | _ => (false, s)
  end.

(** The double nearest to [m * 10^e10] (ties to even), signed; [m] is not
    negative.  Past the range of doubles the result is an infinity or a
    zero, as the rounding gives. *)
Definition round_decimal (negative : bool) (m : Z) (e10 : Z) : float :=
  match m with
  | Zpos p =>
      let size := (Z.of_nat (length (Str.str_of_N (Npos p))) + e10)%Z in
      if (size >? 310)%Z then (if negative then neg_infinity else infinity)
      else if (size <? -330)%Z then (if negative then neg_zero else zero)
      else if (0 <=? e10)%Z then
        SF2Prim (binary_round prec emax negative (p * Z.to_pos (10 ^ e10)) 0)
      else
        SF2Prim (SFdiv prec emax (S754_finite negative p 0)
                   (S754_finite false (Z.to_pos (10 ^ (- e10))) 0))
  | _ => if negative then neg_zero else zero
  end.

(** The exponent part [e[+-]digits], when there is one: its value and the
    rest.  An [e] with no digit after it is not part of the number. *)
Definition split_exponent (s : str) : Z * str :=
  match s with
  | c :: rest =>
      if (c =? 101) || (c =? 69) then
        let (negative, rest) := split_sign rest in
        match span_digits rest with
        | ([], _) => (0%Z, s)
        | (ds, rest') =>
            ((if negative then - digits_value ds else digits_value ds)%Z, rest')
        end
      else (0%Z, s)
  | [] => (0%Z, [])
  end.

(** The decimal number a string starts with (a sign, digits with at most
    one point and at least one digit, an exponent) and the rest of the
    string; [None] when it starts with no number. *)
Definition strtod (s : str) : option (float * str) :=
  let (negative, s1) := split_sign s in
  let (int_digits, s2) := span_digits s1 in
  let (frac_digits, s3) :=
    match s2 with
    | 46 :: rest => span_digits rest
    | _ => ([], s2)
    end in
  match int_digits ++ frac_digits with
  | [] => None
  | ds =>
      let s3 := match s2, frac_digits with
                | 46 :: rest, [] => rest
                | _, _ => s3
                end in
      let (e, s4) := split_exponent s3 in
      Some (round_decimal negative (digits_value ds)
              (e - Z.of_nat (length frac_digits)), s4)
  end.

(** ASCII letters compared without case. *)
Definition lower (c : N) : N :=
  if (65 <=? c) && (c <=? 90) then c + 32 else c.

Fixpoint starts_with_word (word s : str) : option str :=
  match word, s with
  | [], _ => Some s
  | w :: word', c :: s' =>
      if lower c =? w then starts_with_word word' s' else None
  | _ :: _, [] => None
  end.

(** [inf], [infinity] and [nan] with an optional sign, in any case. *)
Definition parse_inf_or_nan (s : str) : option (float * str) :=
  let (negative, s1) := split_sign s in
  match starts_with_word (Str.lit "inf") s1 with
  | Some rest =>
      let rest := match starts_with_word (Str.lit "inity") rest with
                  | Some rest' => rest'
                  | None => rest
                  end in
      Some (if negative then neg_infinity else infinity, rest)
  | None =>
      match starts_with_word (Str.lit "nan") s1 with
      | Some rest => Some (nan, rest)
      | None => None
      end
  end.

(** [PyOS_string_to_double]: a number, or else an infinity or a NaN. *)
Definition string_to_double (s : str) : option (float * str) :=
  match strtod s with
  | Some r => Some r
  | None => parse_inf_or_nan s
  end.

(** The whitespace [float] strips once the string is ASCII. *)
Definition is_ascii_space (c : N) : bool :=
  ((9 <=? c) && (c <=? 13)) || (c =? 32).

Fixpoint lstrip_ascii (s : str) : str :=
  match s with
  | c :: rest => if is_ascii_space c then lstrip_ascii rest else s
  | [] => []
  end.

(** Underscores may stand between two digits only; they are dropped.
    [prev] is the character before. *)
Fixpoint drop_underscores (prev : N) (s : str) : option str :=
  match s with
  | [] => if prev =? 95 then None else Some []
  | c :: rest =>
      if c =? 95 then
        if is_digit prev then drop_underscores c rest else None
      else if (prev =? 95) && negb (is_digit c) then None
      else option_map (cons c) (drop_underscores c rest)
  end.

(** *** [repr(x)] *)

(** Whether [num / den >= 10^k]. *)
Definition at_least_pow10 (num den k : Z) : bool :=
  if (0 <=? k)%Z then (den * 10 ^ k <=? num)%Z
  else (den <=? num * 10 ^ (- k))%Z.

Definition count_digits (n : Z) : Z :=
  Z.of_nat (length (Str.str_of_N (Z.to_N n))).

(** The [k] with [10^k <= num / den < 10^(k+1)]. *)
Definition decimal_exponent (num den : Z) : Z :=
  let k := (count_digits num - count_digits den)%Z in
  if at_least_pow10 num den k then k else (k - 1)%Z.

(** The shortest decimal [c * 10^e] that [float] reads back as [x], and
    of the decimals that short the nearest to [x]: with [p] digits the
    two neighbours of [x] are tried, the nearer first; 17 digits always
    do.  [x] is [num / den], positive. *)
Fixpoint shortest_digits (fuel : nat) (p : Z) (num den k : Z) (x : float)
  : Z * Z :=
  let shift := (p - 1 - k)%Z in
  let n1 := if (0 <=? shift)%Z then (num * 10 ^ shift)%Z else num in
  let d1 := if (0 <=? shift)%Z then den else (den * 10 ^ (- shift))%Z in
  let q := (n1 / d1)%Z in
  let r := (n1 mod d1)%Z in
  let below_first :=
    if (2 * r <? d1)%Z then true
    else if (d1 <? 2 * r)%Z then false
    else Z.even q in
  let tries := if below_first then [q; (q + 1)%Z] else [(q + 1)%Z; q] in
  let e := (k - p + 1)%Z in
  match find (fun c => PrimFloat.eqb (round_decimal false c e) x) tries with
  | Some c => (c, e)
  | None =>
      match fuel with
      | O => (if below_first then q else (q + 1)%Z, e)
      | S fuel' => shortest_digits fuel' (p + 1) num den k x
      end
  end.

(** Trailing zeros go into the exponent. *)
Fixpoint strip_zeros (fuel : nat) (c e : Z) : Z * Z :=
  match fuel with
  | O => (c, e)
  | S fuel' =>
      if ((c mod 10 =? 0) && negb (c =? 0))%Z
      then strip_zeros fuel' (c / 10)%Z (e + 1)%Z
      else (c, e)
  end.

Definition zeros (n : Z) : str := repeat 48 (Z.to_nat n).

(** The digits [ds] with the point after the first [decpt] of them; the
    exponent form is used for a point far from the digits. *)
Definition format_digits (ds : str) (decpt : Z) : str :=
  let n := Z.of_nat (length ds) in
  if ((-4 <? decpt) && (decpt <=? 16))%Z then
    if (decpt <=? 0)%Z then Str.lit "0." ++ zeros (- decpt) ++ ds
    else if (n <=? decpt)%Z then ds ++ zeros (decpt - n) ++ Str.lit ".0"
    else firstn (Z.to_nat decpt) ds ++ [46] ++ skipn (Z.to_nat decpt) ds
  else
    let e := (decpt - 1)%Z in
    let mantissa := match ds with
                    | d :: d' :: rest => d :: 46 :: d' :: rest
                    | _ => ds
                    end in
    let digits := Str.str_of_N (Z.to_N (Z.abs e)) in
    mantissa ++ [101] ++ (if (e <? 0)%Z then [45] else [43])
    ++ (if (Z.abs e <? 10)%Z then 48 :: digits else digits).

(** [repr(x)], which is also numpy's text of a float64. *)
Definition repr (x : float) : str :=
  match Prim2SF x with
  | S754_nan => Str.lit "nan"
  | S754_infinity negative =>
      if negative then Str.lit "-inf" else Str.lit "inf"
  | S754_zero negative =>
      if negative then Str.lit "-0.0" else Str.lit "0.0"
  | S754_finite negative m e =>
      let num := if (0 <=? e)%Z then (Zpos m * 2 ^ e)%Z else Zpos m in
      let den := if (0 <=? e)%Z then 1%Z else (2 ^ (- e))%Z in
      let k := decimal_exponent num den in
      let (c, e10) := shortest_digits 16 1 num den k (abs x) in
      let (c, e10) := strip_zeros 17 c e10 in
      let ds := Str.str_of_N (Z.to_N c) in
      (if negative then [45] else [])
      ++ format_digits ds (Z.of_nat (length ds) + e10)
  end.

Section Float.

(** The decimal digit a code point outside ASCII stands for in the
    interpreter's Unicode database ([Py_UNICODE_TODECIMAL]), if any. *)
Variable unicode_decimal : N -> option N.

(** A string as [float] reads it: ASCII as it is, other whitespace as a
    space, other decimal digits as ASCII digits, and a [?] in place of the
    first character that is none of these, where the string is cut. *)
Fixpoint to_ascii (s : str) : str :=
  match s with
  | [] => []
  | c :: rest =>
      if c <? 127 then c :: to_ascii rest
      else if Str.isspace c then 32 :: to_ascii rest
      else match unicode_decimal c with
           | Some d => (48 + d) :: to_ascii rest
           | None => [63]
           end
  end.

(** [float(s)] for a string; [None] stands for [ValueError]. *)
Definition float_of_str (s : str) : option float :=
  let a := to_ascii s in
  match (if existsb (N.eqb 95) a then drop_underscores 0 a else Some a) with
  | None => None
  | Some a =>
      match rev (lstrip_ascii (rev (lstrip_ascii a))) with
      | [] => None
      | t =>
          match string_to_double t with
          | Some (x, []) => Some x
          | _ => None
          end
      end
  end.

End Float.

End PyFloat.

(** ** The table of records *)

(** One row of the table both tools work on.  A cell of a text column is
    a [str] or missing (pandas' NaN, which [read_csv] may return and
    [filter_by_keyword] expects: [na=False]); [price] is a float64 cell,
    [rating] an int64 cell.  The text columns are columns of Python
    objects, as the collector builds them and [read_csv] returns them
    when a cell holds a text; a table whose title column was read as
    numbers, on which pandas refuses [.str], is not a table of these
    rows. *)
Record book := Book {
  title : option str;
  price : float;
  rating : Z;
  link : option str
}.

(** A [DataFrame] with the columns [title, price, rating, link]: its rows
    in order. *)
Definition DataFrame := list book.

(** ** The collector, [parser.py] *)

Module Parser.

(** *** Field extraction *)

(** What the extraction of one book may raise: a lookup in the markup
    that finds nothing ([AttributeError], [TypeError], [KeyError]), or
    [float] on a string that is no number. *)
Inductive exn :=
| LookupFailed
| ValueError (s : str).

Section Extraction.

Variable unicode_decimal : N -> option N.

Definition parse_price (price_text : str) : exn + float :=
  let s := strip (replace [194%N] [] (replace [163%N] [] price_text)) in
  match PyFloat.float_of_str unicode_decimal s with
  | Some x => inr x
  | None => inl (ValueError s)
  end.

(** The value of a [class] attribute: the list of its tokens, as
    BeautifulSoup returns it, or a plain string. *)
Inductive class_value :=
| ClassTokens (tokens : list str)
| ClassText (text : str).

(** [key in rating_class] *)
Definition key_in (key : str) (rating_class : class_value) : bool :=
  match rating_class with
  | ClassTokens tokens => existsb (str_eqb key) tokens
  | ClassText text => contains key text
  end.

(** The dict of [parse_rating], in the order its keys are iterated. *)
Definition rating_map : list (str * Z) :=
  [ (py"One", 1%Z); (py"Two", 2%Z); (py"Three", 3%Z);
    (py"Four", 4%Z); (py"Five", 5%Z) ].

Fixpoint first_key_in (map : list (str * Z)) (rating_class : class_value) : Z :=
  match map with
  | [] => 0%Z
  | (key, value) :: rest =>
      if key_in key rating_class then value
      else first_key_in rest rating_class
  end.

Definition parse_rating (rating_class : class_value) : Z :=
  first_key_in rating_map rating_class.

(** One [article.product_pod] element of a page, by what the lookups of
    [parse_books] find in it; [None] when the lookup raises. *)
Record article := Article {
  h3_a_title : option str;
  price_color_text : option str;
  h3_a_href : option str;
  star_rating_class : option (list str)
}.

Definition lookup {A} (found : option A) : exn + A :=
  match found with
  | Some a => inr a
  | None => inl LookupFailed
  end.

Definition and_then {A B} (r : exn + A) (k : A -> exn + B) : exn + B :=
  match r with
  | inr a => k a
  | inl e => inl e
  end.

(** The body of the [try] in [parse_books]: the record of one book. *)
Definition extract_book (base_url : str) (b : article) : exn + book :=
  and_then (lookup (h3_a_title b)) (fun title =>
  and_then (lookup (price_color_text b)) (fun price_text =>
  and_then (parse_price price_text) (fun price =>
  and_then (lookup (h3_a_href b)) (fun href =>
  let link := base_url ++ py"/catalogue/" ++ replace (py"../") [] href in
  and_then (lookup (star_rating_class b)) (fun rating_class =>
  let rating := parse_rating (ClassTokens rating_class) in
  inr (Book (Some title) price rating (Some link))))))).

End Extraction.

(** *** Requests, pauses and messages *)

(** What [requests.get] followed by [raise_for_status] gives: the page,
    by the [article.product_pod] elements BeautifulSoup finds in it, or a
    [RequestException] (timeout, connection error, a status from 400 to
    599). *)
Inductive response :=
| Page (books : list article)
| RequestException (e : str).

(** What [requests.get] alone gives: a response, by its status code, the
    text of the [HTTPError] that [raise_for_status] makes of it when it
    raises, and the books found in its content; or no response, a
    [RequestException] raised for a timeout or a connection error. *)
Inductive answer :=
| Response (status_code : Z) (http_error_msg : str) (books : list article)
| NoResponse (e : str).

(** [response.raise_for_status()]: it raises for a status from 400 to 599
    and for no other; a response that it lets through is parsed, whatever
    its status. *)
Definition raise_for_status (a : answer) : response :=
  match a with
  | NoResponse e => RequestException e
  | Response status_code http_error_msg books =>
      if ((400 <=? status_code) && (status_code <? 600))%Z
      then RequestException http_error_msg
      else Page books
  end.

Inductive message :=
| RequestFailed (url : str) (attempt retry : Z) (e : str)
| GaveUp (retry : Z)
| ParsingPage (page_num : Z) (url : str)
| BookFailed (e : exn)
| BooksFound (page_num : Z) (found : nat).

(** What the collector does to the world, in order. *)
Inductive event :=
| Get (url : str) (timeout : Z)
| Sleep (seconds : Z)
| Print (m : message).

(** A computation reads what happened so far and adds to it. *)
Definition io (A : Type) : Type := list event -> A * list event.

Definition ret {A} (a : A) : io A := fun past => (a, past).
Definition bind {A B} (m : io A) (k : A -> io B) : io B :=
  fun past => let (a, past') := m past in k a past'.
Definition emit (e : event) : io unit := fun past => (tt, past ++ [e]).

Notation "x <- m ;; k" := (bind m (fun x => k))
  (at level 61, m at next level, right associativity).
Notation "m ;; k" := (bind m (fun _ => k))
  (at level 61, right associativity).

(** A site given by what it answers, as the two calls of [fetch_page]
    take it. *)
Definition served (site : list event -> str -> Z -> answer)
  : list event -> str -> Z -> response :=
  fun past url timeout => raise_for_status (site past url timeout).

(** [range(a, b)] *)
Definition range (a b : Z) : list Z :=
  map (fun i => (a + Z.of_nat i)%Z) (seq 0 (Z.to_nat (b - a))).

Section Collector.

Variable unicode_decimal : N -> option N.

(** The remote site: its response to a request, given all that happened
    before it. *)
Variable network : list event -> str -> Z -> response.

Definition get (url : str) (timeout : Z) : io response :=
  fun past => (network past url timeout, past ++ [Get url timeout]).

(** The loop of [fetch_page] over the attempts left. *)
Fixpoint fetch_attempts (url : str) (retry timeout : Z) (attempts : list Z)
  : io (option (list article)) :=
  match attempts with
  | [] => ret None
  | attempt :: rest =>
      r <- get url timeout ;;
      match r with
      | Page soup => ret (Some soup)
      | RequestException e =>
          emit (Print (RequestFailed url (attempt + 1) retry e)) ;;
          if (attempt <? retry - 1)%Z then
            emit (Sleep 2) ;;
            fetch_attempts url retry timeout rest
          else
            emit (Print (GaveUp retry)) ;;
            ret None
      end
  end.

Definition fetch_page (url : str) (retry timeout : Z)
  : io (option (list article)) :=
  fetch_attempts url retry timeout (range 0 retry).

(** The loop over the books of a page. *)
Fixpoint parse_page (base_url : str) (books : list article)
  (all_books : list book) : io (list book) :=
  match books with
  | [] => ret all_books
  | b :: rest =>
      match extract_book unicode_decimal base_url b with
      | inr record => parse_page base_url rest (all_books ++ [record])
      | inl e =>
          emit (Print (BookFailed e)) ;;
          parse_page base_url rest all_books
      end
  end.

Definition page_url (base_url : str) (page_num : Z) : str :=
  base_url ++ py"/catalogue/page-" ++ str_of_Z page_num ++ py".html".

(** The loop of [parse_books] over the pages left. *)
Fixpoint parse_pages (base_url : str) (pages : list Z) (all_books : list book)
  : io (list book) :=
  match pages with
  | [] => ret all_books
  | page_num :: rest =>
      let url := page_url base_url page_num in
      emit (Print (ParsingPage page_num url)) ;;
      soup <- fetch_page url 3 10 ;;
      match soup with
      | None => parse_pages base_url rest all_books
      | Some books =>
          all_books <- parse_page base_url books all_books ;;
          emit (Print (BooksFound page_num (length books))) ;;
          emit (Sleep 1) ;;
          parse_pages base_url rest all_books
      end
  end.

Definition parse_books (base_url : str) (num_pages : Z) : io DataFrame :=
  parse_pages base_url (range 1 (num_pages + 1)) [].

End Collector.

(** *** Numerals, traces and sites the properties speak of *)

Local Open Scope N_scope.

(** What Python's [key in rating_class] asks: the key is one of the
    elements of a list, or a stretch of the characters of a string. *)
Definition occurs_in (key : str) (rating_class : class_value) : Prop :=
  match rating_class with
  | ClassTokens tokens => In key tokens
  | ClassText text => exists before after, text = before ++ key ++ after
  end.

(** A character of a numeral: a digit or the point. *)
Definition numeral_char (c : N) : bool := PyFloat.is_digit c || (c =? 46).

(** Neither the pound sign nor the artifact. *)
Definition kept (c : N) : bool := negb (163 =? c) && negb (194 =? c).

(** An interpreter whose Unicode database knows no digit outside ASCII;
    the examples below stay within ASCII and Latin-1. *)
Definition ascii_digits_only : N -> option N := fun _ => None.

Local Open Scope Z_scope.

(** What [fetch_page] does when the attempts numbered from [attempt] on
    fail with the given errors: a request and a message for each, then a
    pause of 2 before the next attempt, or the closing message after the
    last one. *)
Fixpoint failed_attempts (url : str) (retry timeout attempt : Z)
  (errors : list str) : list event :=
  match errors with
  | [] => []
  | e :: rest =>
      [Get url timeout; Print (RequestFailed url attempt retry e)]
      ++ (if attempt <? retry then [Sleep 2] else [Print (GaveUp retry)])
      ++ failed_attempts url retry timeout (attempt + 1) rest
  end.

Definition is_get (e : event) : bool :=
  match e with Get _ _ => true | _ => false end.

Definition is_sleep (e : event) : bool :=
  match e with Sleep _ => true | _ => false end.

Definition is_request_failed (e : event) : bool :=
  match e with Print (RequestFailed _ _ _ _) => true | _ => false end.

(** A site that is down: every request times out. *)
Definition site_down : list event -> str -> Z -> response :=
  fun _ _ _ => RequestException py"timed out".




(** A site that answers every request 304, with an empty body. *)
Definition not_modified : list event -> str -> Z -> answer :=
  fun _ _ _ => Response 304 [] [].

(** A site whose first page cannot be fetched; its other pages hold no
    book. *)
Definition first_page_down (base_url : str)
  : list event -> str -> Z -> response :=
  fun _ url _ =>
    if str_eqb url (page_url base_url 1)
    then RequestException py"timed out"
    else Page [].

(** *** Served pages, records and counts the properties speak of *)

Definition is_gave_up (e : event) : bool :=
  match e with Print (GaveUp _) => true | _ => false end.

(** The pause after a page, [time.sleep(1)]. *)
Definition is_page_pause (e : event) : bool :=
  match e with Sleep s => s =? 1 | _ => false end.

Definition is_books_found (e : event) : bool :=
  match e with Print (BooksFound _ _) => true | _ => false end.

(** The records among the results of the extractions, and the errors. *)
Fixpoint records (results : list (exn + book)) : list book :=
  match results with
  | [] => []
  | inr b :: rest => b :: records rest
  | inl _ :: rest => records rest
  end.

Fixpoint failures (results : list (exn + book)) : list exn :=
  match results with
  | [] => []
  | inr _ :: rest => failures rest
  | inl e :: rest => e :: failures rest
  end.

(** A record as the collector builds one: a title, a link under the
    catalogue of the site and a rating from 0 to 5. *)
Definition well_formed (base_url : str) (b : book) : bool :=
  match title b, link b with
  | Some _, Some l =>
      startswith (base_url ++ py"/catalogue/") l
      && (0 <=? rating b) && (rating b <=? 5)
  | _, _ => false
  end.


(** A site that fails the first [k] requests made of it and serves
    [page] from then on. *)
Definition flaky_site (k : nat) (page : list article)
  : list event -> str -> Z -> response :=
  fun past _ _ =>
    if (length (filter is_get past) <? k)%nat
    then RequestException py"timed out"
    else Page page.

(** An article with all four fields, and one without a price. *)
Definition good_article : article :=
  Article (Some py"Sharp Objects") (Some (163%N :: py"47.82"))
          (Some py"sharp-objects_997/index.html")
          (Some [py"star-rating"; py"Four"]).

Definition no_price_article : article :=
  Article (Some py"Sapiens") None (Some py"sapiens_996/index.html")
          (Some [py"star-rating"; py"Five"]).

(** What one [fetch_page] of a URL adds to the trace: requests for that
    URL, messages of failure and pauses of 2. *)
Definition fetch_event (url : str) (timeout : Z) (e : event) : Prop :=
  match e with
  | Get u t => u = url /\ t = timeout
  | Sleep s => s = 2
  | Print (RequestFailed _ _ _ _) | Print (GaveUp _) => True
  | Print _ => False
  end.

(** What [parse_books] adds to the trace for the pages of a list. *)
Definition page_event (base_url : str) (pages : list Z) (e : event) : Prop :=
  match e with
  | Get url timeout =>
      timeout = 10 /\ exists page_num, In page_num pages /\
                                       url = page_url base_url page_num
  | Sleep s => s = 1 \/ s = 2
  | Print _ => True
  end.

(** A site that serves every request: the books found at each URL. *)
Definition open_site (site : str -> list article)
  : list event -> str -> Z -> response :=
  fun _ url _ => Page (site url).

(** The records of the books of a page of the site. *)
Definition page_records (unicode_decimal : N -> option N)
  (site : str -> list article) (base_url : str) (page_num : Z)
  : list book :=
  records (map (extract_book unicode_decimal base_url)
             (site (page_url base_url page_num))).

End Parser.

(** ** The reporter, [analyze.py] *)

Module Analyze.

(** What a function of the reporter may raise. *)
Inductive exn :=
| ReError (pattern : str)   (* keyword is not a valid regular expression *)
| TypeErrorLen.             (* [len(x)] of a missing cell *)

(** What the [display_df] table holds after formatting: the price is
    shown through [f"£{x:.2f}"]. *)
Record display_row := DisplayRow {
  d_title : str;
  d_price : float;
  d_rating : Z;
  d_link : str
}.

(** The lines the reporter prints.  A statistic is recorded with the
    column it is computed from. *)
Inductive line :=
| PriceFilterLine (max_price : float)
| KeywordFilterLine (keyword : str)
| RatingFilterLine (min_rating : Z)
| SortLine (sort_by : str) (ascending : bool)
| NoResultsLine
| RuleLine
| CountLine (found shown : nat)
| TableLines (rows : list display_row)
| StatsHeaderLine
| MeanPriceLine (prices : list float)
| MinPriceLine (prices : list float)
| MaxPriceLine (prices : list float)
| MeanRatingLine (ratings : list Z).

(** A call either returns or raises, after printing some lines. *)
Inductive outcome (A : Type) :=
| Returned (a : A)
| Raised (e : exn).
Arguments Returned {A} a.
Arguments Raised {A} e.

Definition io (A : Type) : Type := (list line * outcome A)%type.

Definition ret {A} (a : A) : io A := ([], Returned a).
Definition raise {A} (e : exn) : io A := ([], Raised e).
Definition print (l : line) : io unit := ([l], Returned tt).
Definition bind {A B} (m : io A) (k : A -> io B) : io B :=
  match m with
  | (out, Returned a) => let (out', r) := k a in (out ++ out', r)
  | (out, Raised e) => (out, Raised e)
  end.

Notation "x <- m ;; k" := (bind m (fun x => k))
  (at level 61, m at next level, right associativity).
Notation "m ;; k" := (bind m (fun _ => k))
  (at level 61, right associativity).

(** The lines printed, and what the caller gets. *)
Definition printed {A} (m : io A) : list line := fst m.
Definition result {A} (m : io A) : outcome A := snd m.

Section Filters.

(** [re.compile(pat, re.IGNORECASE)] followed by
    [.search(x) is not None], which [Series.str.contains] maps over the
    column ([regex=True] is its default); [None] when the pattern does
    not compile. *)
Variable re_search_ignorecase : str -> option (str -> bool).

Definition filter_by_price (df : DataFrame) (max_price : option float)
  : io DataFrame :=
  match max_price with
  | Some p =>
      if PyFloat.truthy p then
        let df := filter (fun b => (price b <=? p)%float) df in
        print (PriceFilterLine p) ;;
        ret df
      else ret df
  | None => ret df
  end.

(** The title column is taken for a column of texts, the kind that has
    the [.str] accessor; what becomes of a run on a loaded table
    without one is told in [AnalyzeCli.main]. *)
Definition filter_by_keyword (df : DataFrame) (keyword : option str)
  : io DataFrame :=
  match keyword with
  | Some k =>
      if Str.truthy k then
        match re_search_ignorecase k with
        | Some found =>
            let df := filter (fun b => match title b with
                                       | Some t => found t
                                       | None => false
                                       end) df in
            print (KeywordFilterLine k) ;;
            ret df
        | None => raise (ReError k)
        end
      else ret df
  | None => ret df
  end.

Definition filter_by_rating (df : DataFrame) (min_rating : option Z)
  : io DataFrame :=
  match min_rating with
  | Some r =>
      if negb (r =? 0)%Z then
        let df := filter (fun b => (rating b >=? r)%Z) df in
        print (RatingFilterLine r) ;;
        ret df
      else ret df
  | None => ret df
  end.

End Filters.

(** *** Sorting *)

(** The columns of the table, [df.columns]. *)
Inductive column := ColTitle | ColPrice | ColRating | ColLink.

Definition column_name (c : column) : str :=
  match c with
  | ColTitle => py"title"
  | ColPrice => py"price"
  | ColRating => py"rating"
  | ColLink => py"link"
  end.

Definition columns : list column := [ColTitle; ColPrice; ColRating; ColLink].

(** [sort_by in df.columns], with the column found. *)
Definition find_column (sort_by : str) : option column :=
  find (fun c => str_eqb sort_by (column_name c)) columns.

(** A value of the column being sorted, as numpy compares it. *)
Inductive key :=
| KFloat (x : float)
| KInt (z : Z)
| KStr (s : str).

(** [a < b] on strings: by code point, a proper prefix first. *)
Fixpoint str_ltb (a b : str) : bool :=
  match a, b with
  | _, [] => false
  | [], _ :: _ => true
  | x :: a', y :: b' => (x <? y)%N || ((x =? y)%N && str_ltb a' b')
  end.

(** The comparison of the column's dtype; a column holds one kind of key. *)
Definition key_ltb (a b : key) : bool :=
  match a, b with
  | KFloat x, KFloat y => (x <? y)%float
  | KInt x, KInt y => (x <? y)%Z
  | KStr x, KStr y => str_ltb x y
  | _, _ => false
  end.

(** The cell of a row in a column; [None] is a missing value ([isna]). *)
Definition cell (c : column) (b : book) : option key :=
  match c with
  | ColTitle => option_map KStr (title b)
  | ColPrice => if is_nan (price b) then None else Some (KFloat (price b))
  | ColRating => Some (KInt (rating b))
  | ColLink => option_map KStr (link b)
  end.

(** The positions and values of the cells that are present, and the
    positions of the missing ones. *)
Fixpoint split_na (i : nat) (items : list (option key))
  : list (nat * key) * list nat :=
  match items with
  | [] => ([], [])
  | Some k :: rest =>
      let (present, missing) := split_na (S i) rest in
      ((i, k) :: present, missing)
  | None :: rest =>
      let (present, missing) := split_na (S i) rest in (present, i :: missing)
  end.

Section Sort.

(** [ndarray.argsort(kind='quicksort')], the default [kind] of
    [sort_values]: the positions of the array's elements in ascending
    order.  numpy leaves the order of equal elements open. *)
Variable argsort : list key -> list nat.

(** The cells that are present, as [nargsort] hands them to [argsort]:
    in the column's order, or reversed for a descending sort. *)
Definition present_cells (items : list (option key)) (ascending : bool)
  : list (nat * key) :=
  let present := fst (split_na 0 items) in
  if ascending then present else rev present.

(** pandas' [nargsort] with [na_position='last']: the missing cells are
    set apart, a descending sort reverses the rest before and after
    [argsort], and the missing cells come last. *)
Definition nargsort (items : list (option key)) (ascending : bool) : list nat :=
  let present := present_cells items ascending in
  let nan_idx := snd (split_na 0 items) in
  let non_nan_idx := map fst present in
  let non_nans := map snd present in
  let indexer := map (fun j => nth j non_nan_idx 0%nat) (argsort non_nans) in
  let indexer := if ascending then indexer else rev indexer in
  indexer ++ nan_idx.

(** [df.take(indexer)]: the rows at the given positions. *)
Definition take (df : DataFrame) (indexer : list nat) : DataFrame :=
  flat_map (fun i => match nth_error df i with
                     | Some b => [b]
                     | None => []
                     end) indexer.

(** [df.sort_values(by=c, ascending=ascending)] *)
Definition sort_values (df : DataFrame) (c : column) (ascending : bool)
  : DataFrame :=
  take df (nargsort (map (cell c) df) ascending).

Definition sort_data (df : DataFrame) (sort_by : str) (ascending : bool)
  : io DataFrame :=
  match find_column sort_by with
  | Some c =>
      let df := sort_values df c ascending in
      print (SortLine sort_by ascending) ;;
      ret df
  | None => ret df
  end.

End Sort.

(** The keys [sort_values] hands to [argsort] for a column. *)
Definition sort_keys (df : DataFrame) (c : column) (ascending : bool)
  : list key :=
  map snd (present_cells (map (cell c) df) ascending).

(** *** What [argsort] promises, and what a sorted table is *)

(** Every two neighbours of the list are related. *)
Fixpoint adjacent {A} (R : A -> A -> bool) (l : list A) : bool :=
  match l with
  | a :: ((b :: _) as rest) => R a b && adjacent R rest
  | _ => true
  end.

(** The key at position [j] is not less than the key at position [i]. *)
Definition not_after (ks : list key) (i j : nat) : bool :=
  match nth_error ks i, nth_error ks j with
  | Some a, Some b => negb (key_ltb b a)
  | _, _ => false
  end.

(** [idx] lists each position below [n] once. *)
Definition is_arrangement (n : nat) (idx : list nat) : bool :=
  (length idx =? n)%nat &&
  forallb (fun i => existsb (Nat.eqb i) idx) (seq 0 n).

(** numpy's contract for [argsort]: the result lists every position of
    the array once, and along it no key is less than the one before. *)
Definition argsort_ok (ks : list key) (idx : list nat) : bool :=
  is_arrangement (length ks) idx && adjacent (not_after ks) idx.

(** [a] may stand right before [b] in a column sorted in the given
    direction: two cells that are present are not out of order, and no
    missing cell stands before a present one. *)
Definition in_order (ascending : bool) (a b : option key) : bool :=
  match a, b with
  | Some x, Some y =>
      if ascending then negb (key_ltb y x) else negb (key_ltb x y)
  | _, None => true
  | None, Some _ => false
  end.

(** The table is ordered by the column in the given direction, the rows
    with a missing cell last. *)
Definition ordered_by (c : column) (ascending : bool) (df : DataFrame) : bool :=
  adjacent (fun a b => in_order ascending (cell c a) (cell c b)) df.

(** Two cells hold equal values. *)
Definition same_value (a b : option key) : bool :=
  match a, b with
  | Some (KFloat x), Some (KFloat y) => (x =? y)%float
  | Some (KInt x), Some (KInt y) => (x =? y)%Z
  | Some (KStr x), Some (KStr y) => str_eqb x y
  | None, None => true
  | _, _ => false
  end.

(** Stability: the rows that share a value of the column stand in
    [sorted] in the order they have in [df]. *)
Definition keeps_tie_order (c : column) (df sorted : DataFrame) : Prop :=
  forall b,
    filter (fun x => same_value (cell c x) (cell c b)) sorted
    = filter (fun x => same_value (cell c x) (cell c b)) df.

(** An [argsort] by insertion, from the last position down; a position
    goes before the first one that holds a greater key, so equal keys end
    up in reverse. *)
Fixpoint insert_position (ks : list key) (i : nat) (sorted : list nat)
  : list nat :=
  match sorted with
  | [] => [i]
  | j :: rest =>
      match nth_error ks i, nth_error ks j with
      | Some a, Some b =>
          if key_ltb a b then i :: sorted
          else j :: insert_position ks i rest
      | _, _ => i :: sorted
      end
  end.

Definition insertion_argsort (ks : list key) : list nat :=
  fold_right (insert_position ks) [] (seq 0 (length ks)).

(** *** Display *)

(** [df.head(n)]: the first [n] rows, or all but the last [-n] rows when
    [n] is negative. *)
Definition head (df : DataFrame) (n : Z) : DataFrame :=
  if (0 <=? n)%Z then firstn (Z.to_nat n) df
  else firstn (length df - Z.to_nat (- n)) df.

(** [x[:n] + '...' if len(x) > n else x] *)
Definition shortened (n : nat) (s : str) : str :=
  if (n <? length s)%nat then firstn n s ++ py"..." else s.

(** The same on a cell of the table: [len] of a missing cell raises. *)
Definition shorten (n : nat) (x : option str) : io str :=
  match x with
  | Some s => ret (shortened n s)
  | None => raise TypeErrorLen
  end.

(** [Series.apply(f)]: [f] on each cell in turn. *)
Fixpoint apply {A B} (f : A -> io B) (cells : list A) : io (list B) :=
  match cells with
  | [] => ret []
  | x :: rest =>
      y <- f x ;;
      ys <- apply f rest ;;
      ret (y :: ys)
  end.

(** The rows of [display_df] from its columns. *)
Fixpoint display_rows (titles : list str) (prices : list float)
  (ratings : list Z) (links : list str) : list display_row :=
  match titles, prices, ratings, links with
  | t :: titles, p :: prices, r :: ratings, l :: links =>
      DisplayRow t p r l :: display_rows titles prices ratings links
  | _, _, _, _ => []
  end.

Definition display_results (df : DataFrame) (top_n : Z) : io unit :=
  match df with
  | [] => print NoResultsLine
  | _ :: _ =>
      let display_df := head df top_n in
      let prices := map price display_df in
      titles <- apply (shorten 50) (map title display_df) ;;
      links <- apply (shorten 40) (map link display_df) ;;
      print RuleLine ;;
      print (CountLine (length df) (length display_df)) ;;
      print RuleLine ;;
      print (TableLines
               (display_rows titles prices (map rating display_df) links)) ;;
      print RuleLine ;;
      print StatsHeaderLine ;;
      print (MeanPriceLine (map price df)) ;;
      print (MinPriceLine (map price df)) ;;
      print (MaxPriceLine (map price df)) ;;
      print (MeanRatingLine (map rating df)) ;;
      print RuleLine
  end.

(** The cells of a column when none is missing. *)
Fixpoint all_present (cells : list (option str)) : option (list str) :=
  match cells with
  | [] => Some []
  | Some s :: rest => option_map (cons s) (all_present rest)
  | None :: _ => None
  end.

(** The report on a table that is not empty, with the rows shown. *)
Definition report (df : DataFrame) (shown : nat) (rows : list display_row)
  : list line :=
  [ RuleLine; CountLine (length df) shown; RuleLine;
    TableLines rows;
    RuleLine; StatsHeaderLine;
    MeanPriceLine (map price df);
    MinPriceLine (map price df);
    MaxPriceLine (map price df);
    MeanRatingLine (map rating df);
    RuleLine ].

(** *** Predicates and tables the properties speak of *)

(** What each filter keeps: everything when its argument is falsy. *)
Definition price_kept (max_price : option float) (b : book) : bool :=
  match max_price with
  | Some p => if PyFloat.truthy p then (price b <=? p)%float else true
  | None => true
  end.

Definition rating_kept (min_rating : option Z) (b : book) : bool :=
  match min_rating with
  | Some r => if negb (r =? 0)%Z then (rating b >=? r)%Z else true
  | None => true
  end.

Definition title_found (found : str -> bool) (b : book) : bool :=
  match title b with
  | Some t => found t
  | None => false
  end.

(** A table of three books. *)
Definition three_books : DataFrame :=
  [ Book (Some py"The Light Between Oceans") 5 4 (Some py"a");
    Book (Some py"Sharp Objects") 12.5 5 (Some py"b");
    Book (Some py"Sapiens") 3.25 3 (Some py"c") ].

(** The elements of [l] at the positions [idx]. *)
Definition pick {A} (l : list A) (idx : list nat) : list A :=
  flat_map (fun i => match nth_error l i with
                     | Some a => [a]
                     | None => []
                     end) idx.

(** The rows with a cell in the column, and the rows without. *)
Definition present (c : column) (b : book) : bool :=
  match cell c b with Some _ => true | None => false end.

Definition missing (c : column) (b : book) : bool := negb (present c b).

(** Both cells are present and the second is not less than the first. *)
Definition ascending_cells (c : column) (a b : book) : bool :=
  match cell c a, cell c b with
  | Some x, Some y => negb (key_ltb y x)
  | _, _ => false
  end.

(** Four books at two prices, the dearer pair first. *)
Definition tied_price_books : DataFrame :=
  [ Book (Some py"Emma") 12.5 4 (Some py"https://books.toscrape.com/catalogue/emma_1");
    Book (Some py"Dune") 12.5 5 (Some py"https://books.toscrape.com/catalogue/dune_2");
    Book (Some py"Ulysses") 5 3 (Some py"https://books.toscrape.com/catalogue/ulysses_3");
    Book (Some py"Walden") 5 2 (Some py"https://books.toscrape.com/catalogue/walden_4") ].

(** *** Tests and tables more properties speak of *)

(** The keyword is absent, empty, or a pattern that compiles. *)
Definition compiles (re : str -> option (str -> bool))
  (keyword : option str) : bool :=
  match keyword with
  | Some k =>
      if Str.truthy k
      then match re k with Some _ => true | None => false end
      else true
  | None => true
  end.

(** What the keyword filter keeps. *)
Definition keyword_kept (re : str -> option (str -> bool))
  (keyword : option str) (b : book) : bool :=
  match keyword with
  | Some k =>
      if Str.truthy k
      then match re k with
           | Some found => title_found found b
           | None => false
           end
      else true
  | None => true
  end.

(** The three tests together. *)
Definition passes (re : str -> option (str -> bool))
  (max_price : option float) (keyword : option str) (min_rating : option Z)
  (b : book) : bool :=
  price_kept max_price b && keyword_kept re keyword b
  && rating_kept min_rating b.

(** No two rows of the table hold equal values in the column. *)
Fixpoint no_ties (c : column) (df : DataFrame) : bool :=
  match df with
  | [] => true
  | b :: rest =>
      forallb (fun x => negb (same_value (cell c b) (cell c x))) rest
      && no_ties c rest
  end.

(** A keyword is given: [if keyword:] holds. *)
Definition keyword_given (keyword : option str) : bool :=
  match keyword with
  | Some k => Str.truthy k
  | None => false
  end.

(** Some title of the table is a text.  The title column is then an
    object column, which has the [.str] accessor; the rows that are
    left of such a table make one too. *)
Definition text_titles (df : DataFrame) : bool :=
  existsb (fun b => match title b with Some _ => true | None => false end) df.

(** A search that knows literal patterns only and folds no case. *)
Definition literal_search : str -> option (str -> bool) :=
  fun k => Some (contains k).

(** Four books, one of them without a price. *)
Definition four_books : DataFrame :=
  three_books ++ [ Book (Some py"Soumission") nan 2 (Some py"d") ].

(** The first row holds a smaller value in the column than the second. *)
Definition strictly_before (c : column) (a b : book) : bool :=
  match cell c a, cell c b with
  | Some x, Some y => key_ltb x y
  | _, _ => false
  end.

End Analyze.

(** ** Storage: the CSV file between the two tools *)

Module Csv.

Local Open Scope N_scope.

(** *** The table as pandas holds it *)

(** A cell of an object column. *)
Inductive cell :=
| Text (s : str)
| Flag (b : bool)
| Missing.

(** A column with its dtype. *)
Inductive column_data :=
| Int64 (cells : list Z)
| Float64 (cells : list float)
| Boolean (cells : list bool)
| Object (cells : list cell).

(** A frame: the names of its columns, the columns, and the columns of
    its index (none for the default index, the positions of the
    rows). *)
Record frame := Frame {
  names : list str;
  data : list column_data;
  index : list column_data
}.

Definition text_cell (c : option str) : cell :=
  match c with
  | Some s => Text s
  | None => Missing
  end.

(** The frame of a table of records: [pd.DataFrame(all_books)], and what
    the reporter expects [read_csv] to return. *)
Definition frame_of (df : DataFrame) : frame :=
  Frame [py"title"; py"price"; py"rating"; py"link"]
        [ Object (map (fun b => text_cell (title b)) df);
          Float64 (map price df);
          Int64 (map rating df);
          Object (map (fun b => text_cell (link b)) df) ]
        [].

(** *** The tokenizer of [read_csv] *)

(** The states of pandas' tokenizer that the default options reach. *)
Inductive state :=
| START_RECORD
| START_FIELD
| IN_FIELD
| IN_QUOTED_FIELD
| QUOTE_IN_QUOTED_FIELD
| EAT_CRNL
| EAT_CRNL_NOP
| WHITESPACE_LINE (pending : str).

(** The field being read (last character first), the fields of the line
    being read (last first) and the lines read (last first). *)
Record tokens := Tokens {
  field : str;
  line : list str;
  lines : list (list str)
}.

Definition push (c : N) (t : tokens) : tokens :=
  Tokens (c :: field t) (line t) (lines t).

Definition push_all (s : str) (t : tokens) : tokens :=
  fold_left (fun t c => push c t) s t.

Definition end_field (t : tokens) : tokens :=
  Tokens [] (rev (field t) :: line t) (lines t).

Definition end_line (t : tokens) : tokens :=
  Tokens [] [] (rev (line t) :: lines t).

Definition is_blank (c : N) : bool := (c =? 32) || (c =? 9).

Definition on_in_field (c : N) (t : tokens) : state * tokens :=
  if c =? 10 then (START_RECORD, end_line (end_field t))
  else if c =? 13 then (EAT_CRNL, end_field t)
  else if c =? 44 then (START_FIELD, end_field t)
  else (IN_FIELD, push c t).

Definition on_start_field (c : N) (t : tokens) : state * tokens :=
  if c =? 10 then (START_RECORD, end_line (end_field t))
  else if c =? 13 then (EAT_CRNL, end_field t)
  else if c =? 34 then (IN_QUOTED_FIELD, t)
  else if c =? 44 then (START_FIELD, end_field t)
  else (IN_FIELD, push c t).

(** Blank lines are skipped; a line that starts with blanks is one until
    another character shows up. *)
Definition on_start_record (c : N) (t : tokens) : state * tokens :=
  if c =? 10 then (START_RECORD, t)
  else if c =? 13 then (EAT_CRNL_NOP, t)
  else if is_blank c then (WHITESPACE_LINE [c], t)
  else on_start_field c t.

Definition on_whitespace_line (pending : str) (c : N) (t : tokens)
  : state * tokens :=
  if c =? 10 then (START_RECORD, t)
  else if c =? 13 then (EAT_CRNL_NOP, t)
  else if is_blank c then (WHITESPACE_LINE (pending ++ [c]), t)
  else on_in_field c (push_all pending t).

Definition on_in_quoted_field (c : N) (t : tokens) : state * tokens :=
  if c =? 34 then (QUOTE_IN_QUOTED_FIELD, t)
  else (IN_QUOTED_FIELD, push c t).

Definition on_quote_in_quoted_field (c : N) (t : tokens) : state * tokens :=
  if c =? 34 then (IN_QUOTED_FIELD, push c t)
  else if c =? 44 then (START_FIELD, end_field t)
  else if c =? 10 then (START_RECORD, end_line (end_field t))
  else if c =? 13 then (EAT_CRNL, end_field t)
  else (IN_FIELD, push c t).

Definition on_eat_crnl (c : N) (t : tokens) : state * tokens :=
  if c =? 10 then (START_RECORD, end_line t)
  else if c =? 44 then (START_FIELD, end_field (end_line t))
  else on_start_record c (end_line t).

Definition on_eat_crnl_nop (c : N) (t : tokens) : state * tokens :=
  if (c =? 10) || (c =? 44) then (START_RECORD, t)
  else on_start_record c t.

Definition step (st : state) (c : N) (t : tokens) : state * tokens :=
  match st with
  | START_RECORD => on_start_record c t
  | START_FIELD => on_start_field c t
  | IN_FIELD => on_in_field c t
  | IN_QUOTED_FIELD => on_in_quoted_field c t
  | QUOTE_IN_QUOTED_FIELD => on_quote_in_quoted_field c t
  | EAT_CRNL => on_eat_crnl c t
  | EAT_CRNL_NOP => on_eat_crnl_nop c t
  | WHITESPACE_LINE pending => on_whitespace_line pending c t
  end.

Fixpoint run (text : str) (st : state) (t : tokens) : state * tokens :=
  match text with
  | [] => (st, t)
  | c :: rest => let (st, t) := step st c t in run rest st t
  end.

(** What [read_csv] may raise. *)
Inductive exn :=
| EmptyDataError
| ParserError.

(** The end of the file closes the field and the line being read; it may
    not come inside a quoted field. *)
Definition at_eof (st : state) (t : tokens) : exn + list (list str) :=
  match st with
  | START_RECORD | WHITESPACE_LINE _ | EAT_CRNL_NOP => inr (rev (lines t))
  | IN_QUOTED_FIELD => inl ParserError
  | START_FIELD | IN_FIELD | QUOTE_IN_QUOTED_FIELD =>
      inr (rev (lines (end_line (end_field t))))
  | EAT_CRNL => inr (rev (lines (end_line t)))
  end.

Definition tokenize (text : str) : exn + list (list str) :=
  let (st, t) := run text START_RECORD (Tokens [] [] []) in at_eof st t.

(** *** The conversion of the columns *)

(** The fields [read_csv] takes for missing values by default. *)
Definition na_values : list str :=
  [ []; py"#N/A"; py"#N/A N/A"; py"#NA"; py"-1.#IND"; py"-1.#QNAN";
    py"-NaN"; py"-nan"; py"1.#IND"; py"1.#QNAN"; py"<NA>"; py"N/A";
    py"NA"; py"NULL"; py"NaN"; py"None"; py"n/a"; py"nan"; py"null" ].

Definition is_na (s : str) : bool := existsb (str_eqb s) na_values.

(** [to_boolean]: the words TRUE and FALSE, their letters in either
    case ([strcasecmp]). *)
Definition bool_word (s : str) : option bool :=
  if str_eqb (map PyFloat.lower s) py"true" then Some true
  else if str_eqb (map PyFloat.lower s) py"false" then Some false
  else None.

Fixpoint all_some {A} (l : list (option A)) : option (list A) :=
  match l with
  | [] => Some []
  | Some a :: rest => option_map (cons a) (all_some rest)
  | None :: _ => None
  end.

Section Storage.

(** Whether the [csv] module of the interpreter quotes a field for a
    carriage return in it; newer ones do. *)
Variable always_quote_cr : bool.

(** The converters of a field to an integer and to a float; the ones
    of pandas' tokenizer are [str_to_int64] and [to_double] below. *)
Variable to_int64 : str -> option Z.
Variable to_float64 : str -> option float.

(** The dtypes tried in turn on the fields of a column: int64 (no
    missing value allowed), float64, bool, and object for the rest. *)
Definition convert_fields (fields : list str) : column_data :=
  match (if existsb is_na fields then None
         else all_some (map to_int64 fields)) with
  | Some ints => Int64 ints
  | None =>
      match all_some (map (fun f => if is_na f then Some nan
                                    else to_float64 f) fields) with
      | Some floats => Float64 floats
      | None =>
          match all_some (map bool_word fields) with
          | Some flags => Boolean flags
          | None =>
              match all_some
                      (map (fun f => if is_na f then Some Missing
                                     else option_map Flag (bool_word f))
                         fields) with
              | Some flags => Object flags
              | None =>
                  Object (map (fun f => if is_na f then Missing
                                        else Text f) fields)
              end
          end
      end
  end.

(** A column with no row is an empty object column. *)
Definition convert_column (fields : list str) : column_data :=
  match fields with
  | [] => Object []
  | _ :: _ => convert_fields fields
  end.

(** [pd.read_csv(filepath, encoding='utf-8')] on the text of the file:
    the first line names the columns.  When the first record has more
    fields than there are names, its leading fields, and those of the
    records after it, make the index.  A later record may not be longer
    than the first one (or than the header, if that is longer); a
    shorter one is filled with missing values. *)
Definition read_csv (text : str) : exn + frame :=
  match tokenize text with
  | inl e => inl e
  | inr [] => inl EmptyDataError
  | inr (header :: rows) =>
      let width :=
        match rows with
        | first :: _ => Nat.max (length header) (length first)
        | [] => length header
        end in
      if existsb (fun r => (width <? length r)%nat) rows
      then inl ParserError
      else
        let leading := (width - length header)%nat in
        let column j := convert_column (map (fun r => nth j r []) rows) in
        inr (Frame header
                   (map column (seq leading (length header)))
                   (map column (seq 0 leading)))
  end.

(** [load_data]: the file may not exist, and any failure of [read_csv]
    ends the process; [None] stands for [sys.exit(1)]. *)
Definition load_data (file : option str) : option frame :=
  match file with
  | None => None
  | Some text =>
      match read_csv text with
      | inr df => Some df
      | inl _ => None
      end
  end.

(** *** The writer *)

(** The characters for which the writer quotes a field. *)
Definition special (c : N) : bool :=
  (c =? 44) || (c =? 34) || (c =? 10) || (always_quote_cr && (c =? 13)).

Definition write_field (f : str) : str :=
  if existsb special f
  then 34 :: flat_map (fun c => if c =? 34 then [34; 34] else [c]) f ++ [34]
  else f.

Fixpoint join_fields (fields : list str) : str :=
  match fields with
  | [] => []
  | [f] => write_field f
  | f :: rest => write_field f ++ 44 :: join_fields rest
  end.

(** A line of the file; a single empty field is written quoted. *)
Definition write_row (fields : list str) : str :=
  match fields with
  | [[]] => [34; 34; 10]
  | _ => join_fields fields ++ [10]
  end.

(** A missing value is written as the empty field. *)
Definition text_field (c : option str) : str :=
  match c with
  | Some s => s
  | None => []
  end.

(** A float is written by its [repr], NaN as the empty field. *)
Definition price_field (x : float) : str :=
  if is_nan x then [] else PyFloat.repr x.

Definition row_fields (b : book) : list str :=
  [ text_field (title b); price_field (price b);
    str_of_Z (rating b); text_field (link b) ].

(** [df.to_csv(args.output, index=False, encoding='utf-8')] for a table
    with at least one row. *)
Definition to_csv (df : DataFrame) : str :=
  write_row [py"title"; py"price"; py"rating"; py"link"]
  ++ flat_map (fun b => write_row (row_fields b)) df.

(** The end of the collector's [main]: an empty table is not written
    ([sys.exit(1)]). *)
Definition save (df : DataFrame) : option str :=
  match df with
  | [] => None
  | _ :: _ => Some (to_csv df)
  end.

End Storage.

(** *** The converters of pandas' tokenizer *)

(** [isspace_ascii] *)
Definition isspace_ascii (c : N) : bool :=
  (c =? 32) || ((9 <=? c) && (c <=? 13)).

Fixpoint skip_spaces (s : str) : str :=
  match s with
  | c :: rest => if isspace_ascii c then skip_spaces rest else s
  | [] => []
  end.


(** [number * 10. + digit], in doubles. *)
Definition add_digit (number : float) (c : N) : float :=
  (number * 10 + of_uint63 (Uint63.of_Z (Z.of_N (c - 48))))%float.

(** An entry of the table [e] of [precise_xstrtod], [1e0] to [1e308]:
    the double nearest the power of ten. *)
Definition power_of_ten (k : Z) : float := PyFloat.round_decimal false 1 k.

(** The digits [precise_xstrtod] sums up; the ones past them only
    count. *)
Definition max_digits : nat := 17.

(** The exponent part: an [e] or [E], a sign and at most [max_digits]
    digits.  An [e] with no digit after it is taken too, for the
    exponent 0. *)
Definition exponent_part (s : str) : Z * str :=
  match s with
  | c :: rest =>
      if (c =? 101) || (c =? 69) then
        let (negative, rest) := PyFloat.split_sign rest in
        let (ds, rest') := PyFloat.span_digits rest in
        let n := PyFloat.digits_value (firstn max_digits ds) in
        ((if negative then - n else n)%Z, skipn max_digits ds ++ rest')
      else (0%Z, s)
  | [] => (0%Z, [])
  end.

(** [precise_xstrtod], the converter of the default [float_precision],
    with [skip_trailing] set: the number the string starts with and what
    is left after it and the blanks that follow; [None] for its
    errors (no digit, a result out of range).  The digits, the first
    [max_digits] of them, are summed up in doubles and the sum is
    multiplied or divided by a power of ten, each step rounding. *)
Definition precise_xstrtod (s : str) : option (float * str) :=
  let (negative, s1) := PyFloat.split_sign (skip_spaces s) in
  let (int_digits, s2) := PyFloat.span_digits s1 in
  let (frac_digits, s3) :=
    match s2 with
    | 46 :: rest => PyFloat.span_digits rest
    | _ => ([], s2)
    end in
  let whole := firstn max_digits int_digits in
  let decimals := firstn (max_digits - length whole) frac_digits in
  match whole ++ decimals with
  | [] => None
  | ds =>
      let number := fold_left add_digit ds 0%float in
      let number := if negative then (- number)%float else number in
      let (n, s4) := exponent_part s3 in
      let exponent :=
        (Z.of_nat (length int_digits - length whole)
         - Z.of_nat (length decimals) + n)%Z in
      if (308 <? exponent)%Z then None
      else
        let number :=
          if (0 <? exponent)%Z then (number * power_of_ten exponent)%float
          else if (exponent <? -308)%Z then
            if (exponent <? -616)%Z then 0%float
            else (number / power_of_ten (-308 - exponent)
                  / power_of_ten 308)%float
          else (number / power_of_ten (- exponent))%float in
        if is_infinity number then None
        else Some (number, skip_spaces s4)
  end.

(** The words read as an infinity when [precise_xstrtod] fails on the
    field or leaves some of it. *)
Definition inf_word (s : str) : option float :=
  let word := map PyFloat.lower s in
  if existsb (str_eqb word)
       [py"inf"; py"+inf"; py"infinity"; py"+infinity"]
  then Some infinity
  else if existsb (str_eqb word) [py"-inf"; py"-infinity"]
  then Some neg_infinity
  else None.

(** The conversion of a field to float64. *)
Definition to_double (s : str) : option float :=
  match precise_xstrtod s with
  | Some (x, []) => Some x
  | _ => inf_word s
  end.

(** *** Fields, cells and tables the properties speak of *)

(** What a separator does after a field: a comma ends the field, a line
    feed ends the field and the line. *)
Definition after (sep : N) : state :=
  if sep =? 44 then START_FIELD else START_RECORD.

Definition close (sep : N) (t : tokens) : tokens :=
  if sep =? 44 then end_field t else end_line (end_field t).

Definition separator (sep : N) : Prop := sep = 44 \/ sep = 10.

(** A character an unquoted field may hold. *)
Definition plain (c : N) : bool :=
  negb ((c =? 10) || (c =? 13) || (c =? 44) || (c =? 34)).

(** The inside of a quoted field: each quote doubled. *)
Definition doubled (f : str) : str :=
  flat_map (fun c => if c =? 34 then [34; 34] else [c]) f.

(** The characters of a written integer. *)
Definition integer_char (c : N) : bool := PyFloat.is_digit c || (c =? 45).

(** No carriage return, no NUL. *)
Definition no_cr (s : str) : bool := negb (existsb (N.eqb 13) s).

Definition no_nul (s : str) : bool := negb (existsb (N.eqb 0) s).



(** A price the file keeps: NaN, or a float that [precise_xstrtod]
    makes again of its text. *)
Definition price_kept (x : float) : bool :=
  is_nan x ||
  match to_double (PyFloat.repr x) with
  | Some y => Leibniz.eqb y x
  | None => false
  end.

(** A rating the file keeps: any that an int64 column holds. *)
Definition rating_kept (r : Z) : bool :=
  ((- 2 ^ 63 <=? r) && (r <? 2 ^ 63))%Z.


(** Converters for the examples: an integer is a sign and digits, a
    float is what [float] reads. *)
Definition example_int (s : str) : option Z :=
  let (negative, s) := PyFloat.split_sign s in
  match PyFloat.span_digits s with
  | (d :: ds, []) =>
      Some (if negative then (- PyFloat.digits_value (d :: ds))%Z
            else PyFloat.digits_value (d :: ds))
  | _ => None
  end.

Definition example_float : str -> option float :=
  PyFloat.float_of_str Parser.ascii_digits_only.

(** Titles with a comma, quotes, a line feed and leading blanks. *)
Definition awkward_books : DataFrame :=
  [ Book (Some (py"  Sapiens, a " ++ [34] ++ py"brief" ++ [34; 10]
                ++ py"history"))
      5 3 (Some py"https://books.toscrape.com/catalogue/a");
    Book (Some py"The Light Between Oceans") 12.5 5
      (Some py"https://books.toscrape.com/catalogue/b");
    Book (Some py"Sharp Objects") 3.25 4
      (Some py"https://books.toscrape.com/catalogue/c") ].




(** A text the writer and the tokenizer agree on: it holds no NUL, and no
    carriage return unless the writer quotes the field for one. *)
Definition written_whole (always_quote_cr : bool) (c : option str) : bool :=
  match c with
  | Some s => no_nul s && (always_quote_cr || no_cr s)
  | None => true
  end.

(** The texts of a record are written whole. *)
Definition texts_whole (always_quote_cr : bool) (b : book) : bool :=
  written_whole always_quote_cr (title b)
  && written_whole always_quote_cr (link b).

(** The title column of a frame. *)
Definition title_column (fr : frame) : column_data :=
  nth 0 (data fr) (Object []).

(** Two books whose titles are numbers. *)
Definition numbered_books : DataFrame :=
  [ Book (Some py"1984") 12.5 5
      (Some py"https://books.toscrape.com/catalogue/a");
    Book (Some py"2001") 5 3
      (Some py"https://books.toscrape.com/catalogue/b") ].



End Csv.

(** ** The two command lines: [main] of [parser.py] and of [analyze.py] *)

Module ParserCli.

Import Parser.

(** What [main] does, in order: what [parse_books] does, its own
    messages, and the writing of the file. *)
Inductive action :=
| Collect (e : event)
| StartingLine (pages : Z) (base_url : str)
| RuleLine
| NoDataLine
| WriteFile (path text : str)
| TotalLine (count : nat)
| SavedLine (path : str)
| FirstRowsLine
| TableLines (rows : DataFrame).

(** How the process ends: [main] returns, [sys.exit(code)], or the
    [OSError] of a file that cannot be opened for writing. *)
Inductive status :=
| Finished
| Exit (code : Z)
| OSError.

Definition base_url : str := py"https://books.toscrape.com".

Section Main.

Variable unicode_decimal : N -> option N.
Variable network : list event -> str -> Z -> response.
Variable always_quote_cr : bool.

(** Whether the path can be opened for writing. *)
Variable can_write : str -> bool.

(** [main] with [args.pages] and [args.output]; [print(df.head())] shows
    the first five rows. *)
Definition main (pages : Z) (output : str) : list action * status :=
  let (df, trace) :=
    parse_books unicode_decimal network base_url pages [] in
  let collected :=
    [StartingLine pages base_url; RuleLine] ++ map Collect trace in
  match Csv.save always_quote_cr df with
  | None => (collected ++ [NoDataLine], Exit 1)
  | Some text =>
      if can_write output then
        (collected ++ [ WriteFile output text; RuleLine;
                        TotalLine (length df); SavedLine output;
                        FirstRowsLine; TableLines (Analyze.head df 5) ],
         Finished)
      else (collected, OSError)
  end.

End Main.

Definition is_write (a : action) : bool :=
  match a with WriteFile _ _ => true | _ => false end.

Definition is_request (a : action) : bool :=
  match a with Collect (Get _ _) => true | _ => false end.

End ParserCli.

Module AnalyzeCli.

Import Analyze.

(** The arguments as [argparse] hands them to [main]. *)
Record args := Args {
  input : str;
  max_price : option float;
  min_rating : option Z;
  keyword : option str;
  sort : str;
  order : str;
  top : Z
}.

(** The lines of [main], and those of the functions it calls. *)
Inductive line :=
| LoadingLine
| LoadedLine (count : nat)
| DashLine
| Report (l : Analyze.line).

(** How the process ends: [main] returns, or an exception that nothing
    catches ends it: one that the functions of the pipeline raise, or
    the [AttributeError] of [df['title'].str] on a title column that is
    no column of texts. *)
Inductive status :=
| Finished
| Uncaught (e : exn)
| AttributeError.

(** The title column of the table as [load_data] returns it has the
    [.str] accessor.  [read_csv] makes an object column of the titles of
    a file without a record, and of titles of which one at least is a
    text; of titles that are all missing it makes a float column, on
    which [.str] raises. *)
Definition str_accessor (df : DataFrame) : bool :=
  match df with
  | [] => true
  | _ :: _ => text_titles df
  end.

Section Main.

Variable re_search_ignorecase : str -> option (str -> bool).
Variable argsort : list key -> list nat.

(** The filters, the sort and the display, one after the other. *)
Definition pipeline (a : args) (df : DataFrame) : io unit :=
  df <- filter_by_price df (max_price a) ;;
  df <- filter_by_keyword re_search_ignorecase df (keyword a) ;;
  df <- filter_by_rating df (min_rating a) ;;
  let ascending := str_eqb (order a) py"asc" in
  df <- sort_data argsort df (sort a) ascending ;;
  display_results df (top a).

(** [main] once [load_data(args.input)] has returned the table [df]
    (when it cannot load the file, [load_data] ends the process
    itself).  With a keyword given, [filter_by_keyword] takes
    [df['title'].str] first: on a title column without the accessor the
    run ends there, after the price filter. *)
Definition main (a : args) (df : DataFrame) : list line * status :=
  let loading := [LoadingLine; LoadedLine (length df); DashLine] in
  if keyword_given (keyword a) && negb (str_accessor df)
  then (loading
        ++ map Report (printed (filter_by_price df (max_price a))),
        AttributeError)
  else (loading ++ map Report (printed (pipeline a df)),
        match result (pipeline a df) with
        | Returned _ => Finished
        | Raised e => Uncaught e
        end).

End Main.

(** A row of the table shown passes the two numeric tests. *)
Definition row_passes (a : args) (r : display_row) : bool :=
  match max_price a with
  | Some p => if PyFloat.truthy p then (d_price r <=? p)%float else true
  | None => true
  end
  && match min_rating a with
     | Some m => if negb (m =? 0)%Z then (d_rating r >=? m)%Z else true
     | None => true
     end.

(** A line of a filter or of the sort. *)
Definition is_setup_line (l : Analyze.line) : bool :=
  match l with
  | PriceFilterLine _ | KeywordFilterLine _ | RatingFilterLine _
  | SortLine _ _ => true
  | _ => false
  end.

(** What the three filters of a run keep. *)
Definition filtered (re : str -> option (str -> bool)) (a : args)
  (df : DataFrame) : DataFrame :=
  filter (passes re (max_price a) (keyword a) (min_rating a)) df.

End AnalyzeCli.

(** * Properties *)

(** ** Python strings: properties *)

Lemma str_eqb_eq a b : str_eqb a b = true <-> a = b.
Proof.
  unfold str_eqb. destruct (list_eq_dec N.eq_dec a b); split; congruence.
Qed.

(** ** The collector: properties *)

Module ParserSpec.

Import Parser.

(** *** [parse_rating] *)

Lemma startswith_prefix (p s : str) :
  startswith p s = true <-> exists rest, s = p ++ rest.
Proof.
  split.
  - revert s. induction p as [|a p IH]; intros s H.
    + exists s. reflexivity.
    + destruct s as [|b s]; cbn [startswith] in H; [discriminate|].
      apply andb_true_iff in H. destruct H as [Hab H].
      apply N.eqb_eq in Hab. subst b.
      destruct (IH s H) as [rest ->]. exists rest. reflexivity.
  - intros [rest ->]. induction p as [|a p IH]; [reflexivity|].
    cbn [app startswith]. rewrite N.eqb_refl. exact IH.
Qed.

Lemma contains_substring (p s : str) :
  contains p s = true <-> exists before after, s = before ++ p ++ after.
Proof.
  induction s as [|c s IH].
  - cbn [contains]. rewrite orb_false_r, startswith_prefix. split.
    + intros [rest H]. exists [], rest. exact H.
    + intros [before [after H]]. destruct before; [|discriminate H].
      exists after. exact H.
  - cbn [contains]. rewrite orb_true_iff, startswith_prefix, IH. split.
    + intros [[rest H]|[before [after H]]].
      * exists [], rest. exact H.
      * exists (c :: before), after. rewrite H. reflexivity.
    + intros [before [after H]]. destruct before as [|b before].
      * left. exists after. exact H.
      * right. injection H as _ H. exists before, after. exact H.
Qed.

(** [key_in] computes what [key in rating_class] asks. *)
Lemma key_in_occurs (key : str) (rating_class : class_value) :
  key_in key rating_class = true <-> occurs_in key rating_class.
Proof.
  destruct rating_class as [tokens|text]; cbn [key_in occurs_in].
  - rewrite existsb_exists. split.
    + intros [token [Hin H]]. apply str_eqb_eq in H. subst token. exact Hin.
    + intros Hin. exists key. split; [exact Hin|]. apply str_eqb_eq.
      reflexivity.
  - apply contains_substring.
Qed.

Lemma key_in_absent (key : str) (rating_class : class_value) :
  ~ occurs_in key rating_class -> key_in key rating_class = false.
Proof.
  intros H. destruct (key_in key rating_class) eqn:E; [|reflexivity].
  destruct H. apply key_in_occurs. exact E.
Qed.

Lemma parse_rating_by_key (rating_class : class_value) :
  let has key := key_in key rating_class in
  let r := parse_rating rating_class in
  (has py"One" = true -> r = 1%Z) /\
  (has py"One" = false -> has py"Two" = true -> r = 2%Z) /\
  (has py"One" = false -> has py"Two" = false -> has py"Three" = true ->
   r = 3%Z) /\
  (has py"One" = false -> has py"Two" = false -> has py"Three" = false ->
   has py"Four" = true -> r = 4%Z) /\
  (has py"One" = false -> has py"Two" = false -> has py"Three" = false ->
   has py"Four" = false -> has py"Five" = true -> r = 5%Z) /\
  (has py"One" = false -> has py"Two" = false -> has py"Three" = false ->
   has py"Four" = false -> has py"Five" = false -> r = 0%Z) /\
  (0 <= r <= 5)%Z.
Proof.
  cbv zeta. unfold parse_rating, rating_map, first_key_in.
  destruct (key_in py"One" rating_class);
    destruct (key_in py"Two" rating_class);
    destruct (key_in py"Three" rating_class);
    destruct (key_in py"Four" rating_class);
    destruct (key_in py"Five" rating_class);
    repeat split; intros; try discriminate; try reflexivity; lia.
Qed.

(** C5: for every value of the class attribute, a list of class names
    or a string, [parse_rating] returns the number, 1 to 5, of the first
    of the keys One, Two, Three, Four, Five, tried in that order, that
    the value contains (as an element of the list, as a substring of the
    string), and 0 when it contains none; it raises nothing. *)
Theorem parse_rating_first_key (rating_class : class_value) :
  let has key := occurs_in key rating_class in
  let r := parse_rating rating_class in
  (has py"One" -> r = 1%Z) /\
  (~ has py"One" -> has py"Two" -> r = 2%Z) /\
  (~ has py"One" -> ~ has py"Two" -> has py"Three" -> r = 3%Z) /\
  (~ has py"One" -> ~ has py"Two" -> ~ has py"Three" -> has py"Four" ->
   r = 4%Z) /\
  (~ has py"One" -> ~ has py"Two" -> ~ has py"Three" -> ~ has py"Four" ->
   has py"Five" -> r = 5%Z) /\
  (~ has py"One" -> ~ has py"Two" -> ~ has py"Three" -> ~ has py"Four" ->
   ~ has py"Five" -> r = 0%Z) /\
  (0 <= r <= 5)%Z.
Proof.
  cbv zeta.
  destruct (parse_rating_by_key rating_class)
    as (H1 & H2 & H3 & H4 & H5 & H0 & Hr).
  repeat split; intros;
    repeat match goal with
    | H : ~ occurs_in _ _ |- _ => apply key_in_absent in H
    | H : occurs_in _ _ |- _ => apply key_in_occurs in H
    end; auto; apply Hr.
Qed.

(** A plain string that names three stars: One and Two are no stretch
    of it, Three is, and the rating is 3. *)
Lemma parse_rating_first_key_witness :
  occurs_in py"Three" (ClassText py"star-rating Three") /\
  parse_rating (ClassText py"star-rating Three") = 3%Z.
Proof.
  assert (H3 : occurs_in py"Three" (ClassText py"star-rating Three")).
  { apply key_in_occurs. reflexivity. }
  split; [exact H3|].
  apply (parse_rating_first_key (ClassText py"star-rating Three"));
    [ intros H; apply key_in_occurs in H; discriminate H
    | intros H; apply key_in_occurs in H; discriminate H
    | exact H3 ].
Defined.

(** The class of a three-star book, as the site writes it. *)
Example parse_rating_three :
  parse_rating (ClassTokens [py"star-rating"; py"Three"]) = 3%Z.
Proof. reflexivity. Qed.

Local Open Scope N_scope.

(** *** [parse_price] *)

(** Removing a single character is filtering it out. *)
Lemma replace_char_filter (c : N) (s : str) :
  replace [c] [] s = filter (fun x => negb (c =? x)) s.
Proof.
  unfold replace. induction s as [|x s IH]; [reflexivity|].
  cbn [replace_from startswith filter length Nat.sub].
  rewrite andb_true_r.
  destruct (c =? x); cbn [negb app]; rewrite IH; reflexivity.
Qed.

Lemma filter_all {A} (f : A -> bool) (l : list A) :
  forallb f l = true -> filter f l = l.
Proof.
  induction l as [|a l IH]; simpl; [reflexivity|].
  intros H. apply andb_true_iff in H. destruct H as [Ha Hl].
  rewrite Ha, (IH Hl). reflexivity.
Qed.

Lemma forallb_impl {A} (f g : A -> bool) (l : list A) :
  (forall a, f a = true -> g a = true) ->
  forallb f l = true -> forallb g l = true.
Proof.
  intros H. induction l as [|a l IH]; simpl; [reflexivity|].
  intros Hl. apply andb_true_iff in Hl. destruct Hl as [Ha Hl].
  rewrite (H a Ha), (IH Hl). reflexivity.
Qed.

Lemma digit_cases (c : N) :
  PyFloat.is_digit c = true ->
  c = 48 \/ c = 49 \/ c = 50 \/ c = 51 \/ c = 52 \/
  c = 53 \/ c = 54 \/ c = 55 \/ c = 56 \/ c = 57.
Proof.
  unfold PyFloat.is_digit. intros H.
  apply andb_true_iff in H. destruct H as [H1 H2].
  apply N.leb_le in H1, H2. lia.
Qed.

(** A property that holds of the ten digits holds of every digit. *)
Lemma digit_ind (P : N -> Prop) :
  P 48 -> P 49 -> P 50 -> P 51 -> P 52 -> P 53 -> P 54 -> P 55 -> P 56 ->
  P 57 -> forall c, PyFloat.is_digit c = true -> P c.
Proof.
  intros ? ? ? ? ? ? ? ? ? ? c H.
  destruct (digit_cases c H) as [E|[E|[E|[E|[E|[E|[E|[E|[E|E]]]]]]]]];
    subst c; assumption.
Qed.

Lemma space_kept c : isspace c = true -> kept c = true.
Proof.
  intros H. unfold kept.
  destruct (163 =? c) eqn:E1;
    [apply N.eqb_eq in E1; subst c; discriminate H|].
  destruct (194 =? c) eqn:E2;
    [apply N.eqb_eq in E2; subst c; discriminate H|].
  reflexivity.
Qed.

Lemma numeral_char_kept c : numeral_char c = true -> kept c = true.
Proof.
  unfold numeral_char. intros H. apply orb_true_iff in H.
  destruct H as [H|H].
  - revert c H. apply digit_ind; reflexivity.
  - apply N.eqb_eq in H. subst c. reflexivity.
Qed.

Lemma digit_not_space c : PyFloat.is_digit c = true -> isspace c = false.
Proof. revert c. apply digit_ind; reflexivity. Qed.

Lemma lstrip_spaces (ws s : str) :
  forallb isspace ws = true -> lstrip (ws ++ s) = lstrip s.
Proof.
  induction ws as [|c ws IH]; simpl; [reflexivity|].
  intros H. apply andb_true_iff in H. destruct H as [Hc Hws].
  rewrite Hc. apply IH. exact Hws.
Qed.

Lemma lstrip_digit (c : N) (s : str) :
  PyFloat.is_digit c = true -> lstrip (c :: s) = c :: s.
Proof. intros H. simpl. rewrite (digit_not_space c H). reflexivity. Qed.

(** A text that starts and ends with a digit, between whitespace. *)
Lemma strip_between (ws1 ws2 body : str) (first last : N) :
  forallb isspace ws1 = true -> forallb isspace ws2 = true ->
  PyFloat.is_digit first = true -> PyFloat.is_digit last = true ->
  strip (ws1 ++ (first :: body ++ [last]) ++ ws2) = first :: body ++ [last].
Proof.
  intros H1 H2 Hf Hl. unfold strip, rstrip.
  rewrite (lstrip_spaces ws1 _ H1).
  change ((first :: body ++ [last]) ++ ws2)
    with (first :: (body ++ [last]) ++ ws2).
  rewrite (lstrip_digit first _ Hf).
  change (first :: (body ++ [last]) ++ ws2)
    with ((first :: body ++ [last]) ++ ws2).
  rewrite rev_app_distr, lstrip_spaces
    by (rewrite forallb_forall in *; intros x Hx; apply H2;
        apply in_rev; exact Hx).
  change (rev (first :: body ++ [last])) with (rev (body ++ [last]) ++ [first]).
  rewrite rev_app_distr. simpl rev. simpl app.
  rewrite (digit_not_space last Hl).
  change (last :: rev body ++ [first]) with ([last] ++ rev body ++ [first]).
  rewrite !rev_app_distr. simpl. rewrite rev_involutive. reflexivity.
Qed.

(** [float] on a numeral with a point. *)

Lemma to_ascii_ascii ud (s : str) :
  forallb (fun c => c <? 127) s = true -> PyFloat.to_ascii ud s = s.
Proof.
  induction s as [|c s IH]; simpl; [reflexivity|].
  intros H. apply andb_true_iff in H. destruct H as [Hc Hs].
  rewrite Hc, (IH Hs). reflexivity.
Qed.

Lemma span_digits_app (ds rest : str) :
  forallb PyFloat.is_digit ds = true ->
  match rest with [] => True | c :: _ => PyFloat.is_digit c = false end ->
  PyFloat.span_digits (ds ++ rest) = (ds, rest).
Proof.
  intros Hds Hrest. induction ds as [|d ds IH]; cbn [app PyFloat.span_digits].
  - destruct rest as [|c rest]; [reflexivity|].
    cbn [PyFloat.span_digits]. rewrite Hrest. reflexivity.
  - cbn [forallb] in Hds. apply andb_true_iff in Hds. destruct Hds as [Hd Hds].
    rewrite Hd, (IH Hds). reflexivity.
Qed.

Lemma split_sign_digit (c : N) (s : str) :
  PyFloat.is_digit c = true -> PyFloat.split_sign (c :: s) = (false, c :: s).
Proof. revert c. apply digit_ind; reflexivity. Qed.

Lemma numeral_char_ascii c : numeral_char c = true -> (c <? 127) = true.
Proof.
  unfold numeral_char. intros H. apply orb_true_iff in H.
  destruct H as [H|H].
  - revert c H. apply digit_ind; reflexivity.
  - apply N.eqb_eq in H. subst c. reflexivity.
Qed.

Lemma numeral_char_no_underscore c :
  numeral_char c = true -> (95 =? c) = false.
Proof.
  unfold numeral_char. intros H. apply orb_true_iff in H.
  destruct H as [H|H].
  - revert c H. apply digit_ind; reflexivity.
  - apply N.eqb_eq in H. subst c. reflexivity.
Qed.

Lemma digit_not_ascii_space c :
  PyFloat.is_digit c = true -> PyFloat.is_ascii_space c = false.
Proof. revert c. apply digit_ind; reflexivity. Qed.

Lemma existsb_none {A} (f g : A -> bool) (l : list A) :
  (forall a, g a = true -> f a = false) ->
  forallb g l = true -> existsb f l = false.
Proof.
  intros H. induction l as [|a l IH]; simpl; [reflexivity|].
  intros Hl. apply andb_true_iff in Hl. destruct Hl as [Ha Hl].
  rewrite (H a Ha), (IH Hl). reflexivity.
Qed.

Arguments PyFloat.round_decimal : simpl never.
Arguments PyFloat.digits_value : simpl never.

Lemma strtod_numeral (first : N) (int_rest frac : str) :
  PyFloat.is_digit first = true ->
  forallb PyFloat.is_digit int_rest = true ->
  forallb PyFloat.is_digit frac = true ->
  frac <> [] ->
  PyFloat.strtod ((first :: int_rest) ++ 46 :: frac)
  = Some (PyFloat.round_decimal false
            (PyFloat.digits_value ((first :: int_rest) ++ frac))
            (- Z.of_nat (length frac)), []).
Proof.
  intros Hf Hi Hfr Hne. unfold PyFloat.strtod.
  change ((first :: int_rest) ++ 46 :: frac)
    with (first :: (int_rest ++ 46 :: frac)).
  rewrite (split_sign_digit first _ Hf).
  change (first :: (int_rest ++ 46 :: frac))
    with ((first :: int_rest) ++ 46 :: frac).
  rewrite span_digits_app;
    [|simpl; rewrite Hf, Hi; reflexivity|reflexivity].
  rewrite <- (app_nil_r frac) at 1.
  rewrite (span_digits_app frac [] Hfr I).
  destruct frac as [|f frac]; [contradiction|].
  reflexivity.
Qed.

Lemma digits_numeral_chars (ds : str) :
  forallb PyFloat.is_digit ds = true -> forallb numeral_char ds = true.
Proof.
  apply forallb_impl. intros c H. unfold numeral_char. rewrite H. reflexivity.
Qed.

Lemma numeral_chars (int_digits frac : str) :
  forallb PyFloat.is_digit int_digits = true ->
  forallb PyFloat.is_digit frac = true ->
  forallb numeral_char (int_digits ++ 46 :: frac) = true.
Proof.
  intros Hi Hf. rewrite forallb_app. cbn [forallb].
  rewrite (digits_numeral_chars _ Hi), (digits_numeral_chars _ Hf).
  reflexivity.
Qed.

Lemma float_of_numeral ud (first : N) (int_rest frac : str) :
  PyFloat.is_digit first = true ->
  forallb PyFloat.is_digit int_rest = true ->
  forallb PyFloat.is_digit frac = true ->
  frac <> [] ->
  PyFloat.float_of_str ud ((first :: int_rest) ++ 46 :: frac)
  = Some (PyFloat.round_decimal false
            (PyFloat.digits_value ((first :: int_rest) ++ frac))
            (- Z.of_nat (length frac))).
Proof.
  intros Hf Hi Hfr Hne. unfold PyFloat.float_of_str.
  assert (Hchars : forallb numeral_char ((first :: int_rest) ++ 46 :: frac)
                   = true).
  { apply numeral_chars; [|exact Hfr].
    cbn [forallb]. rewrite Hf, Hi. reflexivity. }
  rewrite (to_ascii_ascii ud _ (forallb_impl _ _ _ numeral_char_ascii Hchars)).
  rewrite (existsb_none _ _ _ numeral_char_no_underscore Hchars).
  change ((first :: int_rest) ++ 46 :: frac)
    with (first :: (int_rest ++ 46 :: frac)) at 1.
  cbn [PyFloat.lstrip_ascii]. rewrite (digit_not_ascii_space first Hf).
  change (first :: (int_rest ++ 46 :: frac))
    with ((first :: int_rest) ++ 46 :: frac).
  destruct (exists_last Hne) as (frac' & last & Efrac).
  assert (Hlast : PyFloat.is_digit last = true).
  { rewrite forallb_forall in Hfr. apply Hfr. rewrite Efrac.
    apply in_or_app. right. left. reflexivity. }
  assert (Erev : rev ((first :: int_rest) ++ 46 :: frac)
                 = last :: rev ((first :: int_rest) ++ 46 :: frac')).
  { rewrite Efrac.
    change (46 :: frac' ++ [last]) with ((46 :: frac') ++ [last]).
    rewrite app_assoc, rev_app_distr. reflexivity. }
  rewrite Erev. cbn [PyFloat.lstrip_ascii].
  rewrite (digit_not_ascii_space last Hlast), <- Erev, rev_involutive.
  change ((first :: int_rest) ++ 46 :: frac)
    with (first :: (int_rest ++ 46 :: frac)) at 1.
  cbv iota beta.
  change (first :: (int_rest ++ 46 :: frac))
    with ((first :: int_rest) ++ 46 :: frac).
  unfold PyFloat.string_to_double.
  rewrite (strtod_numeral first int_rest frac Hf Hi Hfr Hne).
  reflexivity.
Qed.

Lemma filter_filter_kept (s : str) :
  filter (fun x => negb (194 =? x)) (filter (fun x => negb (163 =? x)) s)
  = filter kept s.
Proof.
  induction s as [|c s IH]; [reflexivity|].
  cbn [filter]. unfold kept at 1.
  destruct (163 =? c) eqn:E1; cbn [negb andb filter]; [exact IH|].
  destruct (194 =? c) eqn:E2; cbn [negb andb]; rewrite IH; reflexivity.
Qed.

(** C6: take a price text made of whitespace, the artifact or not, the
    pound sign, a numeral (digits, a point, digits) and whitespace again.
    [parse_price] returns what [float] returns on the numeral alone: the
    double nearest to the number it writes.  And when [float] fails on
    what is left of a price text, [parse_price] raises [ValueError], the
    extraction of the book raises, and [parse_books] logs the failure,
    adds no record for the book and goes on with the books left. *)
Theorem parse_price_numeral
  (unicode_decimal : N -> option N)
  (ws1 ws2 int_digits frac_digits : str) (artifact : bool) :
  (forallb isspace ws1 = true -> forallb isspace ws2 = true ->
   forallb PyFloat.is_digit int_digits = true -> int_digits <> [] ->
   forallb PyFloat.is_digit frac_digits = true -> frac_digits <> [] ->
   let numeral := int_digits ++ py"." ++ frac_digits in
   let x := PyFloat.round_decimal false
              (PyFloat.digits_value (int_digits ++ frac_digits))
              (- Z.of_nat (length frac_digits)) in
   PyFloat.float_of_str unicode_decimal numeral = Some x /\
   parse_price unicode_decimal
     (ws1 ++ (if artifact then [194] else []) ++ [163] ++ numeral ++ ws2)
   = inr x)
  /\
  (forall price_text,
     PyFloat.float_of_str unicode_decimal
       (strip (replace [194] [] (replace [163] [] price_text))) = None ->
     (exists s, parse_price unicode_decimal price_text = inl (ValueError s)) /\
     forall base_url b rest all_books past,
       price_color_text b = Some price_text ->
       exists e,
         extract_book unicode_decimal base_url b = inl e /\
         parse_page unicode_decimal base_url (b :: rest) all_books past
         = parse_page unicode_decimal base_url rest all_books
             (past ++ [Print (BookFailed e)])).
Proof.
  split.
  - intros Hw1 Hw2 Hi Hine Hf Hfne numeral x.
    destruct int_digits as [|first int_rest]; [contradiction|].
    cbn [forallb] in Hi. apply andb_true_iff in Hi. destruct Hi as [Hfirst Hi].
    assert (Hfloat : PyFloat.float_of_str unicode_decimal numeral = Some x).
    { apply float_of_numeral; assumption. }
    split; [exact Hfloat|].
    unfold parse_price.
    rewrite !replace_char_filter, filter_filter_kept.
    rewrite !filter_app.
    rewrite (filter_all kept ws1 (forallb_impl _ _ _ space_kept Hw1)).
    rewrite (filter_all kept ws2 (forallb_impl _ _ _ space_kept Hw2)).
    assert (Hnum : filter kept numeral = numeral).
    { apply filter_all.
      apply (forallb_impl numeral_char); [apply numeral_char_kept|].
      apply (numeral_chars (first :: int_rest) frac_digits); [|exact Hf].
      cbn [forallb]. rewrite Hfirst, Hi. reflexivity. }
    rewrite Hnum.
    replace (filter kept (if artifact then [194] else [])) with (@nil N)
      by (destruct artifact; reflexivity).
    change (filter kept [163]) with (@nil N). cbn [app].
    destruct (exists_last Hfne) as (frac' & last & Efrac).
    assert (Hlast : PyFloat.is_digit last = true).
    { rewrite forallb_forall in Hf. apply Hf. rewrite Efrac.
      apply in_or_app. right. left. reflexivity. }
    assert (Eshape : numeral = first :: (int_rest ++ 46 :: frac') ++ [last]).
    { unfold numeral. rewrite Efrac. cbn [app lit].
      rewrite <- !app_assoc. reflexivity. }
    rewrite Eshape at 1.
    rewrite (strip_between ws1 ws2 _ first last Hw1 Hw2 Hfirst Hlast).
    rewrite <- Eshape, Hfloat. reflexivity.
  - intros price_text Hnone. unfold parse_price. rewrite Hnone.
    split; [eexists; reflexivity|].
    intros base_url b rest all_books past Hb.
    assert (Hbook : exists e, extract_book unicode_decimal base_url b = inl e).
    { unfold extract_book. rewrite Hb.
      destruct (h3_a_title b); cbn [lookup and_then];
        [|eexists; reflexivity].
      unfold parse_price. rewrite Hnone. eexists. reflexivity. }
    destruct Hbook as [e He]. exists e. split; [exact He|].
    cbn [parse_page]. rewrite He. reflexivity.
Qed.

Lemma parse_price_numeral_witness :
  PyFloat.float_of_str ascii_digits_only py"12.34" = Some 12.34%float /\
  parse_price ascii_digits_only ([32; 194; 163] ++ py"12.34" ++ [10])
  = inr 12.34%float.
Proof.
  destruct (parse_price_numeral ascii_digits_only [32] [10] py"12" py"34" true)
    as [H _].
  apply H; (reflexivity || discriminate).
Defined.

(** The price of a book as the site writes it, and as it reads when the
    page is decoded wrongly. *)
Example parse_price_pounds :
  parse_price ascii_digits_only (163 :: py"51.77") = inr 51.77%float /\
  parse_price ascii_digits_only (194 :: 163 :: py"51.77") = inr 51.77%float.
Proof. split; vm_compute; reflexivity. Qed.

Example parse_price_not_numeric :
  parse_price ascii_digits_only (163 :: py"n/a") = inl (ValueError py"n/a").
Proof. vm_compute. reflexivity. Qed.

(** *** [fetch_page] *)

Local Open Scope Z_scope.

Lemma fetch_attempts_cons network url retry timeout attempt rest past :
  fetch_attempts network url retry timeout (attempt :: rest) past
  = match network past url timeout with
    | Page soup => (Some soup, past ++ [Get url timeout])
    | RequestException e =>
        let past := (past ++ [Get url timeout])
                    ++ [Print (RequestFailed url (attempt + 1) retry e)] in
        if attempt <? retry - 1
        then fetch_attempts network url retry timeout rest (past ++ [Sleep 2])
        else (None, past ++ [Print (GaveUp retry)])
    end.
Proof.
  cbn [fetch_attempts]. unfold bind, get, emit, ret.
  destruct (network past url timeout); [reflexivity|].
  destruct (attempt <? retry - 1); reflexivity.
Qed.

Lemma range_from (a : Z) (n : nat) :
  map (fun i => a + Z.of_nat i) (seq 0 (S n))
  = a :: map (fun i => (a + 1) + Z.of_nat i) (seq 0 n).
Proof.
  cbn [seq map]. rewrite Z.add_0_r. f_equal.
  rewrite <- seq_shift, map_map. apply map_ext. intros i. lia.
Qed.

Lemma fetch_attempts_all_fail network url retry timeout :
  (forall past, exists e, network past url timeout = RequestException e) ->
  forall (n : nat) (a : Z) past,
    (0 < n)%nat -> a + Z.of_nat n = retry ->
    exists errors,
      length errors = n /\
      fetch_attempts network url retry timeout
        (map (fun i => a + Z.of_nat i) (seq 0 n)) past
      = (None, past ++ failed_attempts url retry timeout (a + 1) errors).
Proof.
  intros Hfail. induction n as [|n IH]; intros a past Hn Ha; [lia|].
  rewrite range_from, fetch_attempts_cons.
  destruct (Hfail past) as [e He]. rewrite He. cbv zeta.
  destruct n as [|n].
  - exists [e]. split; [reflexivity|].
    replace (a <? retry - 1) with false by (symmetry; apply Z.ltb_ge; lia).
    cbn [failed_attempts].
    replace (a + 1 <? retry) with false by (symmetry; apply Z.ltb_ge; lia).
    rewrite <- !app_assoc. reflexivity.
  - replace (a <? retry - 1) with true by (symmetry; apply Z.ltb_lt; lia).
    destruct (IH (a + 1)
                (((past ++ [Get url timeout])
                  ++ [Print (RequestFailed url (a + 1) retry e)])
                 ++ [Sleep 2])) as [errors [Hlen Hrun]]; [lia|lia|].
    exists (e :: errors). split; [cbn [length]; rewrite Hlen; reflexivity|].
    rewrite Hrun. cbn [failed_attempts].
    replace (a + 1 <? retry) with true by (symmetry; apply Z.ltb_lt; lia).
    rewrite <- !app_assoc. reflexivity.
Qed.

Lemma failed_attempts_counts url retry timeout :
  forall errors attempt,
    errors <> [] ->
    attempt + Z.of_nat (length errors) = retry + 1 ->
    let new := failed_attempts url retry timeout attempt errors in
    length (filter is_get new) = length errors /\
    length (filter is_request_failed new) = length errors /\
    filter is_sleep new = repeat (Sleep 2) (length errors - 1).
Proof.
  induction errors as [|e errors IH]; intros attempt Hne Hlen;
    [contradiction|].
  cbn [length] in Hlen. cbv zeta. cbn [failed_attempts].
  destruct errors as [|e' errors].
  - replace (attempt <? retry) with false
      by (symmetry; apply Z.ltb_ge; cbn in Hlen; lia).
    repeat split; reflexivity.
  - replace (attempt <? retry) with true
      by (symmetry; apply Z.ltb_lt; cbn [length] in Hlen; lia).
    destruct (IH (attempt + 1)) as (H1 & H2 & H3);
      [discriminate | cbn [length] in *; lia |].
    cbv zeta in H1, H2, H3.
    cbn [app filter is_get is_request_failed is_sleep length].
    rewrite H1, H2, H3. repeat split.
    cbn [length Nat.sub]. rewrite Nat.sub_0_r. reflexivity.
Qed.






(** What the code does there: one request, and the document. *)
Example fetch_page_not_modified_run :
  fetch_page (served not_modified) py"http://x" 3 10 []
  = (Some [], [Get py"http://x" 10]).
Proof. reflexivity. Qed.

(** *** [parse_books] *)

(** C3 does not hold of the code: on two pages of which the first fails
    its three attempts, the request for page 2 follows the closing
    message of page 1 with no pause of 1 in between; the only pause of 1
    is the one after page 2, which was fetched. *)
Theorem parse_books_no_pause_after_failed_page :
  let base := py"https://books.toscrape.com" in
  let url1 := page_url base 1 in
  let url2 := page_url base 2 in
  parse_books ascii_digits_only (first_page_down base) base 2 []
  = ([],
     [ Print (ParsingPage 1 url1);
       Get url1 10; Print (RequestFailed url1 1 3 py"timed out"); Sleep 2;
       Get url1 10; Print (RequestFailed url1 2 3 py"timed out"); Sleep 2;
       Get url1 10; Print (RequestFailed url1 3 3 py"timed out");
       Print (GaveUp 3);
       Print (ParsingPage 2 url2);
       Get url2 10;
       Print (BooksFound 2 0);
       Sleep 1 ]).
Proof. vm_compute. reflexivity. Qed.

(** *** [fetch_page]: a page served after failures, and no attempt at all *)

Lemma failed_attempts_pauses url retry timeout :
  forall errors attempt,
    attempt + Z.of_nat (length errors) <= retry ->
    let new := failed_attempts url retry timeout attempt errors in
    length (filter is_get new) = length errors /\
    length (filter is_request_failed new) = length errors /\
    filter is_sleep new = repeat (Sleep 2) (length errors) /\
    filter is_gave_up new = [].
Proof.
  induction errors as [|e errors IH]; intros attempt Hlen;
    [repeat split; reflexivity|].
  cbn [length] in Hlen. cbv zeta. cbn [failed_attempts].
  replace (attempt <? retry) with true by (symmetry; apply Z.ltb_lt; lia).
  destruct (IH (attempt + 1)) as (H1 & H2 & H3 & H4); [lia|].
  cbv zeta in H1, H2, H3, H4.
  cbn [app filter is_get is_request_failed is_sleep is_gave_up length repeat].
  rewrite H1, H2, H3, H4. repeat split.
Qed.

Lemma fetch_attempts_served network url retry timeout past soup (k : nat) :
  (forall new, (length (filter is_get new) < k)%nat ->
     exists e, network (past ++ new) url timeout = RequestException e) ->
  (forall new, length (filter is_get new) = k ->
     network (past ++ new) url timeout = Page soup) ->
  forall (m n : nat) (a : Z) new0,
    (length (filter is_get new0) + m)%nat = k ->
    (m < n)%nat -> a + Z.of_nat n = retry ->
    exists errors,
      length errors = m /\
      fetch_attempts network url retry timeout
        (map (fun i => a + Z.of_nat i) (seq 0 n)) (past ++ new0)
      = (Some soup,
         past ++ new0 ++ failed_attempts url retry timeout (a + 1) errors
              ++ [Get url timeout]).
Proof.
  intros Hfail Hserve.
  induction m as [|m IH]; intros n a new0 Hk Hn Ha.
  - destruct n as [|n]; [lia|].
    rewrite range_from, fetch_attempts_cons.
    rewrite (Hserve new0) by lia.
    exists []. split; [reflexivity|].
    cbn [failed_attempts app]. rewrite app_assoc. reflexivity.
  - destruct n as [|n]; [lia|].
    rewrite range_from, fetch_attempts_cons.
    destruct (Hfail new0) as [e He]; [lia|]. rewrite He. cbv zeta.
    replace (a <? retry - 1) with true by (symmetry; apply Z.ltb_lt; lia).
    destruct (IH n (a + 1)
                (new0 ++ [Get url timeout;
                          Print (RequestFailed url (a + 1) retry e);
                          Sleep 2])) as [errors [Hlen Hrun]].
    + rewrite filter_app, length_app. cbn [filter is_get length]. lia.
    + lia.
    + lia.
    + exists (e :: errors). split; [cbn [length]; rewrite Hlen; reflexivity|].
      replace (((past ++ new0) ++ [Get url timeout])
                 ++ [Print (RequestFailed url (a + 1) retry e)])
        with (past ++ new0 ++ [Get url timeout;
                               Print (RequestFailed url (a + 1) retry e)])
        by (rewrite <- !app_assoc; reflexivity).
      replace ((past ++ new0 ++ [Get url timeout;
                  Print (RequestFailed url (a + 1) retry e)]) ++ [Sleep 2])
        with (past ++ new0 ++ [Get url timeout;
                               Print (RequestFailed url (a + 1) retry e);
                               Sleep 2])
        by (rewrite <- !app_assoc; reflexivity).
      rewrite Hrun. cbn [failed_attempts].
      replace (a + 1 <? retry) with true by (symmetry; apply Z.ltb_lt; lia).
      rewrite <- !app_assoc. reflexivity.
Qed.

(** X1: when the site fails the first [k] requests of a [fetch_page] and
    serves the page at the next one, with [k] below [retry], [fetch_page]
    returns that page after [k + 1] requests, [k] messages of failure
    and [k] pauses of 2, and it does not print that it gave up. *)
Theorem fetch_page_served_after_failures
  (network : list event -> str -> Z -> response)
  (url : str) (retry timeout : Z) (past : list event)
  (soup : list article) (k : nat) :
  Z.of_nat k < retry ->
  (forall new, (length (filter is_get new) < k)%nat ->
     exists e, network (past ++ new) url timeout = RequestException e) ->
  (forall new, length (filter is_get new) = k ->
     network (past ++ new) url timeout = Page soup) ->
  exists errors,
    let new := failed_attempts url retry timeout 1 errors
               ++ [Get url timeout] in
    fetch_page network url retry timeout past = (Some soup, past ++ new) /\
    length errors = k /\
    length (filter is_get new) = S k /\
    length (filter is_request_failed new) = k /\
    filter is_sleep new = repeat (Sleep 2) k /\
    filter is_gave_up new = [].
Proof.
  intros Hk Hfail Hserve.
  destruct (fetch_attempts_served network url retry timeout past soup k
              Hfail Hserve k (Z.to_nat retry) 0 [])
    as [errors [Hlen Hrun]]; [reflexivity | lia | lia |].
  exists errors. cbv zeta.
  unfold fetch_page, range. rewrite Z.sub_0_r.
  rewrite app_nil_r in Hrun. cbn [app] in Hrun.
  change (0 + 1) with 1 in Hrun.
  split; [exact Hrun|]. split; [exact Hlen|].
  destruct (failed_attempts_pauses url retry timeout errors 1)
    as (H1 & H2 & H3 & H4); [lia|].
  cbv zeta in H1, H2, H3, H4.
  rewrite !filter_app, !length_app, H1, H2, H3, H4, Hlen.
  cbn [filter is_get is_request_failed is_sleep is_gave_up length app].
  rewrite app_nil_r. repeat split; lia.
Qed.

Lemma fetch_page_served_after_failures_witness :
  exists errors,
    let new := failed_attempts py"http://x" 3 10 1 errors
               ++ [Get py"http://x" 10] in
    fetch_page (flaky_site 2 [good_article]) py"http://x" 3 10 []
    = (Some [good_article], [] ++ new) /\
    length errors = 2%nat /\
    length (filter is_get new) = 3%nat /\
    length (filter is_request_failed new) = 2%nat /\
    filter is_sleep new = [Sleep 2; Sleep 2] /\
    filter is_gave_up new = [].
Proof.
  apply (fetch_page_served_after_failures (flaky_site 2 [good_article])
           py"http://x" 3 10 [] [good_article] 2).
  - lia.
  - intros new Hnew. exists (py"timed out"). unfold flaky_site.
    cbn [app]. apply Nat.ltb_lt in Hnew. rewrite Hnew. reflexivity.
  - intros new Hnew. unfold flaky_site. cbn [app]. rewrite Hnew.
    reflexivity.
Defined.

(** X2: with no attempt allowed ([retry] <= 0) [fetch_page] returns
    [None] without a request and without a message, and with no page
    asked for ([num_pages] <= 0) [parse_books] returns the empty table
    without a request, a pause or a message. *)
Theorem nothing_to_fetch
  (unicode_decimal : N -> option N)
  (network : list event -> str -> Z -> response)
  (url base_url : str) (retry timeout num_pages : Z) (past : list event) :
  (retry <= 0 -> fetch_page network url retry timeout past = (None, past)) /\
  (num_pages <= 0 ->
   parse_books unicode_decimal network base_url num_pages past = ([], past)).
Proof.
  split; intros H.
  - unfold fetch_page, range.
    replace (Z.to_nat (retry - 0)) with 0%nat by lia. reflexivity.
  - unfold parse_books, range.
    replace (Z.to_nat (num_pages + 1 - 1)) with 0%nat by lia. reflexivity.
Qed.

Lemma nothing_to_fetch_witness :
  fetch_page site_down py"http://x" 0 10 [] = (None, []) /\
  parse_books ascii_digits_only site_down py"http://x" (-1) [] = ([], []).
Proof.
  destruct (nothing_to_fetch ascii_digits_only site_down py"http://x"
              py"http://x" 0 10 (-1) []) as [H1 H2].
  split; [apply H1 | apply H2]; lia.
Defined.

(** *** [parse_price]: the symbols wherever they stand *)

Lemma parse_price_filter ud (s : str) :
  parse_price ud s
  = match PyFloat.float_of_str ud (strip (filter kept s)) with
    | Some x => inr x
    | None => inl (ValueError (strip (filter kept s)))
    end.
Proof.
  unfold parse_price.
  rewrite !replace_char_filter, filter_filter_kept. reflexivity.
Qed.

(** X3: [parse_price] removes the pound sign and the artifact wherever
    they stand in the text, not only in front of the number: two texts
    that are the same once these two characters are left out give the
    same price, or fail alike. *)
Theorem parse_price_ignores_symbols
  (unicode_decimal : N -> option N) (s1 s2 : str) :
  filter kept s1 = filter kept s2 ->
  parse_price unicode_decimal s1 = parse_price unicode_decimal s2.
Proof.
  intros H. rewrite !parse_price_filter, H. reflexivity.
Qed.

Lemma parse_price_ignores_symbols_witness :
  parse_price ascii_digits_only (py"12." ++ [163; 194]%N ++ py"34")
  = parse_price ascii_digits_only (163%N :: py"12.34").
Proof.
  apply (parse_price_ignores_symbols ascii_digits_only).
  reflexivity.
Defined.

(** *** [parse_books]: the books of a page *)

Lemma parse_page_run ud base_url (books : list article) :
  forall all_books past,
    let results := map (extract_book ud base_url) books in
    parse_page ud base_url books all_books past
    = (all_books ++ records results,
       past ++ map (fun e => Print (BookFailed e)) (failures results)).
Proof.
  induction books as [|b books IH]; intros all_books past; cbv zeta.
  - cbn. rewrite !app_nil_r. reflexivity.
  - cbn [parse_page map].
    destruct (extract_book ud base_url b) as [e|record].
    + unfold bind, emit. cbv zeta in IH. rewrite IH.
      cbn [records failures map]. rewrite <- app_assoc. reflexivity.
    + cbv zeta in IH. rewrite IH.
      cbn [records failures]. rewrite <- app_assoc. reflexivity.
Qed.

Lemma records_failures_length (results : list (exn + book)) :
  (length (records results) + length (failures results))%nat
  = length results.
Proof.
  induction results as [|[e|b] results IH]; cbn [records failures length];
    lia.
Qed.

(** X4: the loop over the books of a page adds to the table the records
    of the books whose extraction succeeded, in the order of the page
    and after the records the table had, and prints one message for
    each book whose extraction failed; a failure neither stops the loop
    nor touches the records collected so far.  The count that
    [parse_books] prints for the page is the number of books on it, the
    failed ones included. *)
Theorem parse_page_collects_in_order
  (unicode_decimal : N -> option N)
  (network : list event -> str -> Z -> response)
  (base_url : str) (books : list article)
  (all_books : list book) (past : list event) :
  let results := map (extract_book unicode_decimal base_url) books in
  let said := map (fun e => Print (BookFailed e)) (failures results) in
  parse_page unicode_decimal base_url books all_books past
  = (all_books ++ records results, past ++ said) /\
  (length (records results) + length (failures results))%nat
  = length books /\
  forall page_num rest past',
    network (past' ++ [Print (ParsingPage page_num
                                (page_url base_url page_num))])
            (page_url base_url page_num) 10 = Page books ->
    parse_pages unicode_decimal network base_url (page_num :: rest)
      all_books past'
    = parse_pages unicode_decimal network base_url rest
        (all_books ++ records results)
        (past' ++ [Print (ParsingPage page_num (page_url base_url page_num));
                   Get (page_url base_url page_num) 10]
               ++ said
               ++ [Print (BooksFound page_num (length books)); Sleep 1]).
Proof.
  cbv zeta. split; [apply parse_page_run|].
  split; [rewrite records_failures_length; apply length_map|].
  intros page_num rest past' Hpage.
  cbn [parse_pages]. unfold bind at 1, emit at 1.
  unfold bind at 1, fetch_page.
  change (range 0 3) with [0; 1; 2].
  rewrite fetch_attempts_cons, Hpage.
  unfold bind at 1. rewrite parse_page_run.
  unfold bind, emit. f_equal.
  rewrite <- !app_assoc. reflexivity.
Qed.

Lemma parse_page_collects_in_order_witness :
  let base := py"https://books.toscrape.com" in
  let books := [good_article; no_price_article] in
  let results := map (extract_book ascii_digits_only base) books in
  let said := map (fun e => Print (BookFailed e)) (failures results) in
  parse_page ascii_digits_only base books [] []
  = ([] ++ records results, [] ++ said) /\
  parse_pages ascii_digits_only (flaky_site 0 books) base [1] [] []
  = parse_pages ascii_digits_only (flaky_site 0 books) base []
      ([] ++ records results)
      ([] ++ [Print (ParsingPage 1 (page_url base 1));
              Get (page_url base 1) 10]
          ++ said ++ [Print (BooksFound 1 (length books)); Sleep 1]).
Proof.
  cbv zeta.
  destruct (parse_page_collects_in_order ascii_digits_only
              (flaky_site 0 [good_article; no_price_article])
              py"https://books.toscrape.com"
              [good_article; no_price_article] [] []) as (H1 & _ & H3).
  split; [exact H1 | exact (H3 1 [] [] eq_refl)].
Defined.

(** *** [parse_books]: what every run keeps to *)

Lemma startswith_app (p s : str) : startswith p (p ++ s) = true.
Proof.
  induction p as [|c p IH]; [reflexivity|].
  cbn [app startswith]. rewrite N.eqb_refl. exact IH.
Qed.

Lemma parse_rating_bounds (rating_class : class_value) :
  0 <= parse_rating rating_class <= 5.
Proof.
  unfold parse_rating, rating_map, first_key_in.
  repeat match goal with
         | |- context [if ?c then _ else _] => destruct c
         end; lia.
Qed.

Lemma extract_book_well_formed ud base_url (b : article) (record : book) :
  extract_book ud base_url b = inr record ->
  well_formed base_url record = true.
Proof.
  unfold extract_book.
  destruct (h3_a_title b) as [t|]; [|discriminate].
  destruct (price_color_text b) as [p|]; [|discriminate].
  cbn [lookup and_then].
  destruct (parse_price ud p) as [e|x]; [discriminate|].
  destruct (h3_a_href b) as [h|]; [|discriminate].
  destruct (star_rating_class b) as [c|]; [|discriminate].
  cbn [lookup and_then]. intros E.
  replace record
    with (Book (Some t) x (parse_rating (ClassTokens c))
            (Some (base_url ++ py"/catalogue/" ++ replace (py"../") [] h)))
    by congruence.
  unfold well_formed. cbv beta iota delta [title link rating].
  rewrite app_assoc, startswith_app.
  destruct (parse_rating_bounds (ClassTokens c)) as [H0 H5].
  apply Z.leb_le in H0, H5. rewrite H0, H5. reflexivity.
Qed.

Lemma records_well_formed ud base_url (books : list article) :
  Forall (fun b => well_formed base_url b = true)
         (records (map (extract_book ud base_url) books)).
Proof.
  induction books as [|b books IH]; [constructor|].
  cbn [map records].
  destruct (extract_book ud base_url b) as [e|record] eqn:E; [exact IH|].
  constructor; [apply (extract_book_well_formed ud base_url b); exact E|].
  exact IH.
Qed.

(** What one [fetch_page] over the attempts [a], ..., [retry - 1] adds
    to the trace, whatever the site answers. *)
Lemma fetch_attempts_outcome network url retry timeout :
  forall (n : nat) (a : Z) past,
    (0 < n)%nat -> a + Z.of_nat n = retry ->
    exists r new,
      fetch_attempts network url retry timeout
        (map (fun i => a + Z.of_nat i) (seq 0 n)) past
      = (r, past ++ new) /\
      (1 <= length (filter is_get new) <= n)%nat /\
      Forall (fetch_event url timeout) new /\
      length (filter is_gave_up new)
      = match r with Some _ => 0%nat | None => 1%nat end.
Proof.
  induction n as [|n IH]; intros a past Hn Ha; [lia|].
  rewrite range_from, fetch_attempts_cons.
  destruct (network past url timeout) as [soup|e].
  - exists (Some soup), [Get url timeout].
    split; [reflexivity|]. split; [cbn; lia|].
    split; [|reflexivity].
    constructor; [split; reflexivity | constructor].
  - cbv zeta. destruct n as [|n].
    + replace (a <? retry - 1) with false by (symmetry; apply Z.ltb_ge; lia).
      exists None, [Get url timeout;
                    Print (RequestFailed url (a + 1) retry e);
                    Print (GaveUp retry)].
      split; [rewrite <- !app_assoc; reflexivity|].
      split; [cbn; lia|]. split; [|reflexivity].
      repeat constructor.
    + replace (a <? retry - 1) with true by (symmetry; apply Z.ltb_lt; lia).
      destruct (IH (a + 1)
                  (((past ++ [Get url timeout])
                    ++ [Print (RequestFailed url (a + 1) retry e)])
                   ++ [Sleep 2])) as (r & new & Hrun & Hgets & Hall & Hgave);
        [lia | lia |].
      exists r, ([Get url timeout;
                  Print (RequestFailed url (a + 1) retry e);
                  Sleep 2] ++ new).
      split; [rewrite Hrun, <- !app_assoc; reflexivity|].
      split; [cbn [app filter is_get length]; lia|].
      split; [|exact Hgave].
      repeat constructor. exact Hall.
Qed.

Lemma fetch_event_page base_url (pages : list Z) page_num e :
  In page_num pages ->
  fetch_event (page_url base_url page_num) 10 e ->
  page_event base_url pages e.
Proof.
  intros Hin. destruct e as [u t|s|m]; cbn.
  - intros [-> ->]. split; [reflexivity|]. exists page_num. split;
      [exact Hin | reflexivity].
  - intros ->. right. reflexivity.
  - intros _. exact I.
Qed.

Lemma page_event_more base_url (pages : list Z) p e :
  page_event base_url pages e -> page_event base_url (p :: pages) e.
Proof.
  destruct e as [u t|s|m]; cbn; try tauto.
  intros [Ht [q [Hq Hu]]]. split; [exact Ht|].
  exists q. split; [right; exact Hq | exact Hu].
Qed.

Lemma filter_failed_books (P : event -> bool) (es : list exn) :
  (forall e, P (Print (BookFailed e)) = false) ->
  filter P (map (fun e => Print (BookFailed e)) es) = [].
Proof.
  intros H. induction es as [|e es IH]; [reflexivity|].
  cbn [map filter]. rewrite H. exact IH.
Qed.

(** Every run of the loop over the pages, whatever the site answers. *)
Lemma parse_pages_run ud network base_url :
  forall (pages : list Z) all_books past,
    exists added new,
      parse_pages ud network base_url pages all_books past
      = (all_books ++ added, past ++ new) /\
      Forall (fun b => well_formed base_url b = true) added /\
      (length pages <= length (filter is_get new) <= 3 * length pages)%nat /\
      (length (filter is_page_pause new)
       + length (filter is_gave_up new))%nat = length pages /\
      length (filter is_page_pause new)
      = length (filter is_books_found new) /\
      Forall (page_event base_url pages) new.
Proof.
  induction pages as [|page_num pages IH]; intros all_books past.
  - exists [], []. cbn. rewrite !app_nil_r.
    repeat split; try constructor; lia.
  - cbn [parse_pages]. unfold bind at 1, emit at 1.
    unfold bind at 1, fetch_page.
    destruct (fetch_attempts_outcome network (page_url base_url page_num)
                3 10 3 0
                (past ++ [Print (ParsingPage page_num
                                   (page_url base_url page_num))]))
      as (r & fetched & Hrun & Hgets & Hall & Hgave); [lia | lia |].
    change (range 0 3) with (map (fun i => 0 + Z.of_nat i) (seq 0 3)).
    rewrite Hrun.
    assert (Hpause : filter is_page_pause fetched = []).
    { clear - Hall. induction Hall as [|e l He _ IHl]; [reflexivity|].
      cbn [filter]. rewrite IHl.
      destruct e as [u t|s|m]; cbn in He |- *; [reflexivity| |reflexivity].
      subst s. reflexivity. }
    assert (Hfound : filter is_books_found fetched = []).
    { clear - Hall. induction Hall as [|e l He _ IHl]; [reflexivity|].
      cbn [filter]. rewrite IHl.
      destruct e as [u t|s|m]; cbn in He |- *; try reflexivity.
      destruct m; cbn in He |- *; try reflexivity; contradiction. }
    assert (Hevents : Forall (page_event base_url (page_num :: pages))
                        fetched).
    { apply (Forall_impl _ (fun e => fetch_event_page base_url
                                       (page_num :: pages) page_num e
                                       (or_introl eq_refl)) Hall). }
    destruct r as [books|].
    + unfold bind at 1. rewrite parse_page_run. cbv zeta.
      unfold bind, emit.
      set (results := map (extract_book ud base_url) books).
      destruct (IH (all_books ++ records results)
                  (((((past ++ [Print (ParsingPage page_num
                                         (page_url base_url page_num))])
                      ++ fetched)
                     ++ map (fun e => Print (BookFailed e))
                          (failures results))
                    ++ [Print (BooksFound page_num (length books))])
                   ++ [Sleep 1]))
        as (added & new & Hrest & Hwf & Hg & Hp & Hb & Hev).
      exists (records results ++ added),
        ([Print (ParsingPage page_num (page_url base_url page_num))]
         ++ fetched
         ++ map (fun e => Print (BookFailed e)) (failures results)
         ++ [Print (BooksFound page_num (length books)); Sleep 1]
         ++ new).
      split; [rewrite Hrest, <- !app_assoc; reflexivity|].
      split; [apply Forall_app; split;
              [apply records_well_formed | exact Hwf]|].
      rewrite !filter_app, !length_app.
      rewrite !filter_failed_books by reflexivity.
      rewrite Hpause, Hfound, Hgave.
      cbn [filter is_get is_page_pause is_gave_up is_books_found
             length app Z.eqb Pos.eqb].
      split; [lia|]. split; [lia|]. split; [lia|].
      constructor; [exact I|].
      apply Forall_app. split; [exact Hevents|].
      apply Forall_app. split.
      { apply Forall_forall. intros e He. apply in_map_iff in He.
        destruct He as [x [<- _]]. exact I. }
      constructor; [exact I|]. constructor; [left; reflexivity|].
      apply (Forall_impl _ (page_event_more base_url pages page_num) Hev).
    + destruct (IH all_books
                  ((past ++ [Print (ParsingPage page_num
                                      (page_url base_url page_num))])
                   ++ fetched))
        as (added & new & Hrest & Hwf & Hg & Hp & Hb & Hev).
      exists added,
        ([Print (ParsingPage page_num (page_url base_url page_num))]
         ++ fetched ++ new).
      split; [rewrite Hrest, <- !app_assoc; reflexivity|].
      split; [exact Hwf|].
      rewrite !filter_app, !length_app.
      rewrite Hpause, Hfound, Hgave.
      cbn [filter is_get is_page_pause is_gave_up is_books_found
             length app].
      split; [lia|]. split; [lia|]. split; [lia|].
      constructor; [exact I|].
      apply Forall_app. split; [exact Hevents|].
      apply (Forall_impl _ (page_event_more base_url pages page_num) Hev).
Qed.

(** X5: whatever the site answers, every record [parse_books] returns
    has a title, a link that starts with the base URL and [/catalogue/],
    and a rating from 0 to 5. *)
Theorem parse_books_records_well_formed
  (unicode_decimal : N -> option N)
  (network : list event -> str -> Z -> response)
  (base_url : str) (num_pages : Z) (past : list event) :
  Forall (fun b => well_formed base_url b = true)
         (fst (parse_books unicode_decimal network base_url num_pages past)).
Proof.
  unfold parse_books.
  destruct (parse_pages_run unicode_decimal network base_url
              (range 1 (num_pages + 1)) [] past)
    as (added & new & Hrun & Hwf & _).
  rewrite Hrun. exact Hwf.
Qed.

Lemma range_length (a b : Z) : length (range a b) = Z.to_nat (b - a).
Proof. unfold range. rewrite length_map, length_seq. reflexivity. Qed.




(** *** [parse_books]: a site that serves every page *)

Lemma parse_pages_all_served ud base_url (site : str -> list article)
  network :
  (forall past url timeout, network past url timeout = Page (site url)) ->
  forall (pages : list Z) all_books past,
    exists new,
      parse_pages ud network base_url pages all_books past
      = (all_books ++ flat_map (page_records ud site base_url) pages,
         past ++ new) /\
      length (filter is_get new) = length pages /\
      filter is_sleep new = repeat (Sleep 1) (length pages) /\
      filter is_gave_up new = [] /\
      filter is_request_failed new = [].
Proof.
  intros Hserve.
  induction pages as [|page_num pages IH]; intros all_books past.
  - exists []. cbn. rewrite !app_nil_r. repeat split.
  - cbn [parse_pages]. unfold bind at 1, emit at 1.
    unfold bind at 1, fetch_page.
    change (range 0 3) with [0; 1; 2].
    rewrite fetch_attempts_cons, Hserve.
    unfold bind at 1. rewrite parse_page_run. cbv zeta.
    unfold bind, emit.
    fold (page_records ud site base_url page_num).
    set (said := map (fun e => Print (BookFailed e))
                   (failures (map (extract_book ud base_url)
                                (site (page_url base_url page_num))))).
    destruct (IH (all_books ++ page_records ud site base_url page_num)
                (((((past ++ [Print (ParsingPage page_num
                                       (page_url base_url page_num))])
                    ++ [Get (page_url base_url page_num) 10])
                   ++ said)
                  ++ [Print (BooksFound page_num
                               (length (site (page_url base_url
                                                page_num))))])
                 ++ [Sleep 1]))
      as (new & Hrun & Hg & Hs & Hu & Hf).
    exists ([Print (ParsingPage page_num (page_url base_url page_num));
             Get (page_url base_url page_num) 10]
            ++ said
            ++ [Print (BooksFound page_num
                         (length (site (page_url base_url page_num))));
                Sleep 1]
            ++ new).
    split.
    { rewrite Hrun. cbn [flat_map]. rewrite <- !app_assoc. reflexivity. }
    rewrite !filter_app, !length_app.
    unfold said. rewrite !filter_failed_books by reflexivity.
    rewrite Hg, Hs, Hu, Hf.
    cbn [filter is_get is_sleep is_gave_up is_request_failed length app
           repeat].
    repeat split.
Qed.

(** X21: from a site that serves every request, [parse_books] over
    [num_pages] pages returns the records of the books of page 1, then
    those of page 2, and so on, each page's in the order of the page;
    it makes one request for each page, pauses 1 after each and never
    pauses 2 or reports a failed request. *)
Theorem parse_books_all_served
  (unicode_decimal : N -> option N) (site : str -> list article)
  (base_url : str) (num_pages : Z) :
  0 <= num_pages ->
  let run := parse_books unicode_decimal (open_site site) base_url
               num_pages [] in
  fst run = flat_map (page_records unicode_decimal site base_url)
              (range 1 (num_pages + 1)) /\
  Z.of_nat (length (filter is_get (snd run))) = num_pages /\
  filter is_sleep (snd run) = repeat (Sleep 1) (Z.to_nat num_pages) /\
  filter is_gave_up (snd run) = [] /\
  filter is_request_failed (snd run) = [].
Proof.
  intros Hn. cbv zeta. unfold parse_books.
  destruct (parse_pages_all_served unicode_decimal base_url site
              (open_site site) (fun _ _ _ => eq_refl)
              (range 1 (num_pages + 1)) [] [])
    as (new & Hrun & Hg & Hs & Hu & Hf).
  rewrite Hrun. cbn [fst snd app]. rewrite Hg, Hs, range_length.
  replace (Z.to_nat (num_pages + 1 - 1)) with (Z.to_nat num_pages) by lia.
  repeat split; try assumption. lia.
Qed.

Lemma parse_books_all_served_witness :
  let site := fun _ : str => [good_article; no_price_article] in
  let base := py"https://books.toscrape.com" in
  let run := parse_books ascii_digits_only (open_site site) base 2 [] in
  fst run = flat_map (page_records ascii_digits_only site base)
              (range 1 (2 + 1)) /\
  Z.of_nat (length (filter is_get (snd run))) = 2 /\
  filter is_sleep (snd run) = repeat (Sleep 1) (Z.to_nat 2) /\
  filter is_gave_up (snd run) = [] /\
  filter is_request_failed (snd run) = [].
Proof.
  apply (parse_books_all_served ascii_digits_only
           (fun _ : str => [good_article; no_price_article])
           py"https://books.toscrape.com" 2).
  lia.
Defined.

(** *** The URL of a page *)

Local Open Scope N_scope.

(** The digits [str] writes are those of the number. *)
Lemma decimal_digits_value (fuel : nat) : forall n acc,
  n < 2 ^ N.of_nat fuel ->
  exists ds,
    decimal_digits fuel n acc = ds ++ acc /\
    forallb PyFloat.is_digit ds = true /\
    forall init,
      fold_left (fun a c => (10 * a + Z.of_N (c - 48))%Z) ds init
      = (init * 10 ^ Z.of_nat (length ds) + Z.of_N n)%Z.
Proof.
  induction fuel as [|fuel IH]; intros n acc Hn.
  - exists []. cbn in Hn. assert (n = 0) by lia. subst n.
    repeat split. intros init. cbn. lia.
  - cbn [decimal_digits].
    assert (Hmod : n mod 10 < 10) by (apply N.mod_lt; discriminate).
    assert (Hdigit : PyFloat.is_digit (48 + n mod 10) = true).
    { revert Hmod. generalize (n mod 10). intros d Hd.
      unfold PyFloat.is_digit. apply andb_true_iff.
      split; apply N.leb_le; lia. }
    assert (Hval : Z.of_N (48 + n mod 10 - 48) = Z.of_N (n mod 10)).
    { f_equal. generalize (n mod 10). intros d. lia. }
    destruct (n / 10 =? 0) eqn:E.
    + apply N.eqb_eq in E. exists [48 + n mod 10].
      split; [reflexivity|]. split; [cbn [forallb]; rewrite Hdigit;
                                     reflexivity|].
      intros init. cbn [fold_left length]. rewrite Hval.
      assert (Hn' : n = n mod 10).
      { rewrite (N.div_mod n 10) at 1 by discriminate. rewrite E. lia. }
      rewrite <- Hn'. change (10 ^ Z.of_nat 1)%Z with 10%Z. lia.
    + apply N.eqb_neq in E.
      destruct (IH (n / 10) ((48 + n mod 10) :: acc)) as (ds & Hds & Hd & Hv).
      { rewrite Nnat.Nat2N.inj_succ, N.pow_succ_r' in Hn.
        apply N.Div0.div_lt_upper_bound.
        assert (2 ^ N.of_nat fuel > 0) by (apply N.lt_gt, N.neq_0_lt_0,
          N.pow_nonzero; discriminate).
        lia. }
      exists (ds ++ [48 + n mod 10]).
      split; [rewrite Hds, <- app_assoc; reflexivity|].
      split; [rewrite forallb_app, Hd; cbn [forallb]; rewrite Hdigit;
              reflexivity|].
      intros init. rewrite fold_left_app, Hv. cbn [fold_left].
      rewrite Hval, length_app. cbn [length].
      rewrite Nat2Z.inj_add, Z.pow_add_r by lia.
      change (10 ^ Z.of_nat 1)%Z with 10%Z.
      rewrite (N.div_mod n 10) at 3 by discriminate.
      rewrite N2Z.inj_add, N2Z.inj_mul. change (Z.of_N 10) with 10%Z. lia.
Qed.

Lemma str_of_N_value (n : N) :
  PyFloat.digits_value (str_of_N n) = Z.of_N n /\
  forallb PyFloat.is_digit (str_of_N n) = true.
Proof.
  unfold str_of_N, PyFloat.digits_value.
  destruct (decimal_digits_value (S (N.to_nat (N.log2 n))) n [])
    as (ds & Hds & Hd & Hv).
  { rewrite Nnat.Nat2N.inj_succ, Nnat.N2Nat.id.
    destruct n as [|p]; [reflexivity|].
    apply N.log2_spec. reflexivity. }
  rewrite Hds, app_nil_r. split; [|exact Hd].
  rewrite Hv. lia.
Qed.

Lemma str_of_N_inj (n m : N) : str_of_N n = str_of_N m -> n = m.
Proof.
  intros H. apply N2Z.inj.
  rewrite <- (proj1 (str_of_N_value n)), <- (proj1 (str_of_N_value m)), H.
  reflexivity.
Qed.

Lemma str_of_N_head (n : N) (rest : str) : str_of_N n <> 45 :: rest.
Proof.
  intros H. destruct (str_of_N_value n) as [_ Hd].
  rewrite H in Hd. discriminate Hd.
Qed.

Lemma str_of_Z_inj (p q : Z) : str_of_Z p = str_of_Z q -> p = q.
Proof.
  unfold str_of_Z.
  destruct (p <? 0)%Z eqn:Ep, (q <? 0)%Z eqn:Eq; intros H.
  - injection H as H. apply str_of_N_inj in H.
    apply Z.ltb_lt in Ep, Eq. lia.
  - symmetry in H. destruct (str_of_N_head _ _ H).
  - destruct (str_of_N_head _ _ H).
  - apply str_of_N_inj in H. apply Z.ltb_ge in Ep, Eq. lia.
Qed.

(** X22: the URLs of two different pages are different, and the pages
    [parse_books] asks for are all different: no page is fetched in
    another's place. *)
Theorem page_url_injective (base_url : str) (p q : Z) :
  (p <> q -> page_url base_url p <> page_url base_url q) /\
  forall num_pages,
    NoDup (map (page_url base_url) (range 1 (num_pages + 1))).
Proof.
  assert (Hinj : forall a b, page_url base_url a = page_url base_url b ->
                             a = b).
  { intros a b H. unfold page_url in H.
    apply app_inv_head in H. apply app_inv_head in H.
    apply app_inv_tail in H. apply str_of_Z_inj. exact H. }
  split; [intros Hpq H; apply Hpq, Hinj, H|].
  intros num_pages. apply Finite.Injective_map_NoDup; [exact Hinj|].
  unfold range. apply Finite.Injective_map_NoDup.
  - intros i j H. lia.
  - apply seq_NoDup.
Qed.

Lemma page_url_injective_witness :
  page_url py"https://books.toscrape.com" 1
  <> page_url py"https://books.toscrape.com" 2.
Proof.
  apply (page_url_injective py"https://books.toscrape.com" 1 2).
  discriminate.
Defined.

End ParserSpec.

(** ** The reporter: properties *)

Module AnalyzeSpec.

Import Analyze.

(** *** Facts about the comparison of floats *)

Lemma SFcompare_Lt_Gt x y :
  SFcompare x y = Some Lt -> SFcompare y x = Some Gt.
Proof.
  destruct x as [sx|sx| |sx mx ex], y as [sy|sy| |sy my ey]; simpl;
    try discriminate;
    try (destruct sx; simpl; intros H; inversion H; reflexivity);
    try (destruct sy; simpl; intros H; inversion H; reflexivity);
    try (destruct sx, sy; simpl; intros H; inversion H; reflexivity).
  change (PosDef.Pos.compare_cont Eq my mx) with (my ?= mx)%positive.
  change (PosDef.Pos.compare_cont Eq mx my) with (mx ?= my)%positive.
  rewrite (Z.compare_antisym ex ey), (Pos.compare_antisym mx my).
  destruct sx, sy; try discriminate; try reflexivity;
    destruct (ex ?= ey)%Z; simpl; try discriminate; try reflexivity;
    destruct (mx ?= my)%positive; simpl;
    try discriminate; reflexivity.
Qed.

(** A record dearer than the threshold does not pass [price <= threshold]. *)
Lemma ltb_leb_false (p x : float) :
  (p <? x)%float = true -> (x <=? p)%float = false.
Proof.
  rewrite ltb_spec, leb_spec. unfold SFltb, SFleb.
  destruct (SFcompare (Prim2SF p) (Prim2SF x)) as [[]|] eqn:E;
    try discriminate.
  intros _. rewrite (SFcompare_Lt_Gt _ _ E). reflexivity.
Qed.

(** *** The filters *)

Lemma result_bind {A B} (m : io A) (k : A -> io B) :
  result (bind m k) =
  match result m with
  | Returned a => result (k a)
  | Raised e => Raised e
  end.
Proof.
  destruct m as [out [a|e]]; simpl; [|reflexivity].
  destruct (k a); reflexivity.
Qed.

Lemma filter_comm {A} (f g : A -> bool) (l : list A) :
  filter f (filter g l) = filter g (filter f l).
Proof.
  induction l as [|a l IH]; simpl; [reflexivity|].
  destruct (f a) eqn:Ef, (g a) eqn:Eg; simpl;
    rewrite ?Ef, ?Eg, IH; reflexivity.
Qed.

Lemma filter_true {A} (l : list A) : filter (fun _ => true) l = l.
Proof. induction l; simpl; congruence. Qed.

Lemma filter_by_price_result df max_price :
  result (filter_by_price df max_price)
  = Returned (filter (price_kept max_price) df).
Proof.
  unfold filter_by_price, price_kept.
  destruct max_price as [p|]; [destruct (PyFloat.truthy p)|];
    simpl; rewrite ?filter_true; reflexivity.
Qed.

Lemma filter_by_rating_result df min_rating :
  result (filter_by_rating df min_rating)
  = Returned (filter (rating_kept min_rating) df).
Proof.
  unfold filter_by_rating, rating_kept.
  destruct min_rating as [r|]; [destruct (negb (r =? 0)%Z)|];
    simpl; rewrite ?filter_true; reflexivity.
Qed.

Lemma filter_by_keyword_result re df keyword :
  result (filter_by_keyword re df keyword)
  = match keyword with
    | Some k =>
        if Str.truthy k then
          match re k with
          | Some found => Returned (filter (title_found found) df)
          | None => Raised (ReError k)
          end
        else Returned df
    | None => Returned df
    end.
Proof.
  unfold filter_by_keyword.
  destruct keyword as [k|]; [|reflexivity].
  destruct (Str.truthy k); [|reflexivity].
  destruct (re k); reflexivity.
Qed.

(** C1 (as amended): for every table and every price threshold that is
    not zero, the price filter returns exactly the subsequence of the
    records whose price is at most the threshold: every record kept has a
    price <= the threshold, and every record of the table that is dearer
    than the threshold is left out. *)
Theorem filter_by_price_keeps_le (df : DataFrame) (p : float) :
  PyFloat.truthy p = true ->
  result (filter_by_price df (Some p))
  = Returned (filter (fun b => (price b <=? p)%float) df) /\
  forall b kept,
    result (filter_by_price df (Some p)) = Returned kept ->
    (In b kept -> In b df /\ (price b <=? p)%float = true) /\
    (In b df -> (p <? price b)%float = true -> ~ In b kept).
Proof.
  intros Hp. unfold filter_by_price. rewrite Hp. simpl. split; [reflexivity|].
  intros b kept H. inversion H; subst kept; clear H.
  split.
  - intros Hin. apply filter_In in Hin. exact Hin.
  - intros _ Hlt Hin. apply filter_In in Hin. destruct Hin as [_ Hle].
    rewrite (ltb_leb_false _ _ Hlt) in Hle. discriminate.
Qed.

Lemma filter_by_price_keeps_le_witness :
  result (filter_by_price three_books (Some 10%float))
  = Returned (filter (fun b => (price b <=? 10)%float) three_books) /\
  forall b kept,
    result (filter_by_price three_books (Some 10%float)) = Returned kept ->
    (In b kept -> In b three_books /\ (price b <=? 10)%float = true) /\
    (In b three_books -> (10 <? price b)%float = true -> ~ In b kept).
Proof. apply (filter_by_price_keeps_le three_books 10). reflexivity. Defined.

(** C1 fails at the threshold 0: the filter keeps a record whose price,
    5.0, is above it. *)
Lemma filter_by_price_zero_keeps_dearer :
  let df := [Book (Some py"Sapiens") 5 3 (Some py"c")] in
  ~ (forall b kept,
       result (filter_by_price df (Some 0%float)) = Returned kept ->
       In b df -> (0 <? price b)%float = true -> ~ In b kept).
Proof.
  intros df H.
  apply (H (Book (Some py"Sapiens") 5 3 (Some py"c")) df).
  - reflexivity.
  - left; reflexivity.
  - reflexivity.
  - left; reflexivity.
Qed.

(** C10: each filter takes a falsy argument for an absent one.
    [filter_by_price] with [None], 0.0 or any threshold that is falsy,
    [filter_by_rating] with [None] or 0 and [filter_by_keyword] with
    [None] or the empty string return the table as it is and print
    nothing; so a price threshold of 0 keeps the records with a positive
    price. *)
Theorem falsy_argument_is_no_filter
  (re : str -> option (str -> bool)) (df : DataFrame) :
  (filter_by_price df None = ret df /\
   filter_by_price df (Some 0%float) = ret df /\
   forall p, PyFloat.truthy p = false -> filter_by_price df (Some p) = ret df)
  /\
  (filter_by_rating df None = ret df /\
   filter_by_rating df (Some 0%Z) = ret df)
  /\
  (filter_by_keyword re df None = ret df /\
   filter_by_keyword re df (Some []) = ret df)
  /\
  (forall b, In b df -> (0 <? price b)%float = true ->
     exists kept, result (filter_by_price df (Some 0%float)) = Returned kept
                  /\ In b kept).
Proof.
  repeat split; try reflexivity.
  - intros p Hp. unfold filter_by_price. rewrite Hp. reflexivity.
  - intros b Hin _. exists df. split; [reflexivity | exact Hin].
Qed.

(** C9: whatever the table, the price threshold, the keyword and the
    rating threshold, the three filters give the same result in each of
    the six orders they can be applied in: the same sequence, or the same
    error when the keyword is no regular expression. *)
Theorem filters_commute
  (re : str -> option (str -> bool)) (df : DataFrame)
  (max_price : option float) (keyword : option str) (min_rating : option Z) :
  let P d := filter_by_price d max_price in
  let K d := filter_by_keyword re d keyword in
  let R d := filter_by_rating d min_rating in
  let pipeline := result (d <- P df ;; d <- K d ;; R d) in
  result (d <- P df ;; d <- R d ;; K d) = pipeline /\
  result (d <- K df ;; d <- P d ;; R d) = pipeline /\
  result (d <- K df ;; d <- R d ;; P d) = pipeline /\
  result (d <- R df ;; d <- P d ;; K d) = pipeline /\
  result (d <- R df ;; d <- K d ;; P d) = pipeline.
Proof.
  cbv zeta.
  repeat rewrite ?result_bind, ?filter_by_price_result,
    ?filter_by_rating_result, ?filter_by_keyword_result.
  destruct keyword as [k|];
    [destruct (Str.truthy k); [destruct (re k) as [found|]|]|];
    repeat rewrite ?result_bind, ?filter_by_price_result,
      ?filter_by_rating_result, ?filter_by_keyword_result;
    repeat split; try reflexivity.
  all: f_equal;
    repeat first
      [ rewrite (filter_comm (price_kept max_price) (rating_kept min_rating))
      | rewrite (filter_comm (price_kept max_price) (title_found found))
      | rewrite (filter_comm (title_found found) (rating_kept min_rating)) ];
    reflexivity.
Qed.

(** *** Sorting: rows picked by position *)

Arguments pick : simpl never.

Lemma take_pick df idx : take df idx = pick df idx.
Proof. reflexivity. Qed.

Lemma pick_app {A} (l : list A) idx1 idx2 :
  pick l (idx1 ++ idx2) = pick l idx1 ++ pick l idx2.
Proof. apply flat_map_app. Qed.

Lemma pick_cons_some {A} (l : list A) i idx a :
  nth_error l i = Some a -> pick l (i :: idx) = a :: pick l idx.
Proof. intros H. unfold pick. simpl. rewrite H. reflexivity. Qed.

Lemma pick_cons {A} (l : list A) i idx :
  pick l (i :: idx)
  = match nth_error l i with Some a => [a] | None => [] end ++ pick l idx.
Proof. reflexivity. Qed.

Lemma pick_one {A} (l : list A) i :
  pick l [i] = match nth_error l i with Some a => [a] | None => [] end.
Proof. unfold pick. simpl. apply app_nil_r. Qed.

Lemma pick_rev {A} (l : list A) idx : pick l (rev idx) = rev (pick l idx).
Proof.
  induction idx as [|i idx IH]; [reflexivity|].
  rewrite pick_cons. simpl rev. rewrite pick_app, IH, pick_one, rev_app_distr.
  f_equal. destruct (nth_error l i); reflexivity.
Qed.

Lemma nth_error_pick {A} (l : list A) idx :
  Forall (fun i => i < length l) idx ->
  forall j, nth_error (pick l idx) j
            = match nth_error idx j with
              | Some i => nth_error l i
              | None => None
              end.
Proof.
  induction 1 as [|i idx Hi _ IH]; intros j.
  - destruct j; reflexivity.
  - destruct (nth_error l i) as [a|] eqn:E.
    + rewrite (pick_cons_some _ _ idx _ E).
      destruct j; simpl; [symmetry; exact E | apply IH].
    + apply nth_error_None in E. lia.
Qed.

Lemma pick_pick {A} (l : list A) idx order :
  Forall (fun i => i < length l) idx ->
  pick l (pick idx order) = pick (pick l idx) order.
Proof.
  intros Hv. induction order as [|j order IH]; [reflexivity|].
  rewrite !pick_cons, pick_app, IH. f_equal.
  rewrite (nth_error_pick _ _ Hv j).
  destruct (nth_error idx j) as [i|]; [apply pick_one | reflexivity].
Qed.

Lemma map_nth_pick (idx order : list nat) :
  Forall (fun j => j < length idx) order ->
  map (fun j => nth j idx 0) order = pick idx order.
Proof.
  induction 1 as [|j order Hj _ IH]; [reflexivity|].
  rewrite (pick_cons_some idx j order _ (nth_error_nth' idx 0 Hj)).
  simpl map. rewrite IH. reflexivity.
Qed.

Lemma pick_seq {A} (pre l : list A) :
  pick (pre ++ l) (seq (length pre) (length l)) = l.
Proof.
  revert pre. induction l as [|a l IH]; intros pre; [reflexivity|].
  assert (E : nth_error (pre ++ a :: l) (length pre) = Some a).
  { rewrite nth_error_app2, Nat.sub_diag by lia. reflexivity. }
  change (seq (length pre) (length (a :: l)))
    with (length pre :: seq (S (length pre)) (length l)).
  rewrite (pick_cons_some _ _ _ _ E). f_equal.
  specialize (IH (pre ++ [a])).
  rewrite <- app_assoc, length_app in IH. simpl in IH.
  rewrite Nat.add_1_r in IH. exact IH.
Qed.

Lemma pick_all {A} (l : list A) : pick l (seq 0 (length l)) = l.
Proof. exact (pick_seq [] l). Qed.

Lemma Permutation_pick {A} (l : list A) idx idx' :
  Permutation idx idx' -> Permutation (pick l idx) (pick l idx').
Proof. apply Permutation_flat_map. Qed.

Lemma is_arrangement_Permutation n idx :
  is_arrangement n idx = true -> Permutation idx (seq 0 n).
Proof.
  unfold is_arrangement. intros H.
  apply andb_true_iff in H. destruct H as [Hlen Hall].
  apply Nat.eqb_eq in Hlen.
  symmetry. apply NoDup_Permutation_bis.
  - apply seq_NoDup.
  - rewrite length_seq. lia.
  - intros i Hi. rewrite forallb_forall in Hall.
    specialize (Hall i Hi). apply existsb_exists in Hall.
    destruct Hall as [j [Hj Hij]]. apply Nat.eqb_eq in Hij.
    subst j. exact Hj.
Qed.

Lemma arrangement_below n idx :
  is_arrangement n idx = true -> Forall (fun j => j < n) idx.
Proof.
  intros H. apply is_arrangement_Permutation in H.
  apply Forall_forall. intros j Hj.
  apply (Permutation_in _ H) in Hj. apply in_seq in Hj. lia.
Qed.

(** *** Sorting: the rows with a cell and the rows without *)

Lemma split_na_rows c l : forall pre,
  let sp := split_na (length pre) (map (cell c) l) in
  pick (pre ++ l) (map fst (fst sp)) = filter (present c) l /\
  pick (pre ++ l) (snd sp) = filter (missing c) l /\
  map Some (map snd (fst sp)) = map (cell c) (filter (present c) l) /\
  Forall (fun i => i < length (pre ++ l)) (map fst (fst sp)).
Proof.
  induction l as [|a l IH]; intros pre.
  - simpl. repeat split; constructor.
  - specialize (IH (pre ++ [a])).
    rewrite length_app in IH. simpl length in IH.
    rewrite Nat.add_1_r, <- app_assoc in IH. simpl app in IH.
    assert (E : nth_error (pre ++ a :: l) (length pre) = Some a).
    { rewrite nth_error_app2, Nat.sub_diag by lia. reflexivity. }
    simpl. unfold missing, present.
    destruct (split_na (S (length pre)) (map (cell c) l)) as [ps ms].
    simpl in IH. destruct IH as (IH1 & IH2 & IH3 & IH4).
    destruct (cell c a) as [k|] eqn:Ea; simpl; rewrite ?Ea; simpl.
    + rewrite (pick_cons_some _ _ _ _ E), IH1, IH3.
      repeat split; try assumption; try reflexivity.
      constructor; [|assumption].
      rewrite length_app. simpl. lia.
    + rewrite (pick_cons_some _ _ _ _ E), IH2.
      repeat split; assumption.
Qed.

Lemma Permutation_present_missing c (l : list book) :
  Permutation l (filter (present c) l ++ filter (missing c) l).
Proof.
  induction l as [|a l IH]; [constructor|].
  simpl. unfold missing at 1. destruct (present c a); simpl.
  - constructor. exact IH.
  - apply Permutation_cons_app. exact IH.
Qed.

(** *** Sorting: neighbours in order *)

Lemma adjacent_cons {A} (R : A -> A -> bool) a b l :
  adjacent R (a :: b :: l) = R a b && adjacent R (b :: l).
Proof. reflexivity. Qed.

Lemma adjacent_impl {A} (R R' : A -> A -> bool) l :
  (forall a b, R a b = true -> R' a b = true) ->
  adjacent R l = true -> adjacent R' l = true.
Proof.
  intros H. induction l as [|a [|b l] IH]; try reflexivity.
  rewrite !adjacent_cons, !andb_true_iff. intros [H1 H2].
  split; [apply H; exact H1 | apply IH; exact H2].
Qed.

Lemma adjacent_snoc {A} (R : A -> A -> bool) l a :
  adjacent R (l ++ [a])
  = adjacent R l && match rev l with [] => true | z :: _ => R z a end.
Proof.
  induction l as [|x [|y l] IH]; try reflexivity.
  - simpl. rewrite andb_true_r. reflexivity.
  - change ((x :: y :: l) ++ [a]) with (x :: y :: (l ++ [a])).
    rewrite !adjacent_cons.
    change (y :: l ++ [a]) with ((y :: l) ++ [a]). rewrite IH.
    rewrite <- andb_assoc. f_equal. f_equal.
    change (rev (x :: y :: l)) with (rev (y :: l) ++ [x]).
    destruct (rev (y :: l)) eqn:E; [|reflexivity].
    apply (f_equal (@length A)) in E. rewrite length_rev in E. discriminate.
Qed.

Lemma adjacent_rev {A} (R : A -> A -> bool) l :
  adjacent R l = true -> adjacent (fun a b => R b a) (rev l) = true.
Proof.
  induction l as [|a [|b l] IH]; try reflexivity.
  rewrite adjacent_cons, andb_true_iff. intros [H1 H2].
  change (rev (a :: b :: l)) with (rev (b :: l) ++ [a]).
  rewrite adjacent_snoc, rev_involutive, (IH H2). exact H1.
Qed.

Lemma adjacent_app_all {A} (R : A -> A -> bool) l1 l2 :
  adjacent R l1 = true -> adjacent R l2 = true ->
  (forall a b, In b l2 -> R a b = true) ->
  adjacent R (l1 ++ l2) = true.
Proof.
  intros H1 H2 H. induction l1 as [|a [|b l1] IH].
  - exact H2.
  - destruct l2 as [|b l2]; [reflexivity|].
    change ([a] ++ b :: l2) with (a :: b :: l2).
    rewrite adjacent_cons, H2, (H a b (or_introl eq_refl)). reflexivity.
  - change ((a :: b :: l1) ++ l2) with (a :: b :: (l1 ++ l2)).
    rewrite adjacent_cons in *. apply andb_true_iff in H1.
    destruct H1 as [Hab H1]. rewrite Hab. apply IH. exact H1.
Qed.

Lemma pick_sorted c (rows : list book) (ks : list key) :
  map Some ks = map (cell c) rows ->
  forall order,
    Forall (fun j => j < length ks) order ->
    adjacent (not_after ks) order = true ->
    adjacent (ascending_cells c) (pick rows order) = true.
Proof.
  intros Hks.
  assert (Hlen : length ks = length rows).
  { apply (f_equal (@length _)) in Hks. rewrite !length_map in Hks. exact Hks. }
  assert (Hcell : forall j x b,
             nth_error ks j = Some x -> nth_error rows j = Some b ->
             cell c b = Some x).
  { intros j x b Hx Hb.
    apply (f_equal (fun l => nth_error l j)) in Hks.
    rewrite !nth_error_map, Hx, Hb in Hks. simpl in Hks. congruence. }
  induction order as [|j [|j' order] IH]; intros Hv Hs.
  - reflexivity.
  - rewrite pick_one. destruct (nth_error rows j); reflexivity.
  - rewrite adjacent_cons in Hs. apply andb_true_iff in Hs.
    destruct Hs as [Hjj' Hs].
    inversion Hv as [|? ? Hj Hv']; subst.
    inversion Hv' as [|? ? Hj' _]; subst.
    destruct (nth_error rows j) as [b|] eqn:Eb;
      [|apply nth_error_None in Eb; lia].
    destruct (nth_error rows j') as [b'|] eqn:Eb';
      [|apply nth_error_None in Eb'; lia].
    specialize (IH Hv' Hs).
    rewrite (pick_cons_some _ _ _ _ Eb).
    rewrite (pick_cons_some _ _ _ _ Eb') in *.
    rewrite adjacent_cons, IH, andb_true_r.
    unfold not_after in Hjj'. unfold ascending_cells.
    destruct (nth_error ks j) as [x|] eqn:Ex; [|discriminate].
    destruct (nth_error ks j') as [y|] eqn:Ey; [|discriminate].
    rewrite (Hcell _ _ _ Ex Eb), (Hcell _ _ _ Ey Eb'). exact Hjj'.
Qed.

Lemma find_column_name c : find_column (column_name c) = Some c.
Proof. destruct c; reflexivity. Qed.

(** What [sort_values] returns when [argsort] keeps its contract. *)
Lemma sort_values_sorted argsort df c ascending :
  argsort_ok (sort_keys df c ascending)
             (argsort (sort_keys df c ascending)) = true ->
  Permutation df (sort_values argsort df c ascending) /\
  ordered_by c ascending (sort_values argsort df c ascending) = true.
Proof.
  unfold sort_keys, sort_values, nargsort, argsort_ok, ordered_by.
  rewrite take_pick.
  set (items := map (cell c) df).
  set (cells := present_cells items ascending).
  set (order := argsort (map snd cells)).
  intros Hok. apply andb_true_iff in Hok. destruct Hok as [Harr Hadj].
  rewrite length_map in Harr.
  destruct (split_na_rows c df []) as (HP & HM & HK & HV).
  simpl app in *. simpl length in *. fold items in HP, HM, HK, HV.
  set (rows := if ascending then filter (present c) df
               else rev (filter (present c) df)).
  assert (Hrows : pick df (map fst cells) = rows).
  { unfold cells, present_cells, rows. destruct ascending; [exact HP|].
    rewrite map_rev, pick_rev, HP. reflexivity. }
  assert (Hkeys : map Some (map snd cells) = map (cell c) rows).
  { unfold cells, present_cells, rows. destruct ascending; [exact HK|].
    rewrite !map_rev, HK. reflexivity. }
  assert (Hvalid : Forall (fun i => i < length df) (map fst cells)).
  { unfold cells, present_cells. destruct ascending; [exact HV|].
    rewrite map_rev. apply Forall_rev. exact HV. }
  assert (Hlen : length cells = length rows).
  { apply (f_equal (@length _)) in Hkeys. rewrite !length_map in Hkeys.
    exact Hkeys. }
  assert (Hbelow : Forall (fun j => j < length (map fst cells)) order).
  { rewrite length_map. apply arrangement_below. exact Harr. }
  rewrite (map_nth_pick _ _ Hbelow).
  assert (Hpicked : pick df (pick (map fst cells) order) = pick rows order).
  { rewrite (pick_pick _ _ _ Hvalid), Hrows. reflexivity. }
  assert (Hperm : Permutation (pick rows order) rows).
  { rewrite <- (pick_all rows) at 2. apply Permutation_pick.
    rewrite <- Hlen. apply is_arrangement_Permutation. exact Harr. }
  assert (Hsorted : adjacent (ascending_cells c) (pick rows order) = true).
  { apply (pick_sorted c rows (map snd cells) Hkeys).
    - rewrite length_map in *. exact Hbelow.
    - exact Hadj. }
  assert (Hrowsperm : Permutation rows (filter (present c) df)).
  { unfold rows. destruct ascending; [reflexivity|].
    symmetry. apply Permutation_rev. }
  assert (Hmissing : forall a b, In b (filter (missing c) df) ->
             in_order ascending (cell c a) (cell c b) = true).
  { intros a b Hb. apply filter_In in Hb. destruct Hb as [_ Hb].
    unfold missing, present in Hb.
    destruct (cell c b); [discriminate|].
    destruct (cell c a); reflexivity. }
  assert (Hmsorted : adjacent (fun a b => in_order ascending (cell c a)
                                             (cell c b))
                       (filter (missing c) df) = true).
  { generalize (filter (missing c) df) Hmissing. intros l Hl.
    induction l as [|a [|b l] IH]; try reflexivity.
    rewrite adjacent_cons, (Hl a b (or_intror (or_introl eq_refl))).
    apply IH. intros x y Hy. apply Hl. right. exact Hy. }
  split.
  - rewrite pick_app, HM.
    etransitivity; [apply (Permutation_present_missing c)|].
    apply Permutation_app_tail.
    etransitivity; [symmetry; exact Hrowsperm|].
    etransitivity; [symmetry; exact Hperm|].
    rewrite <- Hpicked.
    destruct ascending; [reflexivity|].
    rewrite pick_rev. apply Permutation_rev.
  - rewrite pick_app, HM.
    apply adjacent_app_all; [|exact Hmsorted|exact Hmissing].
    destruct ascending.
    + rewrite Hpicked.
      apply (adjacent_impl (ascending_cells c)); [|exact Hsorted].
      intros a b. unfold ascending_cells, in_order.
      destruct (cell c a), (cell c b); auto.
    + rewrite pick_rev, Hpicked.
      apply (adjacent_impl (fun a b => ascending_cells c b a));
        [|apply adjacent_rev; exact Hsorted].
      intros a b. unfold ascending_cells, in_order.
      destruct (cell c a), (cell c b); auto; discriminate.
Qed.

(** C2 (as amended): for every table, every column name of the table
    (price and rating among them) and direction, when [argsort] keeps
    numpy's contract on the keys [sort_values] hands it, [sort_data]
    returns a rearrangement of the table that is ordered by that column in
    the given direction, the rows with a missing value last.  Nothing is
    said of the order of rows with equal values. *)
Theorem sort_data_orders
  (argsort : list key -> list nat) (df : DataFrame)
  (c : column) (ascending : bool) :
  argsort_ok (sort_keys df c ascending)
             (argsort (sort_keys df c ascending)) = true ->
  exists sorted,
    result (sort_data argsort df (column_name c) ascending) = Returned sorted /\
    Permutation df sorted /\
    ordered_by c ascending sorted = true.
Proof.
  intros Hok. exists (sort_values argsort df c ascending).
  unfold sort_data. rewrite find_column_name. split; [reflexivity|].
  apply sort_values_sorted. exact Hok.
Qed.

Lemma sort_data_orders_witness :
  exists sorted,
    result (sort_data insertion_argsort three_books py"price" false)
    = Returned sorted /\
    Permutation three_books sorted /\
    ordered_by ColPrice false sorted = true.
Proof.
  apply (sort_data_orders insertion_argsort three_books ColPrice false).
  reflexivity.
Defined.

(** C2 fails on stability: an [argsort] that keeps numpy's contract may
    return rows of one price in another order than the table has them
    in.  On four books, the two dearer ones first, the positions come
    out as 3, 2, 1, 0: each pair of one price is turned around. *)
Lemma sort_data_not_stable :
  ~ (forall argsort : list key -> list nat,
       argsort_ok (sort_keys tied_price_books ColPrice true)
                  (argsort (sort_keys tied_price_books ColPrice true))
       = true ->
       forall sorted,
         result (sort_data argsort tied_price_books py"price" true)
         = Returned sorted ->
         keeps_tie_order ColPrice tied_price_books sorted).
Proof.
  intros H.
  specialize (H insertion_argsort eq_refl _ eq_refl
                (Book (Some py"Ulysses") 5 3 None)).
  vm_compute in H. discriminate H.
Qed.

(** The positions and the rows of that run. *)
Example sort_data_tied_prices :
  insertion_argsort (sort_keys tied_price_books ColPrice true)
  = [3; 2; 1; 0]%nat /\
  result (sort_data insertion_argsort tied_price_books py"price" true)
  = Returned (rev tied_price_books).
Proof. split; reflexivity. Qed.

(** *** The report *)

Lemma apply_shorten n cells :
  apply (shorten n) cells
  = match all_present cells with
    | Some ss => ([], Returned (map (shortened n) ss))
    | None => ([], Raised TypeErrorLen)
    end.
Proof.
  induction cells as [|[s|] cells IH]; try reflexivity.
  simpl. rewrite IH. destruct (all_present cells); reflexivity.
Qed.

Lemma head_length df n :
  (0 <= n)%Z -> length (head df n) = Nat.min (Z.to_nat n) (length df).
Proof.
  intros Hn. unfold head.
  destruct (0 <=? n)%Z eqn:E; [apply length_firstn|].
  apply Z.leb_gt in E. lia.
Qed.

Lemma display_rows_length ts ps rs ls :
  length ps = length ts -> length rs = length ts -> length ls = length ts ->
  length (display_rows ts ps rs ls) = length ts.
Proof.
  revert ps rs ls.
  induction ts as [|t ts IH]; intros [|p ps] [|r rs] [|l ls];
    simpl; try discriminate; try reflexivity.
  intros H1 H2 H3. f_equal. apply IH; congruence.
Qed.

Lemma all_present_length cells ss :
  all_present cells = Some ss -> length ss = length cells.
Proof.
  revert ss. induction cells as [|[s|] cells IH]; simpl; intros ss H.
  - inversion H. reflexivity.
  - destruct (all_present cells) as [ss'|]; [|discriminate].
    inversion H. simpl. f_equal. apply IH. reflexivity.
  - discriminate.
Qed.

(** C8 (as amended): on an empty table the report is the no-results
    notice alone, whatever the cap, and nothing is raised.  On a table
    that is not empty and a cap that is not negative, the rows shown are
    the first [cap] rows of the table, so at most [cap] of them; when a
    title or a link among them is missing nothing is printed and
    [TypeError] is raised, and otherwise the table holds one line per row
    shown and the count and the statistics printed (mean, minimum and
    maximum price, mean rating) are those of the whole table. *)
Theorem display_results_report (df : DataFrame) (top_n : Z) :
  display_results [] top_n = ([NoResultsLine], Returned tt) /\
  (df <> [] -> (0 <= top_n)%Z ->
   let shown := head df top_n in
   shown = firstn (Z.to_nat top_n) df /\
   (Z.of_nat (length shown) <= top_n)%Z /\
   match all_present (map title shown), all_present (map link shown) with
   | Some titles, Some links =>
       let rows := display_rows (map (shortened 50) titles) (map price shown)
                     (map rating shown) (map (shortened 40) links) in
       length rows = length shown /\
       display_results df top_n
       = (report df (length shown) rows, Returned tt)
   | _, _ => display_results df top_n = ([], Raised TypeErrorLen)
   end).
Proof.
  split; [reflexivity|].
  intros Hdf Hn shown.
  split; [|split].
  - unfold shown, head. destruct (0 <=? top_n)%Z eqn:E; [reflexivity|].
    apply Z.leb_gt in E. lia.
  - unfold shown. rewrite (head_length df top_n Hn). lia.
  - destruct df as [|b df]; [contradiction|].
    unfold display_results. fold shown. rewrite !apply_shorten.
    destruct (all_present (map title shown)) as [titles|] eqn:Et;
      [|reflexivity].
    destruct (all_present (map link shown)) as [links|] eqn:El;
      [|reflexivity].
    split; [|reflexivity].
    apply all_present_length in Et, El. rewrite length_map in Et, El.
    rewrite display_rows_length; rewrite !length_map; congruence.
Qed.

Lemma display_results_report_witness :
  display_results [] 2 = ([NoResultsLine], Returned tt) /\
  let shown := head three_books 2 in
  shown = firstn 2 three_books /\
  (Z.of_nat (length shown) <= 2)%Z /\
  exists rows,
    length rows = 2 /\
    display_results three_books 2 = (report three_books 2 rows, Returned tt).
Proof.
  destruct (display_results_report three_books 2) as [Hempty Hfull].
  split; [exact Hempty|].
  assert (Hdf : three_books <> []) by discriminate.
  assert (Hn : (0 <= 2)%Z) by lia.
  destruct (Hfull Hdf Hn) as (H1 & H2 & H3).
  split; [exact H1|]. split; [exact H2|].
  eexists. exact H3.
Defined.

(** C8 fails for a negative cap: with the cap -1 on a table of three
    records the report shows two rows, which is more than the cap. *)
Lemma display_results_negative_cap :
  ~ (forall rows,
       In (TableLines rows) (printed (display_results three_books (-1))) ->
       (Z.of_nat (length rows) <= -1)%Z).
Proof.
  intros H.
  assert (Hin : exists rows,
             In (TableLines rows) (printed (display_results three_books (-1)))).
  { eexists. vm_compute. do 3 right. left. reflexivity. }
  destruct Hin as [rows Hin]. specialize (H rows Hin). lia.
Qed.

(** *** More on comparing floats *)

Lemma SFcompare_trans x y z c1 c2 :
  SFcompare x y = Some c1 -> SFcompare y z = Some c2 ->
  c1 <> Gt -> c2 <> Gt ->
  SFcompare x z = Some (match c1, c2 with Eq, Eq => Eq | _, _ => Lt end).
Proof.
  destruct x as [sx|sx| |sx mx ex], y as [sy|sy| |sy my ey],
    z as [sz|sz| |sz mz ez]; cbn [SFcompare]; try discriminate;
    intros H1 H2 N1 N2; injection H1 as <-; injection H2 as <-.
  all: try (destruct sx); try (destruct sy); try (destruct sz);
    try reflexivity; try contradiction.
  all: change (PosDef.Pos.compare_cont Eq) with Pos.compare in *.
  all: try (destruct (Z.compare_spec ex ey); try contradiction).
  all: try (destruct (Z.compare_spec ey ez); try contradiction).
  all: try (destruct (Z.compare_spec ex ez); try lia).
  all: try reflexivity.
  all: try (destruct (Pos.compare_spec mx my); cbn [CompOpp] in *;
            try contradiction).
  all: try (destruct (Pos.compare_spec my mz); cbn [CompOpp] in *;
            try contradiction).
  all: try (destruct (Pos.compare_spec mx mz); cbn [CompOpp] in *; try lia).
  all: try reflexivity.
Qed.

Lemma SFcompare_antisym x y :
  SFcompare y x = option_map CompOpp (SFcompare x y).
Proof.
  destruct x as [sx|sx| |sx mx ex], y as [sy|sy| |sy my ey];
    cbn [SFcompare option_map]; try reflexivity.
  all: try (destruct sx); try (destruct sy); try reflexivity.
  all: change (PosDef.Pos.compare_cont Eq) with Pos.compare.
  all: rewrite (Z.compare_antisym ex ey), (Pos.compare_antisym mx my).
  all: destruct (ex ?= ey)%Z; cbn [CompOpp]; try reflexivity.
  all: destruct (mx ?= my)%positive; reflexivity.
Qed.

Lemma SFcompare_refl x : x <> S754_nan -> SFcompare x x = Some Eq.
Proof.
  destruct x as [s|s| |s m e]; cbn [SFcompare]; intros H;
    try reflexivity; try contradiction.
  - destruct s; reflexivity.
  - change (PosDef.Pos.compare_cont Eq) with Pos.compare.
    rewrite Z.compare_refl, Pos.compare_refl. destruct s; reflexivity.
Qed.

Lemma is_nan_Prim2SF (x : float) :
  is_nan x = true <-> Prim2SF x = S754_nan.
Proof.
  unfold is_nan. rewrite eqb_spec. unfold SFeqb. split.
  - intros H. destruct (Prim2SF x) as [s|s| |s m e] eqn:E; try reflexivity;
      rewrite SFcompare_refl in H by discriminate; discriminate.
  - intros ->. reflexivity.
Qed.

Lemma leb_trans (x y z : float) :
  (x <=? y)%float = true -> (y <=? z)%float = true ->
  (x <=? z)%float = true.
Proof.
  rewrite !leb_spec. unfold SFleb.
  destruct (SFcompare (Prim2SF x) (Prim2SF y)) as [c1|] eqn:E1;
    [|discriminate].
  destruct (SFcompare (Prim2SF y) (Prim2SF z)) as [c2|] eqn:E2;
    [|destruct c1; discriminate].
  intros H1 H2.
  rewrite (SFcompare_trans _ _ _ c1 c2 E1 E2)
    by (intros ->; discriminate).
  destruct c1, c2; reflexivity.
Qed.

Lemma ltb_trans (x y z : float) :
  (x <? y)%float = true -> (y <? z)%float = true -> (x <? z)%float = true.
Proof.
  rewrite !ltb_spec. unfold SFltb.
  destruct (SFcompare (Prim2SF x) (Prim2SF y)) as [[]|] eqn:E1;
    try discriminate.
  destruct (SFcompare (Prim2SF y) (Prim2SF z)) as [[]|] eqn:E2;
    try discriminate.
  intros _ _.
  rewrite (SFcompare_trans _ _ _ Lt Lt E1 E2) by discriminate.
  reflexivity.
Qed.

Lemma leb_nan_l (x p : float) :
  is_nan x = true -> (x <=? p)%float = false.
Proof.
  intros H. apply is_nan_Prim2SF in H.
  rewrite leb_spec, H. reflexivity.
Qed.

Lemma leb_nan_r (x p : float) :
  is_nan p = true -> (x <=? p)%float = false.
Proof.
  intros H. apply is_nan_Prim2SF in H.
  rewrite leb_spec, H. unfold SFleb. destruct (Prim2SF x); reflexivity.
Qed.

(** *** The filters together *)

Lemma filter_filter {A} (f g : A -> bool) (l : list A) :
  filter f (filter g l) = filter (fun x => g x && f x) l.
Proof.
  induction l as [|a l IH]; [reflexivity|].
  cbn [filter]. destruct (g a); cbn [filter andb]; [|exact IH].
  destruct (f a); rewrite IH; reflexivity.
Qed.

Lemma filter_by_keyword_compiled re df keyword :
  compiles re keyword = true ->
  result (filter_by_keyword re df keyword)
  = Returned (filter (keyword_kept re keyword) df).
Proof.
  rewrite filter_by_keyword_result. unfold compiles, keyword_kept.
  destruct keyword as [k|]; [|rewrite filter_true; reflexivity].
  destruct (Str.truthy k); [|rewrite filter_true; reflexivity].
  destruct (re k); [reflexivity | discriminate].
Qed.

(** X7: when the keyword is absent or empty, or is a pattern that
    compiles and some title of the table is a text (so that the title
    column has the [.str] accessor), the three filters applied one after
    the other return the records of the table that pass all three tests
    (price at most the threshold, keyword found in the title, rating at
    least the threshold; a falsy argument is no test), in the order the
    table has them. *)
Theorem filters_keep_what_passes
  (re : str -> option (str -> bool)) (df : DataFrame)
  (max_price : option float) (keyword : option str) (min_rating : option Z) :
  compiles re keyword = true ->
  (keyword_given keyword = true -> text_titles df = true) ->
  result (d <- filter_by_price df max_price ;;
          d <- filter_by_keyword re d keyword ;;
          filter_by_rating d min_rating)
  = Returned (filter (passes re max_price keyword min_rating) df).
Proof.
  intros Hre _.
  rewrite result_bind, filter_by_price_result. cbv beta iota.
  rewrite result_bind, (filter_by_keyword_compiled re _ keyword Hre).
  cbv beta iota.
  rewrite filter_by_rating_result, !filter_filter. f_equal.
  apply filter_ext. intros b. unfold passes. apply andb_assoc.
Qed.

Lemma filters_keep_what_passes_witness :
  result (d <- filter_by_price four_books (Some 10%float) ;;
          d <- filter_by_keyword literal_search d (Some py"a") ;;
          filter_by_rating d (Some 4%Z))
  = Returned (filter (passes literal_search (Some 10%float) (Some py"a")
                        (Some 4%Z)) four_books).
Proof.
  apply (filters_keep_what_passes literal_search four_books);
    reflexivity.
Defined.

(** *** [filter_by_price]: a higher threshold, a missing price *)

(** X8: a higher price threshold keeps more.  When [p] is not zero and
    [p <= q], every record the filter keeps under [p] it keeps under
    [q], and filtering by [p] what was kept under [q] gives what
    filtering the table by [p] gives. *)
Theorem filter_by_price_monotone (df : DataFrame) (p q : float) :
  PyFloat.truthy p = true -> (p <=? q)%float = true ->
  exists kept_p kept_q,
    result (filter_by_price df (Some p)) = Returned kept_p /\
    result (filter_by_price df (Some q)) = Returned kept_q /\
    incl kept_p kept_q /\
    result (filter_by_price kept_q (Some p)) = Returned kept_p.
Proof.
  intros Hp Hpq.
  exists (filter (price_kept (Some p)) df),
         (filter (price_kept (Some q)) df).
  rewrite !filter_by_price_result.
  split; [reflexivity|]. split; [reflexivity|].
  assert (Himp : forall b, price_kept (Some p) b = true ->
                           price_kept (Some q) b = true).
  { intros b. unfold price_kept. rewrite Hp.
    destruct (PyFloat.truthy q); [|reflexivity].
    intros Hb. apply (leb_trans _ p); assumption. }
  split.
  - intros b Hb. apply filter_In in Hb. apply filter_In.
    split; [apply Hb | apply Himp; apply Hb].
  - rewrite filter_filter. f_equal. apply filter_ext_in.
    intros b _. destruct (price_kept (Some p) b) eqn:E.
    + rewrite (Himp b E). reflexivity.
    + apply andb_false_r.
Qed.

Lemma filter_by_price_monotone_witness :
  exists kept_p kept_q,
    result (filter_by_price four_books (Some 4%float)) = Returned kept_p /\
    result (filter_by_price four_books (Some 10%float)) = Returned kept_q /\
    incl kept_p kept_q /\
    result (filter_by_price kept_q (Some 4%float)) = Returned kept_p.
Proof.
  apply (filter_by_price_monotone four_books 4 10); reflexivity.
Defined.

(** X9: a record whose price is missing (NaN) passes no price filter:
    under a threshold that is not zero no record kept has a NaN price,
    however high the threshold; and a threshold that is itself NaN keeps
    no record at all. *)
Theorem filter_by_price_drops_missing_price (df : DataFrame) (p : float) :
  PyFloat.truthy p = true ->
  exists kept,
    result (filter_by_price df (Some p)) = Returned kept /\
    (forall b, In b kept -> is_nan (price b) = false) /\
    (is_nan p = true -> kept = []).
Proof.
  intros Hp. exists (filter (fun b => (price b <=? p)%float) df).
  unfold filter_by_price. rewrite Hp. split; [reflexivity|]. split.
  - intros b Hb. apply filter_In in Hb. destruct Hb as [_ Hb].
    destruct (is_nan (price b)) eqn:E; [|reflexivity].
    rewrite (leb_nan_l _ p E) in Hb. discriminate.
  - intros Hnan. induction df as [|b df IH]; [reflexivity|].
    cbn [filter]. rewrite (leb_nan_r _ p Hnan). exact IH.
Qed.

Lemma filter_by_price_drops_missing_price_witness :
  exists kept,
    result (filter_by_price four_books (Some infinity)) = Returned kept /\
    (forall b, In b kept -> is_nan (price b) = false) /\
    (is_nan infinity = true -> kept = []).
Proof.
  apply (filter_by_price_drops_missing_price four_books infinity).
  reflexivity.
Defined.

(** *** [sort_data]: a column the table does not have *)

(** X10: asked to sort by a name that is none of the table's columns,
    [sort_data] returns the table as it is, in either direction, and
    prints nothing. *)
Theorem sort_data_unknown_column
  (argsort : list key -> list nat) (df : DataFrame)
  (sort_by : str) (ascending : bool) :
  (forall c, sort_by <> column_name c) ->
  sort_data argsort df sort_by ascending = ret df.
Proof.
  intros H. unfold sort_data, find_column, columns. cbn [find].
  assert (E : forall c, str_eqb sort_by (column_name c) = false).
  { intros c. destruct (str_eqb sort_by (column_name c)) eqn:E;
      [|reflexivity].
    apply str_eqb_eq in E. destruct (H c E). }
  rewrite !E. reflexivity.
Qed.

Lemma sort_data_unknown_column_witness :
  sort_data insertion_argsort three_books py"author" true = ret three_books.
Proof.
  apply (sort_data_unknown_column insertion_argsort three_books).
  intros c. destruct c; discriminate.
Defined.

(** *** [display_results]: how many rows, and how wide *)

Lemma head_shorter df n : length (head df n) <= length df.
Proof.
  unfold head. destruct (0 <=? n)%Z; rewrite length_firstn; lia.
Qed.

Lemma display_results_nothing_shown (b : book) (df : DataFrame) top_n :
  head (b :: df) top_n = [] ->
  display_results (b :: df) top_n = (report (b :: df) 0 [], Returned tt).
Proof.
  intros H. unfold display_results. rewrite H. reflexivity.
Qed.

(** X11: on a table that is not empty [display_results] never prints the
    no-results notice, whatever the cap, and never shows more rows than
    the table has: it shows the smaller of the cap and the number of
    rows when the cap is not negative, and the number of rows less the
    cap's absolute value (or none) when it is.  When that leaves no row
    to show (a cap of 0, or a negative one that takes every row away)
    it still prints the count, an empty table and the statistics of the
    whole table. *)
Theorem display_results_shown_count (df : DataFrame) (top_n : Z) :
  df <> [] ->
  let shown := head df top_n in
  length shown <= length df /\
  ((0 <= top_n)%Z -> length shown = Nat.min (Z.to_nat top_n) (length df)) /\
  ((top_n < 0)%Z -> length shown = length df - Z.to_nat (- top_n)) /\
  ~ In NoResultsLine (printed (display_results df top_n)) /\
  (length shown = 0 ->
   display_results df top_n = (report df 0 [], Returned tt)).
Proof.
  intros Hne. cbv zeta.
  split; [apply head_shorter|].
  split; [apply head_length|].
  split.
  { intros Hn. unfold head.
    replace (0 <=? top_n)%Z with false by (symmetry; apply Z.leb_gt; lia).
    rewrite length_firstn. lia. }
  destruct df as [|b df]; [contradiction|].
  split.
  - unfold display_results. rewrite !apply_shorten.
    destruct (all_present (map title (head (b :: df) top_n)));
      [|intros []].
    destruct (all_present (map link (head (b :: df) top_n)));
      [|intros []].
    cbn. intuition discriminate.
  - intros H. apply display_results_nothing_shown.
    apply length_zero_iff_nil. exact H.
Qed.

Lemma display_results_shown_count_witness :
  let shown := head three_books 0 in
  length shown <= length three_books /\
  ((0 <= 0)%Z -> length shown = Nat.min (Z.to_nat 0) (length three_books)) /\
  ((0 < 0)%Z -> length shown = length three_books - Z.to_nat (- 0)) /\
  ~ In NoResultsLine (printed (display_results three_books 0)) /\
  (length shown = 0 ->
   display_results three_books 0 = (report three_books 0 [], Returned tt)).
Proof.
  apply (display_results_shown_count three_books 0).
  discriminate.
Defined.

Lemma shortened_length n (s : str) : length (shortened n s) <= n + 3.
Proof.
  unfold shortened. destruct (n <? length s)%nat eqn:E.
  - rewrite length_app, length_firstn. cbn [length lit]. cbn. lia.
  - apply Nat.ltb_ge in E. lia.
Qed.

Lemma display_rows_In ts ps rs ls r :
  In r (display_rows ts ps rs ls) -> In (d_title r) ts /\ In (d_link r) ls.
Proof.
  revert ps rs ls.
  induction ts as [|t ts IH]; intros ps rs ls; [intros []|].
  destruct ps as [|p ps]; [intros []|].
  destruct rs as [|x rs]; [intros []|].
  destruct ls as [|l ls]; [intros []|].
  cbn [display_rows]. intros [<-|H].
  - split; left; reflexivity.
  - destruct (IH ps rs ls H) as [H1 H2]. split; right; assumption.
Qed.

(** X12: no row of the table [display_results] prints carries a title
    longer than 53 characters or a link longer than 43: a longer text is
    cut to its first 50 (40) characters and three dots. *)
Theorem display_results_widths
  (df : DataFrame) (top_n : Z) (rows : list display_row) :
  In (TableLines rows) (printed (display_results df top_n)) ->
  Forall (fun r => length (d_title r) <= 53 /\ length (d_link r) <= 43) rows.
Proof.
  destruct df as [|b df].
  { cbn. intros [H|[]]. discriminate H. }
  unfold display_results. rewrite !apply_shorten.
  destruct (all_present (map title (head (b :: df) top_n))) as [titles|];
    [|intros []].
  destruct (all_present (map link (head (b :: df) top_n))) as [links|];
    [|intros []].
  cbn. intros H.
  repeat (destruct H as [H|H]; [try discriminate H|]); [|destruct H].
  injection H as <-.
  apply Forall_forall. intros r Hr.
  apply display_rows_In in Hr. destruct Hr as [Ht Hl].
  apply in_map_iff in Ht, Hl.
  destruct Ht as [t [<- _]]. destruct Hl as [l [<- _]].
  split; [apply (shortened_length 50) | apply (shortened_length 40)].
Qed.

Lemma display_results_widths_witness :
  Forall (fun r => length (d_title r) <= 53 /\ length (d_link r) <= 43)
    (display_rows
       (map (shortened 50) [py"The Light Between Oceans"; py"Sharp Objects"])
       [5%float; 12.5%float] [4%Z; 5%Z]
       (map (shortened 40) [py"a"; py"b"])).
Proof.
  apply (display_results_widths three_books 2).
  vm_compute. right. right. right. left. reflexivity.
Defined.

(** *** [sort_data]: the two directions *)

Lemma str_ltb_trans (a : str) : forall b c,
  str_ltb a b = true -> str_ltb b c = true -> str_ltb a c = true.
Proof.
  induction a as [|x a IH]; intros [|y b] [|z c]; cbn [str_ltb];
    try discriminate; try reflexivity.
  intros H1 H2.
  apply orb_true_iff in H1, H2. apply orb_true_iff.
  destruct H1 as [H1|H1], H2 as [H2|H2].
  - left. apply N.ltb_lt in H1, H2. apply N.ltb_lt. lia.
  - apply andb_true_iff in H2. destruct H2 as [H2 _].
    apply N.eqb_eq in H2. subst z. left. exact H1.
  - apply andb_true_iff in H1. destruct H1 as [H1 _].
    apply N.eqb_eq in H1. subst y. left. exact H2.
  - apply andb_true_iff in H1, H2.
    destruct H1 as [E1 H1], H2 as [E2 H2].
    apply N.eqb_eq in E1, E2. subst y z. right.
    rewrite N.eqb_refl. apply (IH b c H1 H2).
Qed.

Lemma str_ltb_irrefl (a : str) : str_ltb a a = false.
Proof.
  induction a as [|x a IH]; [reflexivity|].
  cbn [str_ltb]. rewrite N.ltb_irrefl, N.eqb_refl. exact IH.
Qed.

Lemma str_ltb_total (a : str) : forall b,
  a <> b -> str_ltb a b = true \/ str_ltb b a = true.
Proof.
  induction a as [|x a IH]; intros [|y b] H; cbn [str_ltb].
  - contradiction.
  - left. reflexivity.
  - right. reflexivity.
  - destruct (N.compare_spec x y) as [E|E|E].
    + subst y. rewrite N.ltb_irrefl, N.eqb_refl. cbn [orb andb].
      apply IH. intros ->. apply H. reflexivity.
    + left. apply N.ltb_lt in E. rewrite E. reflexivity.
    + right. apply N.ltb_lt in E. rewrite E. reflexivity.
Qed.

Lemma key_ltb_trans (x y z : key) :
  key_ltb x y = true -> key_ltb y z = true -> key_ltb x z = true.
Proof.
  destruct x, y, z; cbn [key_ltb]; try discriminate.
  - apply ltb_trans.
  - intros H1 H2. apply Z.ltb_lt in H1, H2. apply Z.ltb_lt. lia.
  - apply str_ltb_trans.
Qed.

Lemma key_ltb_irrefl (x : key) : key_ltb x x = false.
Proof.
  destruct x; cbn [key_ltb].
  - destruct (x <? x)%float eqn:E; [|reflexivity].
    assert (H := ltb_leb_false _ _ E).
    rewrite ltb_spec in E. rewrite leb_spec in H.
    unfold SFltb in E. unfold SFleb in H.
    destruct (SFcompare (Prim2SF x) (Prim2SF x)) as [[]|]; discriminate.
  - apply Z.ltb_irrefl.
  - apply str_ltb_irrefl.
Qed.

Lemma strictly_before_trans c (a b d : book) :
  strictly_before c a b = true -> strictly_before c b d = true ->
  strictly_before c a d = true.
Proof.
  unfold strictly_before.
  destruct (cell c a), (cell c b), (cell c d); try discriminate.
  apply key_ltb_trans.
Qed.

Lemma strictly_before_irrefl c (a : book) : strictly_before c a a = false.
Proof.
  unfold strictly_before. destruct (cell c a); [|reflexivity].
  apply key_ltb_irrefl.
Qed.

(** Two rows with a value in the column hold equal values, or one holds
    the smaller. *)
Lemma cells_compare c (a b : book) :
  present c a = true -> present c b = true ->
  same_value (cell c a) (cell c b) = false ->
  strictly_before c a b = true \/ strictly_before c b a = true.
Proof.
  unfold present, strictly_before, cell.
  destruct c.
  - destruct (title a) as [x|], (title b) as [y|]; cbn; try discriminate.
    intros _ _ H. apply str_ltb_total. intros ->.
    unfold str_eqb in H. destruct (list_eq_dec N.eq_dec y y);
      [discriminate | contradiction].
  - destruct (is_nan (price a)) eqn:Ea; [discriminate|].
    destruct (is_nan (price b)) eqn:Eb; [discriminate|].
    cbn [same_value key_ltb]. intros _ _.
    rewrite eqb_spec, !ltb_spec. unfold SFeqb, SFltb.
    rewrite (SFcompare_antisym (Prim2SF (price a)) (Prim2SF (price b))).
    destruct (SFcompare (Prim2SF (price a)) (Prim2SF (price b)))
      as [[]|] eqn:E; cbn; try discriminate; auto.
    exfalso.
    assert (Ha : Prim2SF (price a) <> S754_nan).
    { intros H. apply is_nan_Prim2SF in H. congruence. }
    assert (Hb : Prim2SF (price b) <> S754_nan).
    { intros H. apply is_nan_Prim2SF in H. congruence. }
    destruct (Prim2SF (price a)), (Prim2SF (price b));
      try contradiction; discriminate.
  - cbn. intros _ _ H. apply Z.eqb_neq in H.
    destruct (Z.lt_total (rating a) (rating b)) as [L|[L|L]];
      [left | contradiction | right]; apply Z.ltb_lt; exact L.
  - destruct (link a) as [x|], (link b) as [y|]; cbn; try discriminate.
    intros _ _ H. apply str_ltb_total. intros ->.
    unfold str_eqb in H. destruct (list_eq_dec N.eq_dec y y);
      [discriminate | contradiction].
Qed.

(** In a table without ties the rows are distinct, and of two of them one
    holds the smaller value. *)
Lemma no_ties_rows c (l : list book) :
  forallb (present c) l = true -> no_ties c l = true ->
  NoDup l /\
  forall a b, In a l -> In b l ->
    a = b \/ strictly_before c a b = true \/ strictly_before c b a = true.
Proof.
  induction l as [|x l IH]; intros Hp Ht.
  - split; [constructor | intros a b []].
  - cbn [forallb no_ties] in Hp, Ht.
    apply andb_true_iff in Hp, Ht.
    destruct Hp as [Hx Hp], Ht as [Hxl Ht].
    destruct (IH Hp Ht) as [Hnd Hall].
    rewrite forallb_forall in Hxl, Hp.
    assert (Hxy : forall y, In y l ->
              strictly_before c x y = true \/ strictly_before c y x = true).
    { intros y Hy. apply cells_compare; [exact Hx | apply Hp; exact Hy|].
      apply negb_true_iff. apply Hxl. exact Hy. }
    split.
    + constructor; [|exact Hnd]. intros Hin.
      destruct (Hxy x Hin) as [H|H];
        rewrite strictly_before_irrefl in H; discriminate.
    + intros a b [<-|Ha] [<-|Hb].
      * left. reflexivity.
      * right. apply Hxy. exact Hb.
      * right. apply or_comm. apply Hxy. exact Ha.
      * apply Hall; assumption.
Qed.

Lemma adjacent_tail {A} (R : A -> A -> bool) a l :
  adjacent R (a :: l) = true -> adjacent R l = true.
Proof.
  destruct l as [|b l]; [reflexivity|].
  rewrite adjacent_cons. intros H. apply andb_true_iff in H. apply H.
Qed.

Lemma adjacent_app_l {A} (R : A -> A -> bool) (l1 l2 : list A) :
  adjacent R (l1 ++ l2) = true -> adjacent R l1 = true.
Proof.
  induction l1 as [|a [|b l1] IH]; try reflexivity.
  cbn [app]. rewrite !adjacent_cons. intros H.
  apply andb_true_iff in H. destruct H as [H1 H2].
  rewrite H1. apply IH. exact H2.
Qed.

Lemma adjacent_all_after {A} (R : A -> A -> bool) :
  (forall a b c, R a b = true -> R b c = true -> R a c = true) ->
  forall l a, adjacent R (a :: l) = true ->
              Forall (fun b => R a b = true) l.
Proof.
  intros Htrans. induction l as [|b l IH]; intros a H; [constructor|].
  rewrite adjacent_cons in H. apply andb_true_iff in H.
  destruct H as [Hab H].
  constructor; [exact Hab|].
  apply (Forall_impl _ (fun x => Htrans a b x Hab)). apply IH. exact H.
Qed.

(** Two arrangements of the same rows, both in strict order, are one. *)
Lemma sorted_unique {A} (R : A -> A -> bool) :
  (forall a b c, R a b = true -> R b c = true -> R a c = true) ->
  (forall a, R a a = false) ->
  forall l1 l2, adjacent R l1 = true -> adjacent R l2 = true ->
                Permutation l1 l2 -> l1 = l2.
Proof.
  intros Htrans Hirr.
  induction l1 as [|a l1 IH]; intros l2 H1 H2 Hperm.
  - apply Permutation_nil in Hperm. subst l2. reflexivity.
  - destruct l2 as [|b l2].
    { apply Permutation_sym, Permutation_nil in Hperm. discriminate. }
    assert (Ha := adjacent_all_after R Htrans l1 a H1).
    assert (Hb := adjacent_all_after R Htrans l2 b H2).
    rewrite Forall_forall in Ha, Hb.
    assert (E : a = b).
    { assert (Hin1 : In a (b :: l2))
        by (apply (Permutation_in _ Hperm); left; reflexivity).
      assert (Hin2 : In b (a :: l1))
        by (apply (Permutation_in _ (Permutation_sym Hperm)); left;
            reflexivity).
      destruct Hin1 as [E|Hin1]; [symmetry; exact E|].
      destruct Hin2 as [E|Hin2]; [exact E|].
      exfalso. assert (H := Htrans a b a (Ha b Hin2) (Hb a Hin1)).
      rewrite Hirr in H. discriminate. }
    subst b. f_equal.
    apply IH; [apply (adjacent_tail R a); exact H1
              |apply (adjacent_tail R a); exact H2|].
    apply (Permutation_cons_inv Hperm).
Qed.

(** Rows in order, all with a value and no two alike, are in strict
    order. *)
Lemma adjacent_strict c (l : list book) :
  NoDup l ->
  (forall a b, In a l -> In b l ->
     a = b \/ strictly_before c a b = true \/ strictly_before c b a = true) ->
  adjacent (fun a b => in_order true (cell c a) (cell c b)) l = true ->
  adjacent (strictly_before c) l = true.
Proof.
  induction l as [|a [|b l] IH]; intros Hnd Hall H; try reflexivity.
  rewrite adjacent_cons in H |- *. apply andb_true_iff in H.
  destruct H as [Hab H]. apply andb_true_iff. split.
  - destruct (Hall a b) as [E|[L|L]];
      [left; reflexivity | right; left; reflexivity | | exact L |].
    + subst b. inversion Hnd as [|? ? Hnot _]. destruct Hnot. left.
      reflexivity.
    + exfalso. unfold strictly_before in L. unfold in_order in Hab.
      destruct (cell c a), (cell c b); try discriminate.
      rewrite L in Hab. discriminate.
  - apply IH; [inversion Hnd; assumption | | exact H].
    intros x y Hx Hy. apply Hall; right; assumption.
Qed.

Lemma filter_none {A} (f : A -> bool) (l : list A) :
  forallb (fun x => negb (f x)) l = true -> filter f l = [].
Proof.
  induction l as [|a l IH]; [reflexivity|].
  cbn [forallb filter]. intros H. apply andb_true_iff in H.
  destruct H as [Ha Hl]. apply negb_true_iff in Ha. rewrite Ha.
  apply IH. exact Hl.
Qed.

Lemma filter_whole {A} (f : A -> bool) (l : list A) :
  forallb f l = true -> filter f l = l.
Proof.
  induction l as [|a l IH]; [reflexivity|].
  cbn [forallb filter]. intros H. apply andb_true_iff in H.
  destruct H as [Ha Hl]. rewrite Ha, (IH Hl). reflexivity.
Qed.

Lemma forallb_filter {A} (f : A -> bool) (l : list A) :
  forallb f (filter f l) = true.
Proof.
  apply forallb_forall. intros x Hx. apply filter_In in Hx. apply Hx.
Qed.

(** The sorted table: the rows with a value, in order, and then the rows
    without one as the table has them. *)
Lemma sort_values_front argsort df c ascending :
  argsort_ok (sort_keys df c ascending)
             (argsort (sort_keys df c ascending)) = true ->
  exists front,
    sort_values argsort df c ascending = front ++ filter (missing c) df /\
    Permutation front (filter (present c) df) /\
    adjacent (fun a b => in_order ascending (cell c a) (cell c b)) front
    = true.
Proof.
  intros Hok.
  destruct (sort_values_sorted argsort df c ascending Hok) as [Hperm Hord].
  unfold sort_values, nargsort in Hperm, Hord |- *.
  rewrite take_pick, pick_app in Hperm, Hord |- *.
  destruct (split_na_rows c df []) as (_ & HM & _ & _).
  cbn [app length] in HM. rewrite HM in Hperm, Hord |- *.
  eexists. split; [reflexivity|]. split.
  - apply (Permutation_app_inv_r (filter (missing c) df)).
    etransitivity; [symmetry; exact Hperm|].
    apply Permutation_present_missing.
  - unfold ordered_by in Hord. apply (adjacent_app_l _ _ _ Hord).
Qed.

(** X13: on a table in which no two rows with a value in the column hold
    equal values, and with an [argsort] that keeps numpy's contract, the
    descending sort is the ascending one turned around, but for the rows
    without a value, which stay last in both: it returns the rows that
    have a value in the reverse of their ascending order, then the rows
    without one.  When every row has a value the one is the reverse of
    the other. *)
Theorem sort_data_descending_reverses
  (argsort : list key -> list nat) (df : DataFrame) (c : column) :
  no_ties c (filter (present c) df) = true ->
  argsort_ok (sort_keys df c true) (argsort (sort_keys df c true)) = true ->
  argsort_ok (sort_keys df c false) (argsort (sort_keys df c false)) = true ->
  exists sorted,
    result (sort_data argsort df (column_name c) true) = Returned sorted /\
    result (sort_data argsort df (column_name c) false)
    = Returned (rev (filter (present c) sorted)
                ++ filter (missing c) sorted) /\
    (forallb (present c) df = true ->
     result (sort_data argsort df (column_name c) false)
     = Returned (rev sorted)).
Proof.
  intros Hties Hasc Hdesc.
  destruct (sort_values_front argsort df c true Hasc)
    as (fa & Ea & Pa & Sa).
  destruct (sort_values_front argsort df c false Hdesc)
    as (fd & Ed & Pd & Sd).
  exists (sort_values argsort df c true).
  unfold sort_data. rewrite !find_column_name. cbn [result print bind ret snd].
  split; [reflexivity|].
  destruct (no_ties_rows c (filter (present c) df)
              (forallb_filter _ _) Hties) as [Hnd Hall].
  assert (Hstrict : forall l,
            Permutation l (filter (present c) df) ->
            adjacent (fun a b => in_order true (cell c a) (cell c b)) l
            = true ->
            adjacent (strictly_before c) l = true).
  { intros l Hl. apply adjacent_strict.
    - apply (Permutation_NoDup (Permutation_sym Hl) Hnd).
    - intros a b Ha Hb.
      apply Hall; apply (Permutation_in _ Hl); assumption. }
  assert (Hpresent : forall l, Permutation l (filter (present c) df) ->
                               forallb (present c) l = true).
  { intros l Hl. apply forallb_forall. intros x Hx.
    apply (Permutation_in _ Hl) in Hx. apply filter_In in Hx. apply Hx. }
  assert (Hrev : adjacent (fun a b => in_order true (cell c a) (cell c b))
                   (rev fd) = true).
  { apply adjacent_rev in Sd.
    assert (Hp := Hpresent fd Pd). rewrite forallb_forall in Hp.
    revert Sd. generalize (fun x (H : In x (rev fd)) =>
                             Hp x (proj2 (in_rev fd x) H)).
    generalize (rev fd). intros l Hl.
    induction l as [|a [|b l] IH]; try reflexivity.
    rewrite !adjacent_cons. intros H. apply andb_true_iff in H.
    destruct H as [Hab H]. apply andb_true_iff. split.
    - assert (Ha := Hl a (or_introl eq_refl)).
      assert (Hb := Hl b (or_intror (or_introl eq_refl))).
      unfold present in Ha, Hb. unfold in_order in Hab |- *.
      destruct (cell c a), (cell c b); try discriminate. exact Hab.
    - apply IH; [|exact H]. intros x Hx. apply Hl. right. exact Hx. }
  assert (E : fa = rev fd).
  { apply (sorted_unique (strictly_before c)).
    - apply strictly_before_trans.
    - apply strictly_before_irrefl.
    - apply Hstrict; assumption.
    - apply Hstrict; [|exact Hrev].
      etransitivity; [symmetry; apply Permutation_rev | exact Pd].
    - etransitivity; [exact Pa|].
      etransitivity; [symmetry; exact Pd | apply Permutation_rev]. }
  assert (Hmiss : forallb (fun x => negb (present c x))
                    (filter (missing c) df) = true).
  { apply forallb_forall. intros x Hx. apply filter_In in Hx. apply Hx. }
  assert (Hfront : forallb (fun x => negb (missing c x)) fa = true).
  { apply forallb_forall. intros x Hx.
    assert (Hp := Hpresent fa Pa). rewrite forallb_forall in Hp.
    unfold missing. rewrite (Hp x Hx). reflexivity. }
  assert (Epresent : filter (present c) (sort_values argsort df c true)
                     = fa).
  { rewrite Ea, filter_app, (filter_whole _ fa (Hpresent fa Pa)),
      (filter_none _ _ Hmiss). apply app_nil_r. }
  assert (Emissing : filter (missing c) (sort_values argsort df c true)
                     = filter (missing c) df).
  { rewrite Ea, filter_app, (filter_none _ fa Hfront).
    apply filter_whole. apply forallb_filter. }
  split.
  - rewrite Epresent, Emissing, Ed, E, rev_involutive. reflexivity.
  - intros Hall'.
    assert (Hno : filter (missing c) df = []).
    { apply filter_none. apply forallb_forall. intros x Hx.
      rewrite forallb_forall in Hall'. unfold missing.
      rewrite (Hall' x Hx). reflexivity. }
    rewrite Ed, Ea, Hno, !app_nil_r, E, rev_involutive. reflexivity.
Qed.

Lemma sort_data_descending_reverses_witness :
  exists sorted,
    result (sort_data insertion_argsort four_books py"price" true)
    = Returned sorted /\
    result (sort_data insertion_argsort four_books py"price" false)
    = Returned (rev (filter (present ColPrice) sorted)
                ++ filter (missing ColPrice) sorted) /\
    (forallb (present ColPrice) four_books = true ->
     result (sort_data insertion_argsort four_books py"price" false)
     = Returned (rev sorted)).
Proof.
  apply (sort_data_descending_reverses insertion_argsort four_books
           ColPrice); reflexivity.
Defined.

End AnalyzeSpec.

(** ** Storage: properties *)

Module CsvSpec.

Import Csv.

Local Open Scope N_scope.

(** *** The tokenizer reads back what the writer wrote *)

Lemma push_all_app s1 s2 t :
  push_all (s1 ++ s2) t = push_all s2 (push_all s1 t).
Proof. apply fold_left_app. Qed.

Lemma push_all_tokens s t :
  push_all s t = Tokens (rev s ++ field t) (line t) (lines t).
Proof.
  revert t. induction s as [|c s IH]; intros t.
  - destruct t; reflexivity.
  - cbn [push_all fold_left]. fold (push_all s (push c t)).
    rewrite IH. cbn [push field line lines rev].
    rewrite <- app_assoc. reflexivity.
Qed.

Lemma plain_chars c :
  plain c = true ->
  (c =? 10) = false /\ (c =? 13) = false /\
  (c =? 44) = false /\ (c =? 34) = false.
Proof.
  unfold plain. intros H. apply negb_true_iff in H.
  apply orb_false_iff in H. destruct H as [H H34].
  apply orb_false_iff in H. destruct H as [H H44].
  apply orb_false_iff in H. destruct H as [H10 H13].
  repeat split; assumption.
Qed.

Lemma plain_in_field c t :
  plain c = true -> on_in_field c t = (IN_FIELD, push c t).
Proof.
  intros H. destruct (plain_chars c H) as (H10 & H13 & H44 & _).
  unfold on_in_field. rewrite H10, H13, H44. reflexivity.
Qed.

Lemma plain_start_field c t :
  plain c = true -> on_start_field c t = (IN_FIELD, push c t).
Proof.
  intros H. destruct (plain_chars c H) as (H10 & H13 & H44 & H34).
  unfold on_start_field. rewrite H10, H13, H44, H34. reflexivity.
Qed.

Lemma separator_in_field sep t :
  separator sep -> on_in_field sep t = (after sep, close sep t).
Proof. intros [E|E]; subst sep; reflexivity. Qed.

Lemma run_in_field g sep rest t :
  forallb plain g = true -> separator sep ->
  run (g ++ sep :: rest) IN_FIELD t
  = run rest (after sep) (close sep (push_all g t)).
Proof.
  intros Hg Hsep. revert t. induction g as [|c g IH]; intros t.
  - cbn [app run step]. rewrite (separator_in_field sep t Hsep). reflexivity.
  - cbn [forallb] in Hg. apply andb_true_iff in Hg. destruct Hg as [Hc Hg].
    cbn [app run step]. rewrite (plain_in_field c t Hc).
    rewrite (IH Hg). reflexivity.
Qed.

Lemma run_unquoted g sep rest t :
  forallb plain g = true -> separator sep ->
  run (g ++ sep :: rest) START_FIELD t
  = run rest (after sep) (close sep (push_all g t)).
Proof.
  intros Hg Hsep. destruct g as [|c g].
  - cbn [app run step]. destruct Hsep as [E|E]; subst sep; reflexivity.
  - cbn [forallb] in Hg. apply andb_true_iff in Hg. destruct Hg as [Hc Hg].
    cbn [app run step].
    rewrite (plain_start_field c t Hc).
    apply (run_in_field g sep rest (push c t) Hg Hsep).
Qed.

Lemma run_in_quoted f sep rest t :
  separator sep ->
  run (doubled f ++ 34 :: sep :: rest) IN_QUOTED_FIELD t
  = run rest (after sep) (close sep (push_all f t)).
Proof.
  intros Hsep. revert t. induction f as [|c f IH]; intros t.
  - cbn [doubled flat_map app run step].
    destruct Hsep as [E|E]; subst sep; reflexivity.
  - cbn [doubled flat_map]. fold (doubled f).
    destruct (c =? 34) eqn:Ec.
    + apply N.eqb_eq in Ec. subst c. cbn [app run step].
      change (on_in_quoted_field 34 t) with (QUOTE_IN_QUOTED_FIELD, t).
      cbn [run step].
      change (on_quote_in_quoted_field 34 t) with (IN_QUOTED_FIELD, push 34 t).
      apply IH.
    + cbn [app run step]. unfold on_in_quoted_field. rewrite Ec. apply IH.
Qed.

Lemma unquoted_plain always_quote_cr f :
  existsb (special always_quote_cr) f = false -> ~ In 13 f ->
  forallb plain f = true.
Proof.
  intros Hs Hcr. apply forallb_forall. intros c Hc.
  assert (Hsc : special always_quote_cr c = false).
  { destruct (special always_quote_cr c) eqn:E; [|reflexivity].
    rewrite <- Hs. symmetry. apply existsb_exists. exists c.
    split; assumption. }
  unfold special in Hsc. unfold plain.
  apply orb_false_iff in Hsc. destruct Hsc as [Hsc _].
  apply orb_false_iff in Hsc. destruct Hsc as [Hsc H10].
  apply orb_false_iff in Hsc. destruct Hsc as [H44 H34].
  rewrite H10, H44, H34.
  destruct (c =? 13) eqn:E; [|reflexivity].
  apply N.eqb_eq in E. subst c. contradiction.
Qed.

(** A field written after a comma or at the start of the file. *)
Lemma run_write_field always_quote_cr f sep rest t :
  ~ In 13 f -> separator sep ->
  run (write_field always_quote_cr f ++ sep :: rest) START_FIELD t
  = run rest (after sep) (close sep (push_all f t)).
Proof.
  intros Hcr Hsep. unfold write_field.
  destruct (existsb (special always_quote_cr) f) eqn:Hs.
  - fold (doubled f). rewrite <- app_comm_cons, <- app_assoc.
    cbn [app run step].
    change (on_start_field 34 t) with (IN_QUOTED_FIELD, t).
    apply (run_in_quoted f sep rest t Hsep).
  - apply run_unquoted; [|exact Hsep].
    apply (unquoted_plain always_quote_cr); assumption.
Qed.

(** A line that started with blanks. *)
Lemma run_whitespace_line g rest : forall pending t,
  forallb plain g = true ->
  run (g ++ 44 :: rest) (WHITESPACE_LINE pending) t
  = run rest START_FIELD (end_field (push_all (pending ++ g) t)).
Proof.
  induction g as [|c g IH]; intros pending t Hg.
  - rewrite app_nil_r. reflexivity.
  - cbn [forallb] in Hg. apply andb_true_iff in Hg. destruct Hg as [Hc Hg].
    cbn [app run step]. unfold on_whitespace_line.
    destruct (plain_chars c Hc) as (H10 & H13 & _ & _).
    rewrite H10, H13.
    destruct (is_blank c).
    + rewrite (IH (pending ++ [c]) t Hg), <- app_assoc. reflexivity.
    + rewrite (plain_in_field c _ Hc).
      rewrite (run_in_field g 44 rest _ Hg (or_introl eq_refl)).
      change (push c (push_all pending t))
        with (push_all [c] (push_all pending t)).
      rewrite <- !push_all_app. reflexivity.
Qed.

(** The first field of a line, which a comma follows. *)
Lemma run_first_field always_quote_cr f rest t :
  ~ In 13 f ->
  run (write_field always_quote_cr f ++ 44 :: rest) START_RECORD t
  = run rest START_FIELD (end_field (push_all f t)).
Proof.
  intros Hcr.
  assert (Hgoal := run_write_field always_quote_cr f 44 rest t Hcr
                     (or_introl eq_refl)).
  change (after 44) with START_FIELD in Hgoal.
  change (close 44 (push_all f t)) with (end_field (push_all f t)) in Hgoal.
  rewrite <- Hgoal. unfold write_field.
  destruct (existsb (special always_quote_cr) f) eqn:Hs; [reflexivity|].
  destruct f as [|c f]; [reflexivity|].
  assert (Hp := unquoted_plain always_quote_cr _ Hs Hcr).
  cbn [forallb] in Hp. apply andb_true_iff in Hp. destruct Hp as [Hc Hf].
  cbn [app run step]. unfold on_start_record.
  destruct (plain_chars c Hc) as (H10 & H13 & _ & _).
  rewrite H10, H13.
  destruct (is_blank c); [|reflexivity].
  rewrite (run_whitespace_line f rest [c] t Hf).
  rewrite (plain_start_field c t Hc).
  rewrite (run_in_field f 44 rest _ Hf (or_introl eq_refl)).
  reflexivity.
Qed.

(** A line of four fields. *)
Lemma run_write_row always_quote_cr f1 f2 f3 f4 rest read :
  ~ In 13 f1 -> ~ In 13 f2 -> ~ In 13 f3 -> ~ In 13 f4 ->
  run (write_row always_quote_cr [f1; f2; f3; f4] ++ rest)
      START_RECORD (Tokens [] [] read)
  = run rest START_RECORD (Tokens [] [] ([f1; f2; f3; f4] :: read)).
Proof.
  intros H1 H2 H3 H4.
  assert (E : write_row always_quote_cr [f1; f2; f3; f4] ++ rest
              = write_field always_quote_cr f1 ++ 44 ::
                write_field always_quote_cr f2 ++ 44 ::
                write_field always_quote_cr f3 ++ 44 ::
                write_field always_quote_cr f4 ++ 10 :: rest).
  { unfold write_row. destruct f1; cbn [join_fields];
      repeat (rewrite <- ?app_assoc; cbn [app]); reflexivity. }
  rewrite E.
  rewrite (run_first_field always_quote_cr f1 _ _ H1).
  rewrite (run_write_field always_quote_cr f2 44 _ _ H2 (or_introl eq_refl)).
  rewrite (run_write_field always_quote_cr f3 44 _ _ H3 (or_introl eq_refl)).
  rewrite (run_write_field always_quote_cr f4 10 _ _ H4 (or_intror eq_refl)).
  change (after 44) with START_FIELD. change (after 10) with START_RECORD.
  unfold close. cbn [N.eqb Pos.eqb].
  rewrite !push_all_tokens. unfold end_field, end_line.
  cbn [field line lines]. rewrite !app_nil_r, !rev_involutive.
  reflexivity.
Qed.

(** *** The text of an integer *)

Lemma decimal_digits_chars fuel : forall n acc,
  forallb integer_char acc = true ->
  forallb integer_char (decimal_digits fuel n acc) = true.
Proof.
  induction fuel as [|fuel IH]; intros n acc Hacc; [exact Hacc|].
  cbn [decimal_digits].
  assert (Hd : forallb integer_char ((48 + n mod 10) :: acc) = true).
  { cbn [forallb]. rewrite Hacc, andb_true_r.
    unfold integer_char, PyFloat.is_digit.
    assert (Hlt : n mod 10 < 10) by (apply N.mod_lt; discriminate).
    generalize dependent (n mod 10). intros d Hlt.
    replace (48 <=? 48 + d) with true by (symmetry; apply N.leb_le; lia).
    replace (48 + d <=? 57) with true by (symmetry; apply N.leb_le; lia).
    reflexivity. }
  destruct (n / 10 =? 0); [exact Hd | apply IH; exact Hd].
Qed.

Lemma decimal_digits_not_empty fuel : forall n acc,
  acc <> [] -> decimal_digits fuel n acc <> [].
Proof.
  induction fuel as [|fuel IH]; intros n acc Hacc; [exact Hacc|].
  cbn [decimal_digits].
  destruct (n / 10 =? 0); [discriminate | apply IH; discriminate].
Qed.

Lemma str_of_Z_chars (z : Z) :
  forallb integer_char (str_of_Z z) = true /\ str_of_Z z <> [].
Proof.
  unfold str_of_Z, str_of_N.
  destruct (z <? 0)%Z; cbn [forallb decimal_digits]; split;
    try discriminate;
    try (destruct (_ / 10 =? 0); [discriminate|];
         apply decimal_digits_not_empty; discriminate).
  - change (integer_char 45) with true. cbn [andb].
    apply (decimal_digits_chars (S _)). reflexivity.
  - apply (decimal_digits_chars (S _)). reflexivity.
Qed.

Lemma str_of_Z_no_cr (z : Z) : ~ In 13 (str_of_Z z).
Proof.
  intros H. destruct (str_of_Z_chars z) as [Hc _].
  rewrite forallb_forall in Hc. specialize (Hc 13 H). discriminate Hc.
Qed.


(** *** The columns read back *)




Lemma no_cr_In s : no_cr s = true -> ~ In 13 s.
Proof.
  unfold no_cr. intros H Hin. apply negb_true_iff in H.
  assert (E : existsb (N.eqb 13) s = true).
  { apply existsb_exists. exists 13. split; [exact Hin | reflexivity]. }
  congruence.
Qed.


Section Columns.

Variable to_int64 : str -> option Z.
Variable to_float64 : str -> option float.




End Columns.

(** *** The round trip *)

Lemma no_long_row (df : DataFrame) :
  existsb (fun r => (4 <? length r)%nat) (map (row_fields) df)
  = false.
Proof. induction df as [|b df IH]; [reflexivity | exact IH]. Qed.

Lemma forallb_map {A B} (f : B -> bool) (g : A -> B) (l : list A) :
  forallb f (map g l) = forallb (fun a => f (g a)) l.
Proof.
  induction l as [|a l IH]; simpl; [reflexivity | rewrite IH; reflexivity].
Qed.

Lemma forallb_weaken {A} (f g : A -> bool) (l : list A) :
  (forall a, f a = true -> g a = true) ->
  forallb f l = true -> forallb g l = true.
Proof.
  intros H. induction l as [|a l IH]; simpl; [reflexivity|].
  intros Hl. apply andb_true_iff in Hl. destruct Hl as [Ha Hl].
  rewrite (H a Ha), (IH Hl). reflexivity.
Qed.

(** *** The text of a float *)

Lemma no_cr_app (a b : str) : ~ In 13 a -> ~ In 13 b -> ~ In 13 (a ++ b).
Proof. intros Ha Hb H. apply in_app_or in H. tauto. Qed.

Lemma str_of_N_no_cr (n : N) : ~ In 13 (str_of_N n).
Proof.
  intros H. unfold str_of_N in H.
  assert (Hc := decimal_digits_chars (S (N.to_nat (N.log2 n))) n []
                  eq_refl).
  rewrite forallb_forall in Hc. specialize (Hc 13 H). discriminate Hc.
Qed.

Lemma zeros_no_cr (n : Z) : ~ In 13 (PyFloat.zeros n).
Proof.
  unfold PyFloat.zeros. intros H. apply repeat_spec in H. discriminate H.
Qed.

Lemma format_digits_no_cr (ds : str) (decpt : Z) :
  ~ In 13 ds -> ~ In 13 (PyFloat.format_digits ds decpt).
Proof.
  intros Hds. unfold PyFloat.format_digits. cbv zeta.
  destruct ((-4 <? decpt)%Z && (decpt <=? 16)%Z).
  - destruct (decpt <=? 0)%Z.
    + apply no_cr_app; [cbv; intuition discriminate|].
      apply no_cr_app; [apply zeros_no_cr | exact Hds].
    + destruct (Z.of_nat (length ds) <=? decpt)%Z.
      * apply no_cr_app; [exact Hds|].
        apply no_cr_app; [apply zeros_no_cr | cbv; intuition discriminate].
      * apply no_cr_app.
        { intros H. apply Hds.
          rewrite <- (firstn_skipn (Z.to_nat decpt) ds).
          apply in_or_app. left. exact H. }
        apply no_cr_app; [cbv; intuition discriminate|].
        intros H. apply Hds.
        rewrite <- (firstn_skipn (Z.to_nat decpt) ds).
        apply in_or_app. right. exact H.
  - apply no_cr_app.
    { destruct ds as [|d [|d' rest]]; try exact Hds.
      intros [H|[H|H]].
      - apply Hds. left. exact H.
      - discriminate H.
      - apply Hds. right. exact H. }
    apply no_cr_app; [cbv; intuition discriminate|].
    apply no_cr_app;
      [destruct (decpt - 1 <? 0)%Z; cbv; intuition discriminate|].
    destruct (Z.abs (decpt - 1) <? 10)%Z; [|apply str_of_N_no_cr].
    intros [H|H]; [discriminate H | revert H; apply str_of_N_no_cr].
Qed.

Lemma repr_no_cr (x : float) : ~ In 13 (PyFloat.repr x).
Proof.
  unfold PyFloat.repr.
  destruct (Prim2SF x) as [s|s| |s m e].
  - destruct s; cbv; intuition discriminate.
  - destruct s; cbv; intuition discriminate.
  - cbv; intuition discriminate.
  - cbv zeta.
    destruct (PyFloat.shortest_digits _ _ _ _ _ _) as [c e10].
    destruct (PyFloat.strip_zeros _ _ _) as [c' e10'].
    apply no_cr_app; [destruct s; cbv; intuition discriminate|].
    apply format_digits_no_cr. apply str_of_N_no_cr.
Qed.

Lemma price_field_no_cr (x : float) : ~ In 13 (price_field x).
Proof.
  unfold price_field. destruct (is_nan x); [intros [] | apply repr_no_cr].
Qed.

(** *** Fields that are written whole *)

Lemma special_cr q (f : str) :
  q = true -> In 13 f -> existsb (special q) f = true.
Proof.
  intros -> H. apply existsb_exists. exists 13. split; [exact H|].
  reflexivity.
Qed.

Lemma run_write_field_safe q f sep rest t :
  q = true \/ ~ In 13 f -> separator sep ->
  run (write_field q f ++ sep :: rest) START_FIELD t
  = run rest (after sep) (close sep (push_all f t)).
Proof.
  intros Hsafe Hsep.
  destruct (in_dec N.eq_dec 13 f) as [Hin|Hout];
    [|apply run_write_field; assumption].
  destruct Hsafe as [Hq|Hcr]; [|contradiction].
  unfold write_field. rewrite (special_cr q f Hq Hin).
  fold (doubled f). rewrite <- app_comm_cons, <- app_assoc.
  cbn [app run step].
  change (on_start_field 34 t) with (IN_QUOTED_FIELD, t).
  apply (run_in_quoted f sep rest t Hsep).
Qed.

Lemma run_first_field_safe q f rest t :
  q = true \/ ~ In 13 f ->
  run (write_field q f ++ 44 :: rest) START_RECORD t
  = run rest START_FIELD (end_field (push_all f t)).
Proof.
  intros Hsafe.
  destruct (in_dec N.eq_dec 13 f) as [Hin|Hout];
    [|apply run_first_field; assumption].
  destruct Hsafe as [Hq|Hcr]; [|contradiction].
  unfold write_field. rewrite (special_cr q f Hq Hin).
  fold (doubled f). rewrite <- app_comm_cons, <- app_assoc.
  cbn [app run step].
  change (on_start_record 34 t) with (IN_QUOTED_FIELD, t).
  apply (run_in_quoted f 44 rest t (or_introl eq_refl)).
Qed.

Lemma run_write_row_safe q f1 f2 f3 f4 rest read :
  q = true \/ ~ In 13 f1 -> ~ In 13 f2 -> ~ In 13 f3 ->
  q = true \/ ~ In 13 f4 ->
  run (write_row q [f1; f2; f3; f4] ++ rest)
      START_RECORD (Tokens [] [] read)
  = run rest START_RECORD (Tokens [] [] ([f1; f2; f3; f4] :: read)).
Proof.
  intros H1 H2 H3 H4.
  assert (E : write_row q [f1; f2; f3; f4] ++ rest
              = write_field q f1 ++ 44 :: write_field q f2 ++ 44 ::
                write_field q f3 ++ 44 :: write_field q f4 ++ 10 :: rest).
  { unfold write_row. destruct f1; cbn [join_fields];
      repeat (rewrite <- ?app_assoc; cbn [app]); reflexivity. }
  rewrite E.
  rewrite (run_first_field_safe q f1 _ _ H1).
  rewrite (run_write_field q f2 44 _ _ H2 (or_introl eq_refl)).
  rewrite (run_write_field q f3 44 _ _ H3 (or_introl eq_refl)).
  rewrite (run_write_field_safe q f4 10 _ _ H4 (or_intror eq_refl)).
  change (after 44) with START_FIELD. change (after 10) with START_RECORD.
  unfold close. cbn [N.eqb Pos.eqb].
  rewrite !push_all_tokens. unfold end_field, end_line.
  cbn [field line lines]. rewrite !app_nil_r, !rev_involutive.
  reflexivity.
Qed.

Lemma written_whole_safe q (c : option str) :
  written_whole q c = true -> q = true \/ ~ In 13 (text_field c).
Proof.
  destruct c as [s|]; cbn [written_whole text_field];
    [|intros _; right; intros []].
  intros H. apply andb_true_iff in H. destruct H as [_ H].
  apply orb_true_iff in H. destruct H as [H|H]; [left; exact H|].
  right. unfold no_cr in H. apply negb_true_iff in H.
  intros Hin.
  assert (E : existsb (N.eqb 13) s = true).
  { apply existsb_exists. exists 13. split; [exact Hin | reflexivity]. }
  rewrite E in H. discriminate H.
Qed.

Lemma run_rows_safe q (df : DataFrame) : forall read,
  forallb (texts_whole q) df = true ->
  run (flat_map (fun b => write_row q (row_fields b)) df)
      START_RECORD (Tokens [] [] read)
  = (START_RECORD, Tokens [] [] (rev (map row_fields df) ++ read)).
Proof.
  induction df as [|b df IH]; intros read Hdf; [reflexivity|].
  cbn [forallb] in Hdf. apply andb_true_iff in Hdf.
  destruct Hdf as [Hb Hdf].
  unfold texts_whole in Hb. apply andb_true_iff in Hb.
  destruct Hb as [Ht Hl].
  cbn [flat_map]. unfold row_fields at 1.
  rewrite (run_write_row_safe q _ _ _ _ _ read
             (written_whole_safe q _ Ht) (price_field_no_cr _)
             (str_of_Z_no_cr _) (written_whole_safe q _ Hl)).
  rewrite (IH _ Hdf). cbn [map rev]. rewrite <- app_assoc. reflexivity.
Qed.

Lemma tokenize_whole q (df : DataFrame) :
  forallb (texts_whole q) df = true ->
  tokenize (to_csv q df)
  = inr ([py"title"; py"price"; py"rating"; py"link"]
         :: map row_fields df).
Proof.
  intros Hdf. unfold tokenize, to_csv.
  rewrite (run_write_row q py"title" py"price" py"rating" py"link" _ []);
    try (intros H; cbn in H; intuition discriminate).
  rewrite (run_rows_safe q df _ Hdf). cbn [at_eof lines].
  rewrite rev_app_distr, rev_involutive. reflexivity.
Qed.

(** X18: whatever the titles and links hold besides (commas, quotes,
    line feeds, leading blanks, words that read as numbers), as long as
    they hold no NUL and no carriage return that the writer would leave
    unquoted, the tokenizer of [read_csv] splits the file [to_csv] wrote
    into the header and, for each record in order, the four fields as
    they were written. *)
Theorem to_csv_splits_back
  (always_quote_cr : bool) (df : DataFrame) :
  forallb (texts_whole always_quote_cr) df = true ->
  tokenize (to_csv always_quote_cr df)
  = inr ([py"title"; py"price"; py"rating"; py"link"]
         :: map row_fields df).
Proof. apply tokenize_whole. Qed.

Lemma to_csv_splits_back_witness :
  tokenize (to_csv false awkward_books)
  = inr ([py"title"; py"price"; py"rating"; py"link"]
         :: map row_fields awkward_books).
Proof.
  apply (to_csv_splits_back false awkward_books). reflexivity.
Defined.

(** *** What comes back changed *)

Lemma read_csv_whole q to_int64 to_float64 (df : DataFrame) :
  df <> [] -> forallb (texts_whole q) df = true ->
  read_csv to_int64 to_float64 (to_csv q df)
  = inr (Frame [py"title"; py"price"; py"rating"; py"link"]
           [ convert_fields to_int64 to_float64
               (map (fun b => text_field (title b)) df);
             convert_fields to_int64 to_float64
               (map (fun b => price_field (price b)) df);
             convert_fields to_int64 to_float64
               (map (fun b => str_of_Z (rating b)) df);
             convert_fields to_int64 to_float64
               (map (fun b => text_field (link b)) df) ]
           []).
Proof.
  intros Hne Hdf. unfold read_csv. rewrite (tokenize_whole q df Hdf).
  destruct df as [|b df]; [contradiction|].
  cbv zeta.
  change (match map row_fields (b :: df) with
          | [] => length [py"title"; py"price"; py"rating"; py"link"]
          | first :: _ =>
              Nat.max (length [py"title"; py"price"; py"rating"; py"link"])
                      (length first)
          end) with 4%nat.
  change (length [py"title"; py"price"; py"rating"; py"link"]) with 4%nat.
  rewrite no_long_row.
  change (4 - 4)%nat with 0%nat. cbn [seq map]. rewrite !map_map.
  cbn [nth row_fields]. reflexivity.
Qed.





(** X20: titles that all read as integers come back as integers.  When
    no title of the table written is a missing-value marker and
    [read_csv]'s integer converter reads every one of them, [load_data]
    returns a frame whose title column is an int64 column of those
    integers, not the texts: the frame is not the frame of the table. *)
Theorem integer_titles_come_back_as_integers
  (always_quote_cr : bool)
  (to_int64 : str -> option Z) (to_float64 : str -> option float)
  (df : DataFrame) (numbers : list Z) :
  df <> [] ->
  forallb (texts_whole always_quote_cr) df = true ->
  forallb (fun b => negb (is_na (text_field (title b)))) df = true ->
  all_some (map (fun b => to_int64 (text_field (title b))) df)
  = Some numbers ->
  exists fr,
    load_data to_int64 to_float64 (save always_quote_cr df) = Some fr /\
    title_column fr = Int64 numbers /\
    fr <> frame_of df.
Proof.
  intros Hne Hdf Hna Hint.
  assert (Esave : save always_quote_cr df
                  = Some (to_csv always_quote_cr df))
    by (destruct df; [contradiction | reflexivity]).
  rewrite Esave. unfold load_data.
  rewrite (read_csv_whole always_quote_cr to_int64 to_float64 df Hne Hdf).
  eexists. split; [reflexivity|].
  unfold title_column. cbn [data nth].
  assert (Hcol : convert_fields to_int64 to_float64
                   (map (fun b => text_field (title b)) df)
                 = Int64 numbers).
  { unfold convert_fields.
    replace (existsb is_na (map (fun b => text_field (title b)) df))
      with false.
    - rewrite map_map, Hint. reflexivity.
    - symmetry. apply not_true_iff_false. intros H.
      apply existsb_exists in H. destruct H as [s [Hs Hn]].
      apply in_map_iff in Hs. destruct Hs as [b [<- Hb]].
      rewrite forallb_forall in Hna. specialize (Hna b Hb).
      rewrite Hn in Hna. discriminate Hna. }
  split; [exact Hcol|].
  intros E. unfold frame_of in E. injection E as E _.
  rewrite E in Hcol. discriminate Hcol.
Qed.

Lemma integer_titles_come_back_as_integers_witness :
  exists fr,
    load_data example_int example_float (save false numbered_books)
    = Some fr /\
    title_column fr = Int64 [1984%Z; 2001%Z] /\
    fr <> frame_of numbered_books.
Proof.
  apply (integer_titles_come_back_as_integers false example_int
           example_float numbered_books [1984%Z; 2001%Z]);
    try reflexivity.
  discriminate.
Defined.

(** *** The converters on what the writer wrote *)















(** *** The round trip *)




(** The prices of the site are kept: every price of whole pence from
    10.00 to 59.99 pounds, as [parse_price] makes it of its numeral, is
    read back from its text. *)
Example pence_prices_kept :
  forallb (fun pence => price_kept (PyFloat.round_decimal false pence (-2)))
          (map Z.of_nat (seq 1000 5000))
  = true.
Proof. vm_compute. reflexivity. Qed.


End CsvSpec.

(** ** The collector's command line: properties *)

Module ParserCliSpec.

Import Parser ParserCli.

Local Open Scope Z_scope.

Lemma filter_is_write_collect (trace : list event) :
  filter is_write (map Collect trace) = [].
Proof. induction trace as [|e trace IH]; [reflexivity | exact IH]. Qed.

Lemma filter_is_request_collect (trace : list event) :
  filter is_request (map Collect trace)
  = map Collect (filter is_get trace).
Proof.
  induction trace as [|e trace IH]; [reflexivity|].
  cbn [map filter]. destruct e as [u t|s|m]; cbn [is_request is_get];
    rewrite IH; reflexivity.
Qed.

(** X14: [main] writes the output file only when [parse_books] returned
    a table with at least one record, and then once, after the last
    request, with that table as its content; when the table is empty it
    writes nothing and exits with status 1, and when the file cannot be
    opened it ends with the error, the records lost. *)
Theorem main_writes_what_was_collected
  (unicode_decimal : N -> option N)
  (network : list event -> str -> Z -> response)
  (always_quote_cr : bool) (can_write : str -> bool)
  (pages : Z) (output : str) :
  let df := fst (parse_books unicode_decimal network base_url pages []) in
  let run := main unicode_decimal network always_quote_cr can_write
               pages output in
  (df = [] -> snd run = Exit 1 /\ filter is_write (fst run) = []) /\
  (df <> [] -> can_write output = false ->
   snd run = OSError /\ filter is_write (fst run) = []) /\
  (df <> [] -> can_write output = true ->
   snd run = Finished /\
   exists before after,
     fst run = before
               ++ WriteFile output (Csv.to_csv always_quote_cr df) :: after /\
     filter is_write before = [] /\ filter is_write after = [] /\
     filter is_request after = []).
Proof.
  cbv zeta. unfold main.
  destruct (parse_books unicode_decimal network base_url pages [])
    as [df trace].
  destruct df as [|b df]; cbn [Csv.save]; cbv zeta.
  - cbn [fst snd].
    split; [|split; intros H; destruct (H eq_refl)].
    intros _. split; [reflexivity|].
    rewrite filter_app. cbn [app filter is_write].
    rewrite filter_is_write_collect. reflexivity.
  - split; [discriminate|].
    split; intros _ Hw; cbn [fst snd] in Hw |- *; rewrite Hw;
      cbn [fst snd].
    + split; [reflexivity|].
      cbn [app filter is_write]. apply filter_is_write_collect.
    + split; [reflexivity|].
      eexists _, _. split; [reflexivity|].
      cbn [app filter is_write is_request].
      rewrite filter_is_write_collect. repeat split.
Qed.

Lemma main_writes_what_was_collected_witness :
  let network := flaky_site 1 [good_article] in
  let df := fst (parse_books ascii_digits_only network base_url 1 []) in
  let run := main ascii_digits_only network false (fun _ => true)
               1 py"data/raw_data.csv" in
  snd run = Finished /\
  exists before after,
    fst run = before
              ++ WriteFile py"data/raw_data.csv" (Csv.to_csv false df)
                 :: after /\
    filter is_write before = [] /\ filter is_write after = [] /\
    filter is_request after = [].
Proof.
  cbv zeta.
  destruct (main_writes_what_was_collected ascii_digits_only
              (flaky_site 1 [good_article]) false (fun _ => true)
              1 py"data/raw_data.csv") as (_ & _ & H).
  apply H; [vm_compute; discriminate | reflexivity].
Defined.

Lemma parse_pages_all_fail ud network base_url :
  (forall past url timeout,
     exists e, network past url timeout = RequestException e) ->
  forall (pages : list Z) all_books past,
    exists new,
      parse_pages ud network base_url pages all_books past
      = (all_books, past ++ new) /\
      length (filter is_get new) = (3 * length pages)%nat.
Proof.
  intros Hfail.
  induction pages as [|page_num pages IH]; intros all_books past.
  - exists []. rewrite app_nil_r. split; reflexivity.
  - cbn [parse_pages]. unfold bind at 1, emit at 1.
    unfold bind at 1, fetch_page.
    destruct (ParserSpec.fetch_attempts_all_fail network
                (page_url base_url page_num) 3 10
                (fun p => Hfail p _ _) 3 0
                (past ++ [Print (ParsingPage page_num
                                   (page_url base_url page_num))]))
      as (errors & Hlen & Hrun); [lia | lia |].
    change (range 0 3) with (map (fun i => 0 + Z.of_nat i) (seq 0 3)).
    rewrite Hrun.
    destruct (IH all_books
                ((past ++ [Print (ParsingPage page_num
                                    (page_url base_url page_num))])
                 ++ failed_attempts (page_url base_url page_num) 3 10
                      (0 + 1) errors)) as (new & Hrest & Hgets).
    exists ([Print (ParsingPage page_num (page_url base_url page_num))]
            ++ failed_attempts (page_url base_url page_num) 3 10 (0 + 1)
                 errors ++ new).
    split; [rewrite Hrest, <- !app_assoc; reflexivity|].
    destruct (ParserSpec.failed_attempts_counts
                (page_url base_url page_num) 3 10 errors (0 + 1))
      as (Hg & _ & _).
    { intros ->. discriminate Hlen. }
    { rewrite Hlen. reflexivity. }
    cbv zeta in Hg.
    rewrite !filter_app, !length_app, Hg, Hgets, Hlen.
    cbn [filter is_get length]. lia.
Qed.

(** X15: when every request fails, [main] asked for [pages] >= 0 pages
    makes three requests for each page, writes no file and exits with
    status 1 after the no-data message. *)
Theorem main_site_down
  (unicode_decimal : N -> option N)
  (network : list event -> str -> Z -> response)
  (always_quote_cr : bool) (can_write : str -> bool)
  (pages : Z) (output : str) :
  0 <= pages ->
  (forall past url timeout,
     exists e, network past url timeout = RequestException e) ->
  let run := main unicode_decimal network always_quote_cr can_write
               pages output in
  snd run = Exit 1 /\
  filter is_write (fst run) = [] /\
  Z.of_nat (length (filter is_request (fst run))) = 3 * pages /\
  exists before, fst run = before ++ [NoDataLine].
Proof.
  intros Hpages Hfail. cbv zeta. unfold main, parse_books.
  destruct (parse_pages_all_fail unicode_decimal network base_url Hfail
              (range 1 (pages + 1)) [] []) as (new & Hrun & Hgets).
  rewrite Hrun. cbn [Csv.save app]. cbv zeta. cbn [fst snd].
  split; [reflexivity|].
  cbn [filter is_write is_request].
  rewrite !filter_app, filter_is_write_collect.
  split; [reflexivity|]. split.
  - cbn [filter is_request app].
    rewrite filter_is_request_collect, app_nil_r, length_map, Hgets.
    rewrite ParserSpec.range_length. lia.
  - exists (StartingLine pages base_url :: RuleLine :: map Collect new).
    reflexivity.
Qed.

Lemma main_site_down_witness :
  let run := main ascii_digits_only site_down false (fun _ => true)
               2 py"data/raw_data.csv" in
  snd run = Exit 1 /\
  filter is_write (fst run) = [] /\
  Z.of_nat (length (filter is_request (fst run))) = 3 * 2 /\
  exists before, fst run = before ++ [NoDataLine].
Proof.
  apply (main_site_down ascii_digits_only site_down false (fun _ => true)
           2 py"data/raw_data.csv").
  - lia.
  - intros past url timeout. exists (py"timed out"). reflexivity.
Defined.

End ParserCliSpec.

(** ** The reporter's command line: properties *)

Module AnalyzeCliSpec.

Import Analyze AnalyzeCli.

Lemma bind_returned {A B} (out : list Analyze.line) (x : A)
  (k : A -> io B) :
  bind (out, Returned x) k = (out ++ printed (k x), result (k x)).
Proof. unfold bind, printed, result. destruct (k x). reflexivity. Qed.

Lemma filter_by_price_run df max_price :
  exists out,
    filter_by_price df max_price
    = (out, Returned (filter (price_kept max_price) df)) /\
    forallb is_setup_line out = true.
Proof.
  unfold filter_by_price, price_kept.
  destruct max_price as [p|].
  - destruct (PyFloat.truthy p).
    + exists [PriceFilterLine p]. split; reflexivity.
    + exists []. rewrite AnalyzeSpec.filter_true. split; reflexivity.
  - exists []. rewrite AnalyzeSpec.filter_true. split; reflexivity.
Qed.

Lemma filter_by_rating_run df min_rating :
  exists out,
    filter_by_rating df min_rating
    = (out, Returned (filter (rating_kept min_rating) df)) /\
    forallb is_setup_line out = true.
Proof.
  unfold filter_by_rating, rating_kept.
  destruct min_rating as [r|].
  - destruct (negb (r =? 0)%Z).
    + exists [RatingFilterLine r]. split; reflexivity.
    + exists []. rewrite AnalyzeSpec.filter_true. split; reflexivity.
  - exists []. rewrite AnalyzeSpec.filter_true. split; reflexivity.
Qed.

Lemma filter_by_keyword_run re df keyword :
  compiles re keyword = true ->
  exists out,
    filter_by_keyword re df keyword
    = (out, Returned (filter (keyword_kept re keyword) df)) /\
    forallb is_setup_line out = true.
Proof.
  unfold filter_by_keyword, keyword_kept, compiles.
  destruct keyword as [k|].
  - destruct (Str.truthy k).
    + destruct (re k) as [found|]; [|discriminate].
      intros _. exists [KeywordFilterLine k]. split; reflexivity.
    + intros _. exists []. rewrite AnalyzeSpec.filter_true.
      split; reflexivity.
  - intros _. exists []. rewrite AnalyzeSpec.filter_true. split; reflexivity.
Qed.

Lemma take_In (df : DataFrame) (indexer : list nat) (b : book) :
  In b (take df indexer) -> In b df.
Proof.
  unfold take. intros H. apply in_flat_map in H.
  destruct H as [i [_ H]].
  destruct (nth_error df i) as [x|] eqn:E; [|destruct H].
  destruct H as [<-|[]]. apply (nth_error_In _ _ E).
Qed.

Lemma sort_data_run argsort df sort_by ascending :
  exists out sorted,
    sort_data argsort df sort_by ascending = (out, Returned sorted) /\
    forallb is_setup_line out = true /\
    incl sorted df /\
    ((forall c, find_column sort_by = Some c ->
        argsort_ok (sort_keys df c ascending)
                   (argsort (sort_keys df c ascending)) = true) ->
     Permutation df sorted).
Proof.
  unfold sort_data. destruct (find_column sort_by) as [c|].
  - exists [SortLine sort_by ascending], (sort_values argsort df c ascending).
    split; [reflexivity|]. split; [reflexivity|]. split.
    + intros b. apply take_In.
    + intros H. apply AnalyzeSpec.sort_values_sorted. apply H. reflexivity.
  - exists [], df. split; [reflexivity|]. split; [reflexivity|].
    split; [apply incl_refl | reflexivity].
Qed.

(** The filters and the sort of a run whose keyword compiles. *)
Lemma pipeline_run re argsort (a : args) (df : DataFrame) :
  compiles re (keyword a) = true ->
  exists out sorted,
    pipeline re argsort a df
    = (out ++ printed (display_results sorted (top a)),
       result (display_results sorted (top a))) /\
    forallb is_setup_line out = true /\
    incl sorted (filtered re a df) /\
    ((forall c, find_column (sort a) = Some c ->
        let ascending := str_eqb (order a) py"asc" in
        argsort_ok (sort_keys (filtered re a df) c ascending)
                   (argsort (sort_keys (filtered re a df) c ascending))
        = true) ->
     Permutation (filtered re a df) sorted).
Proof.
  intros Hre. unfold pipeline.
  destruct (filter_by_price_run df (max_price a)) as (o1 & E1 & S1).
  rewrite E1, bind_returned.
  destruct (filter_by_keyword_run re (filter (price_kept (max_price a)) df)
              (keyword a) Hre) as (o2 & E2 & S2).
  rewrite E2, bind_returned.
  destruct (filter_by_rating_run
              (filter (keyword_kept re (keyword a))
                 (filter (price_kept (max_price a)) df))
              (min_rating a)) as (o3 & E3 & S3).
  rewrite E3, bind_returned.
  assert (Ef : filter (rating_kept (min_rating a))
                 (filter (keyword_kept re (keyword a))
                    (filter (price_kept (max_price a)) df))
               = filtered re a df).
  { unfold filtered. rewrite !AnalyzeSpec.filter_filter.
    apply filter_ext. intros b. unfold passes. apply andb_assoc. }
  rewrite Ef. cbv zeta.
  destruct (sort_data_run argsort (filtered re a df) (sort a)
              (str_eqb (order a) py"asc")) as (o4 & sorted & E4 & S4 & I4 & P4).
  rewrite E4, bind_returned.
  exists (o1 ++ o2 ++ o3 ++ o4), sorted.
  unfold printed, result. cbn [fst snd].
  split; [rewrite <- !app_assoc; reflexivity|].
  split; [rewrite !forallb_app, S1, S2, S3, S4; reflexivity|].
  split; [exact I4 | exact P4].
Qed.

Lemma display_results_cases (df : DataFrame) (top_n : Z) :
  let shown := head df top_n in
  display_results df top_n
  = match df with
    | [] => ([NoResultsLine], Returned tt)
    | _ :: _ =>
        match all_present (map title shown),
              all_present (map link shown) with
        | Some titles, Some links =>
            (report df (length shown)
               (display_rows (map (shortened 50) titles) (map price shown)
                  (map rating shown) (map (shortened 40) links)),
             Returned tt)
        | _, _ => ([], Raised TypeErrorLen)
        end
    end.
Proof.
  cbv zeta. destruct df as [|b df]; [reflexivity|].
  unfold display_results. rewrite !AnalyzeSpec.apply_shorten.
  destruct (all_present (map title (head (b :: df) top_n))); [|reflexivity].
  destruct (all_present (map link (head (b :: df) top_n))); reflexivity.
Qed.

Lemma display_rows_cells (l : list book) : forall ts ls r,
  In r (display_rows ts (map price l) (map rating l) ls) ->
  exists b, In b l /\ d_price r = price b /\ d_rating r = rating b.
Proof.
  induction l as [|b l IH]; intros ts ls r.
  - destruct ts; intros [].
  - destruct ts as [|t ts]; [intros []|].
    destruct ls as [|x ls]; [intros []|].
    cbn [map display_rows]. intros [<-|H].
    + exists b. split; [left; reflexivity | split; reflexivity].
    + destruct (IH ts ls r H) as (b' & Hb & Hp & Hr).
      exists b'. split; [right; exact Hb | split; assumption].
Qed.

Lemma firstn_In {A} (n : nat) (l : list A) (x : A) :
  In x (firstn n l) -> In x l.
Proof.
  intros H. rewrite <- (firstn_skipn n l). apply in_or_app. left. exact H.
Qed.

Lemma head_In (df : DataFrame) (n : Z) (b : book) :
  In b (head df n) -> In b df.
Proof.
  unfold head. destruct (0 <=? n)%Z; apply firstn_In.
Qed.

Lemma In_setup_line (out : list Analyze.line) (l : Analyze.line) :
  forallb is_setup_line out = true -> In l out -> is_setup_line l = true.
Proof. intros H. rewrite forallb_forall in H. apply H. Qed.



(** A table whose titles are all missing: the same run ends with the
    [AttributeError]. *)
Example main_no_text_title :
  main (fun _ => None) insertion_argsort
    (Args py"data/raw_data.csv" (Some 10%float) None (Some py"(")
          py"price" py"asc" 10)
    [Book None 5 3 (Some py"a"); Book None 12.5 4 (Some py"b")]
  = ([LoadingLine; LoadedLine 2; DashLine;
      Report (PriceFilterLine 10%float)],
     AttributeError).
Proof. reflexivity. Qed.

(** X17: in a run whose keyword is absent or empty, or is a pattern
    that compiles while the title column of the loaded table has the
    [.str] accessor (the table has no record, or some title is a text),
    every row of the table [main] shows passes the price and the rating
    tests of the run, and the number of rows shown is at most the number
    found; and when [argsort] keeps numpy's contract on the column
    sorted by, the number found that [main] prints is the number of
    records of the loaded table that pass the three tests, and the
    no-results notice is printed exactly when there is none. *)
Theorem main_reports_what_passes
  (re : str -> option (str -> bool)) (argsort : list key -> list nat)
  (a : args) (df : DataFrame) :
  compiles re (keyword a) = true ->
  (keyword_given (keyword a) = true -> str_accessor df = true) ->
  let lines := fst (main re argsort a df) in
  (forall rows, In (Report (TableLines rows)) lines ->
     Forall (fun r => row_passes a r = true) rows) /\
  (forall found shown, In (Report (CountLine found shown)) lines ->
     shown <= found) /\
  ((forall c, find_column (sort a) = Some c ->
      let ascending := str_eqb (order a) py"asc" in
      argsort_ok (sort_keys (filtered re a df) c ascending)
                 (argsort (sort_keys (filtered re a df) c ascending))
      = true) ->
   (forall found shown, In (Report (CountLine found shown)) lines ->
      found = length (filtered re a df)) /\
   (In (Report NoResultsLine) lines <-> filtered re a df = [])).
Proof.
  intros Hre Hstr. cbv zeta. unfold main.
  assert (Egiven : keyword_given (keyword a) && negb (str_accessor df)
                   = false).
  { destruct (keyword_given (keyword a)); [|reflexivity].
    rewrite Hstr; reflexivity. }
  rewrite Egiven. cbn [fst].
  destruct (pipeline_run re argsort a df Hre)
    as (out & sorted & Erun & Hsetup & Hincl & Hperm).
  rewrite Erun. unfold printed at 1. cbn [fst].
  assert (Hin : forall l, is_setup_line l = false ->
            In (Report l)
               ([LoadingLine; LoadedLine (length df); DashLine]
                ++ map Report
                     (out ++ printed (display_results sorted (top a)))) ->
            In l (printed (display_results sorted (top a)))).
  { intros l Hl H. cbn [app] in H.
    repeat (destruct H as [H|H]; [discriminate H|]).
    apply in_map_iff in H. destruct H as [x [E H]]. injection E as ->.
    apply in_app_iff in H. destruct H as [H|H]; [|exact H].
    rewrite (In_setup_line out l Hsetup H) in Hl. discriminate. }
  assert (Hcases := display_results_cases sorted (top a)).
  cbv zeta in Hcases.
  split; [|split].
  - intros rows H. apply Hin in H; [|reflexivity].
    rewrite Hcases in H. destruct sorted as [|s sorted].
    { cbn in H. intuition discriminate. }
    destruct (all_present (map title (head (s :: sorted) (top a))))
      as [titles|]; [|destruct H].
    destruct (all_present (map link (head (s :: sorted) (top a))))
      as [links|]; [|destruct H].
    cbn in H.
    repeat (destruct H as [H|H]; [try discriminate H|]); [|destruct H].
    injection H as <-.
    apply Forall_forall. intros r Hr.
    apply display_rows_cells in Hr. destruct Hr as (b & Hb & Hp & Hrt).
    apply head_In in Hb. apply Hincl in Hb.
    unfold filtered in Hb. apply filter_In in Hb. destruct Hb as [_ Hb].
    unfold passes in Hb. apply andb_true_iff in Hb. destruct Hb as [Hb Hr].
    apply andb_true_iff in Hb. destruct Hb as [Hb _].
    unfold row_passes. rewrite Hp, Hrt.
    unfold price_kept in Hb. unfold rating_kept in Hr.
    rewrite Hb, Hr. reflexivity.
  - intros found shown H. apply Hin in H; [|reflexivity].
    rewrite Hcases in H. destruct sorted as [|s sorted].
    { cbn in H. intuition discriminate. }
    destruct (all_present (map title (head (s :: sorted) (top a))))
      as [titles|]; [|destruct H].
    destruct (all_present (map link (head (s :: sorted) (top a))))
      as [links|]; [|destruct H].
    cbn [printed fst report] in H.
    repeat (destruct H as [H|H]; [try discriminate H|]); [|destruct H].
    injection H as <- <-. apply AnalyzeSpec.head_shorter.
  - intros Hok. specialize (Hperm Hok).
    assert (Hlen := Permutation_length Hperm).
    split.
    + intros found shown H. apply Hin in H; [|reflexivity].
      rewrite Hcases in H. destruct sorted as [|s sorted].
      { cbn in H. intuition discriminate. }
      destruct (all_present (map title (head (s :: sorted) (top a))))
        as [titles|]; [|destruct H].
      destruct (all_present (map link (head (s :: sorted) (top a))))
        as [links|]; [|destruct H].
      cbn [printed fst report] in H.
      repeat (destruct H as [H|H]; [try discriminate H|]); [|destruct H].
      injection H as <- _. symmetry. exact Hlen.
    + split.
      * intros H. apply Hin in H; [|reflexivity].
        rewrite Hcases in H. destruct sorted as [|s sorted].
        { apply length_zero_iff_nil. exact Hlen. }
        exfalso.
        destruct (all_present (map title (head (s :: sorted) (top a))))
          as [titles|]; [|destruct H].
        destruct (all_present (map link (head (s :: sorted) (top a))))
          as [links|]; [|destruct H].
        cbn in H. intuition discriminate.
      * intros E. rewrite E in Hperm. apply Permutation_nil in Hperm.
        subst sorted. cbn [app]. do 3 right.
        apply in_map, in_or_app. right. left. reflexivity.
Qed.

Lemma main_reports_what_passes_witness :
  let a := Args py"data/raw_data.csv" (Some 10%float) (Some 4%Z)
             (Some py"a") py"price" py"desc" 10 in
  let lines := fst (main literal_search insertion_argsort a four_books) in
  (forall rows, In (Report (TableLines rows)) lines ->
     Forall (fun r => row_passes a r = true) rows) /\
  (forall found shown, In (Report (CountLine found shown)) lines ->
     shown <= found).
Proof.
  cbv zeta.
  destruct (main_reports_what_passes literal_search insertion_argsort
              (Args py"data/raw_data.csv" (Some 10%float) (Some 4%Z)
                    (Some py"a") py"price" py"desc" 10)
              four_books eq_refl (fun _ => eq_refl)) as (H1 & H2 & _).
  split; [exact H1 | exact H2].
Defined.

End AnalyzeCliSpec.
